(** * Student dropout predictor: the risk-scoring pipeline

    A shallow embedding of the core of the repository:
    - [model_trainer.py]       (class [DropoutPredictor]),
    - [explainability.py]      (class [ModelExplainer]),
    - [data_processor.py]      (class [DataProcessor]),
    - [intervention_system.py] (class [InterventionRecommender]),
    - [config.py]              (constants),
    followed by the properties of the specification stated over it.

    Embedded: [prepare_training_data], [_create_synthetic_target],
    [predict], [save_model] and [load_model]; [initialize_explainer],
    [explain_global] and [explain_local]; [_clean_data_types] and
    [_handle_missing_values]; [analyze_student_risk_factors] and its five
    analyzers. Fitting the ensemble ([train]), plotting, export and the
    HTTP layer are not part of the development.

    Conventions.
    - A finite Python/NumPy number is an exact rational ([Q]); a decimal
      literal of the source denotes its decimal value and arithmetic is
      exact.  [NaN] is a value of its own and every ordered comparison
      with it is false, as in IEEE 754.  Infinite floats are outside the
      development.
    - The probabilities of the ensemble are single-precision scalars
      ([np.float32]); a comparison of one with a Python float is made in
      single precision, the Python float rounded first (NumPy 2), and
      the rounding is written out ([float32]).
    - pandas either lets an in-place update of [df[col]] reach [df] or,
      with copy-on-write, keeps it to the temporary column; the code that
      depends on it takes the mode as [copy_on_write].
    - Python exceptions are values of [exn]; a call that may raise returns
      a [result].
    - A [dict] with string keys is a [gmap string _], and [d.get(k, v)]
      is [default v (d !! k)]; a dict whose order of insertion is part of
      the result is an association list.
    - A pandas [DataFrame] is its row count and its ordered, named columns.
      Where the code reads a column by its label the labels are taken to
      be distinct: with a repeated label [df[col]] is a frame, not a
      column. The properties that need it state it ([NoDup]).
    - The gradient-boosted ensemble and the SHAP tree explainer are code of
      external libraries: they appear as records of functions. *)

From Stdlib Require Import QArith Qabs Qround ZArith Lia Ascii String.
From stdpp Require Import gmap strings list pretty sorting.

(* ===================================================================== *)
(** * Python values, exceptions                                           *)
(* ===================================================================== *)

Module Py.

(** The built-in exceptions the modelled code can raise or meet. *)
Inductive exn : Type :=
| ValueError (msg : string)
| KeyError (missing : list string)
| TypeError (msg : string)
| IndexError (pos : nat)
| AttributeError (msg : string)
| IOError (path : string).

Inductive result (A : Type) : Type :=
| Return (a : A)
| Raise (e : exn).
Arguments Return {A} a.
Arguments Raise {A} e.

Definition bind {A B} (r : result A) (k : A -> result B) : result B :=
  match r with
  | Return a => k a
  | Raise e => Raise e
  end.

(** [mapM f l]: a comprehension whose body may raise; the first
    exception, left to right, wins. *)
Fixpoint mapM {A B} (f : A -> result B) (l : list A) : result (list B) :=
  match l with
  | [] => Return []
  | x :: l' =>
      bind (f x) (fun y => bind (mapM f l') (fun ys => Return (y :: ys)))
  end.

Definition returns {A} (r : result A) : Prop := exists a, r = Return a.
Definition raises {A} (r : result A) : Prop := exists e, r = Raise e.

(** Exact comparison of finite numbers. *)
Definition Qltb (x y : Q) : bool := negb (Qle_bool y x).
Definition Qgeb (x y : Q) : bool := Qle_bool y x.
Definition Qgtb (x y : Q) : bool := negb (Qle_bool x y).

(** ** Single precision *)

(** [floor(log2 q)] for a positive [q]. *)
Definition Qlog2 (q : Q) : Z :=
  let k := (Z.log2 (Qnum q) - Z.log2 (Zpos (Qden q)))%Z in
  if Qle_bool (Qpower 2 k) q then k else (k - 1)%Z.

(** The nearest integer, a tie going to the even one. *)
Definition round_half_even (q : Q) : Z :=
  let f := Qfloor q in
  match (q - inject_Z f ?= 1 # 2)%Q with
  | Lt => f
  | Gt => (f + 1)%Z
  | Eq => if Z.even f then f else (f + 1)%Z
  end.

(** [np.float32(q)] for a [q] in the range of single precision: the
    nearest number with 24 significant bits, the exponent not under that
    of the smallest normal number. *)
Definition float32 (q : Q) : Q :=
  if Qeq_bool q 0 then 0%Q
  else
    let e := Z.max (Qlog2 (Qabs q)) (-126) in
    let ulp := Qpower 2 (e - 23) in
    Qred (inject_Z (round_half_even (q / ulp)) * ulp).

Arguments float32 : simpl never.

(** [x >= y] for a [np.float32] scalar [x] and a Python float [y]: [y]
    is rounded to single precision and the two are compared. *)
Definition float32_ge (x y : Q) : bool := Qgeb x (float32 y).

(** A Python float: not-a-number or a finite value. *)
Inductive pyfloat : Type :=
| nan
| fin (q : Q).

(** [x < c] for a float [x] and a finite [c]. *)
Definition float_lt (x : pyfloat) (c : Q) : bool :=
  match x with
  | nan => false
  | fin q => Qltb q c
  end.

(** [int(b)] for a boolean. *)
Definition int_of_bool (b : bool) : Z := if b then 1%Z else 0%Z.

(** [x > c] for a float [x] and a finite [c]. *)
Definition float_gt (x : pyfloat) (c : Q) : bool :=
  match x with
  | nan => false
  | fin q => Qgtb q c
  end.

(** A stable descending sort ([list.sort(..., reverse=True)],
    [sort_values(..., ascending=False)]): [gt] is the strict order of
    the keys, and entries with equal keys keep their original order. *)
Fixpoint insert_desc {A} (gt : A -> A -> bool) (x : A) (l : list A) : list A :=
  match l with
  | [] => [x]
  | y :: l' => if gt y x then y :: insert_desc gt x l' else x :: y :: l'
  end.

Definition sort_desc {A} (gt : A -> A -> bool) (l : list A) : list A :=
  foldr (insert_desc gt) [] l.

(** [x] may stand before [y] in a descending order: [y] is not strictly
    greater. *)
Definition not_after {A} (gt : A -> A -> bool) (x y : A) : Prop :=
  gt y x = false.

End Py.

Export Py.

Declare Scope py_scope.
Delimit Scope py_scope with py.
Notation "x <- r ;; k" := (bind r (fun x => k))
  (at level 100, r at next level, right associativity) : py_scope.
Open Scope py_scope.

(* ===================================================================== *)
(** * config.py                                                           *)
(* ===================================================================== *)

Module Config.

(** [RISK_THRESHOLDS = {"high": 0.65, "medium": 0.35, "low": 0.0}] *)
Definition RISK_THRESHOLDS : gmap string Q :=
  <["low" := 0.0%Q]> (<["medium" := 0.35%Q]> (<["high" := 0.65%Q]> ∅)).

(** [RISK_THRESHOLDS[k]]: subscripting a dict raises [KeyError] on an
    absent key. *)
Definition threshold (k : string) : result Q :=
  match RISK_THRESHOLDS !! k with
  | Some v => Return v
  | None => Raise (KeyError [k])
  end.

(** [FEE_PAYMENT_MAPPING] *)
Definition FEE_PAYMENT_MAPPING : gmap string Q :=
  list_to_map
    [ ("paid", 1%Q); ("partial", 0.5%Q); ("unpaid", 0%Q);
      ("1", 1%Q); ("0", 0%Q); ("2", 0.5%Q) ].

(** [GENDER_MAPPING] *)
Definition GENDER_MAPPING : gmap string Q :=
  list_to_map
    [ ("male", 1%Q); ("female", 0%Q); ("other", 2%Q);
      ("m", 1%Q); ("f", 0%Q); ("o", 2%Q) ].

End Config.

(* ===================================================================== *)
(** * The pandas operations the code uses                                 *)
(* ===================================================================== *)

Module Pandas.

(** One entry of a column: missing ([NaN]), an integer, a float or a
    string. (pandas stores an integer that stands next to a float or a
    missing entry as the float of the same value; here it stays [Int].) *)
Inductive cell : Type :=
| NaN
| Int (z : Z)
| Float (q : Q)
| Str (s : string).

Definition Series : Type := list cell.

(** [len(df)] and the columns in order. *)
Record DataFrame : Type := mkFrame {
  nrows : nat;
  columns : list (string * Series)
}.

(** Every column of a frame has one entry per row. *)
Definition wf_frame (df : DataFrame) : Prop :=
  Forall (fun c : string * Series => length c.2 = nrows df) (columns df).

Inductive dtype : Type := int64 | float64 | object.

Definition is_str (c : cell) : bool :=
  match c with Str _ => true | _ => false end.
Definition is_int (c : cell) : bool :=
  match c with Int _ => true | _ => false end.

(** [s.isnull()] entrywise. *)
Definition isnull (c : cell) : bool :=
  match c with NaN => true | _ => false end.

(** The dtype pandas infers for a column with these entries. *)
Definition dtype_of (s : Series) : dtype :=
  if existsb is_str s then object
  else if forallb is_int s && negb (Nat.eqb (length s) 0) then int64
  else float64.

(** The numeric value of an entry, when it has one. *)
Definition cell_num (c : cell) : option Q :=
  match c with
  | Int z => Some (inject_Z z)
  | Float q => Some q
  | NaN | Str _ => None
  end.

Definition column_names (df : DataFrame) : list string :=
  map fst (columns df).

(** [col in df.columns] *)
Definition has_column (df : DataFrame) (col : string) : bool :=
  existsb (String.eqb col) (column_names df).

Fixpoint assoc {A} (k : string) (l : list (string * A)) : option A :=
  match l with
  | [] => None
  | (k', v) :: l' => if String.eqb k k' then Some v else assoc k l'
  end.

(** [df[col]] *)
Definition getitem (df : DataFrame) (col : string) : result Series :=
  match assoc col (columns df) with
  | Some s => Return s
  | None => Raise (KeyError [col])
  end.

(** [df[cols]] for a list of labels: the listed columns in the listed
    order; pandas raises [KeyError] naming the labels that are not
    columns of [df]. *)
Definition getitem_list (df : DataFrame) (cols : list string)
  : result DataFrame :=
  match List.filter (fun c => negb (has_column df c)) cols with
  | [] =>
      Return (mkFrame (nrows df)
                (map (fun c => (c, default [] (assoc c (columns df)))) cols))
  | missing => Raise (KeyError missing)
  end.

(** [df.reindex(columns=cols, fill_value=v)]: the listed columns in the
    listed order, an absent one created with [v] in every row. *)
Definition reindex (df : DataFrame) (cols : list string) (v : cell)
  : DataFrame :=
  mkFrame (nrows df)
    (map (fun c => (c, default (replicate (nrows df) v)
                         (assoc c (columns df)))) cols).

(** [s < c] entrywise, for a finite scalar [c]. A missing entry compares
    false; a string entry makes pandas raise [TypeError]. *)
Definition cell_lt (c : Q) (x : cell) : result bool :=
  match x with
  | NaN => Return false
  | Int z => Return (Qltb (inject_Z z) c)
  | Float q => Return (Qltb q c)
  | Str _ => Raise (TypeError "'<' not supported between instances of 'str' and 'int'")
  end.

Definition series_lt (s : Series) (c : Q) : result (list bool) :=
  mapM (cell_lt c) s.

(** Ascending sort of finite numbers. *)
Fixpoint insert_asc (x : Q) (l : list Q) : list Q :=
  match l with
  | [] => [x]
  | y :: l' => if Qle_bool x y then x :: y :: l' else y :: insert_asc x l'
  end.

Definition sort_asc (l : list Q) : list Q := foldr insert_asc [] l.

(** The median of the finite numbers [l]: the middle one, or the mean of
    the two middle ones. *)
Definition median_of (l : list Q) : option Q :=
  let s := sort_asc l in
  let n := length s in
  let lo := nth (n / 2 - 1) s 0%Q in
  let hi := nth (n / 2) s 0%Q in
  if Nat.eqb n 0 then None
  else if Nat.even n then Some (Qred ((lo + hi) / 2)%Q)
       else Some hi.

(** The non-missing numbers of a column. *)
Definition numbers (s : Series) : list Q := omap cell_num s.

(** [s.median()] of a numeric column: missing entries are skipped; the
    result is [NaN] when nothing is left. *)
Definition numeric_median (s : Series) : cell :=
  match median_of (numbers s) with
  | Some q => Float q
  | None => NaN
  end.

(** [s.median()]: a string entry makes pandas raise [TypeError]. *)
Definition series_median (s : Series) : result cell :=
  if existsb is_str s
  then Raise (TypeError "could not convert string to float")
  else Return (numeric_median s).

(** [s.fillna(v)]: filling with [NaN] changes nothing. *)
Definition series_fillna (v : cell) (s : Series) : Series :=
  map (fun c => if isnull c then v else c) s.

(** [df.median()]: one entry per column. *)
Definition frame_median (df : DataFrame) : result (list (string * cell)) :=
  mapM (fun c : string * Series =>
          m <- series_median c.2 ;; Return (c.1, m)) (columns df).

(** [df.fillna(values)] for a per-column series of fill values. *)
Definition frame_fillna (df : DataFrame) (values : list (string * cell))
  : DataFrame :=
  mkFrame (nrows df)
    (map (fun c : string * Series =>
            match assoc c.1 values with
            | Some v => (c.1, series_fillna v c.2)
            | None => c
            end) (columns df)).

(** Row [i] of the frame, in column order. *)
Definition row (df : DataFrame) (i : nat) : list cell :=
  map (fun c : string * Series => nth i c.2 NaN) (columns df).

Definition rows (df : DataFrame) : list (list cell) :=
  map (row df) (seq 0 (nrows df)).

(** [df.iloc[positions]]: the rows at these positions, in this order;
    a position past the end raises [IndexError]. *)
Definition iloc (df : DataFrame) (positions : list nat) : result DataFrame :=
  match List.filter (fun i => negb (Nat.ltb i (nrows df))) positions with
  | [] =>
      Return (mkFrame (length positions)
                (map (fun c : string * Series =>
                        (c.1, map (fun i => nth i c.2 NaN) positions))
                     (columns df)))
  | i :: _ => Raise (IndexError i)
  end.

(** [df.select_dtypes(include=[np.number]).columns.tolist()] *)
Definition numeric_columns (df : DataFrame) : list string :=
  map fst (List.filter (fun c : string * Series =>
                     match dtype_of c.2 with
                     | int64 | float64 => true
                     | object => false
                     end) (columns df)).

End Pandas.

Export Pandas.

(* ===================================================================== *)
(** * model_trainer.py: class DropoutPredictor                            *)
(* ===================================================================== *)

Module ModelTrainer.

Import Config.

(** The fitted [xgb.XGBClassifier], seen through the two calls the code
    makes on it: for one feature row, the class [model.predict] returns
    and the probability [model.predict_proba(...)[:, 1]]. *)
Record XGBClassifier : Type := mkClassifier {
  xgb_predict : list cell -> Z;
  xgb_predict_proba : list cell -> Q
}.

(** The fields [__init__] creates that the modelled methods use.
    [label_encoder] and [scaler] are never read. *)
Record DropoutPredictor : Type := mkPredictor {
  model : option XGBClassifier;
  feature_columns : list string;
  training_metrics : gmap string Q;
  model_version : option string;
  is_trained : bool
}.

(** [DropoutPredictor()] *)
Definition init : DropoutPredictor :=
  mkPredictor None [] ∅ None false.

(** ** Methods that assign fields: state and exceptions *)

(** A method body: it receives [self], may assign its fields, and either
    returns or raises; assignments made before a [raise] remain. *)
Definition method (A : Type) : Type :=
  DropoutPredictor -> result A * DropoutPredictor.

Definition ret {A} (a : A) : method A := fun self => (Return a, self).
Definition lift {A} (r : result A) : method A := fun self => (r, self).

Definition andthen {A B} (c : method A) (k : A -> method B) : method B :=
  fun self =>
    match c self with
    | (Return a, self') => k a self'
    | (Raise e, self') => (Raise e, self')
    end.

(** [try: body  except Exception as e: handler] *)
Definition try_except {A} (body : method A) (handler : exn -> method A)
  : method A :=
  fun self =>
    match body self with
    | (Return a, self') => (Return a, self')
    | (Raise e, self') => handler e self'
    end.

Definition set_model (m : option XGBClassifier) : method unit :=
  fun self => (Return tt,
    mkPredictor m (feature_columns self) (training_metrics self)
                (model_version self) (is_trained self)).
Definition set_feature_columns (cols : list string) : method unit :=
  fun self => (Return tt,
    mkPredictor (model self) cols (training_metrics self)
                (model_version self) (is_trained self)).
Definition set_training_metrics (ms : gmap string Q) : method unit :=
  fun self => (Return tt,
    mkPredictor (model self) (feature_columns self) ms
                (model_version self) (is_trained self)).
Definition set_model_version (v : option string) : method unit :=
  fun self => (Return tt,
    mkPredictor (model self) (feature_columns self) (training_metrics self)
                v (is_trained self)).
Definition set_is_trained (b : bool) : method unit :=
  fun self => (Return tt,
    mkPredictor (model self) (feature_columns self) (training_metrics self)
                (model_version self) b).

Declare Scope method_scope.
Delimit Scope method_scope with method.
Notation "x <- c ;; k" := (andthen c (fun x => k))
  (at level 100, c at next level, right associativity) : method_scope.
Notation "c ;;; k" := (andthen c (fun _ => k))
  (at level 100, k at level 200, right associativity) : method_scope.

(** ** The synthetic label *)

(** [target += flags.astype(int) * weight], position by position. *)
Definition add_flags (target : list Z) (flags : list bool) (weight : Z)
  : list Z :=
  zip_with Z.add target (map (fun b => int_of_bool b * weight)%Z flags).

(** One [if col in df.columns: target += (df[col] < bound).astype(int) * weight] *)
Definition risk_indicator (df : DataFrame) (col : string) (bound : Q)
    (weight : Z) (target : list Z) : result (list Z) :=
  if has_column df col
  then s <- getitem df col ;;
       flags <- series_lt s bound ;;
       Return (add_flags target flags weight)
  else Return target.

Definition _create_synthetic_target (df : DataFrame) : result (list Z) :=
  let target := replicate (nrows df) 0%Z in
  target <- risk_indicator df "attendance_percentage" 60 2 target ;;
  target <- risk_indicator df "assignment_timeliness" 50 2 target ;;
  target <- risk_indicator df "quiz_test_avg_pct" 50 2 target ;;
  target <- risk_indicator df "fee_payment_status" 0.5 1 target ;;
  target <- risk_indicator df "lms_login_count_monthly" 5 1 target ;;
  Return (map (fun w => int_of_bool (Z.geb w 3)) target).

(** [prepare_training_data(df, target_column)]: the features, the target
    and the assignment to [self.feature_columns]. *)
Definition prepare_training_data (df : DataFrame) (target_column : string)
  : method (DataFrame * Series) :=
  (target <- lift (if negb (has_column df target_column)
                   then (t <- _create_synthetic_target df ;;
                         Return (map Int t))%py
                   else getitem df target_column) ;;
   let feature_cols :=
     List.filter (fun col => negb (existsb (String.eqb col)
                                     ["student_id"; target_column]))
                 (numeric_columns df) in
   set_feature_columns feature_cols ;;;
   features <- lift (getitem_list df feature_cols) ;;
   medians <- lift (frame_median features) ;;
   ret (frame_fillna features medians, target))%method.

(** ** Prediction *)

(** The body of the loop of [predict] for one probability: [prob] is an
    entry of the [float32] array [predict_proba] returns and the
    thresholds are Python floats. *)
Definition risk_label (prob : Q) : result string :=
  high <- threshold "high" ;;
  if float32_ge prob high then Return "High"
  else medium <- threshold "medium" ;;
       if float32_ge prob medium then Return "Medium"
       else Return "Low".

(** [for prob in probabilities: ... risk_labels.append(...)] *)
Fixpoint risk_labels_loop (probabilities : list Q) (risk_labels : list string)
  : result (list string) :=
  match probabilities with
  | [] => Return risk_labels
  | prob :: rest =>
      l <- risk_label prob ;;
      risk_labels_loop rest (risk_labels ++ [l])
  end.

(** [self.model.predict(...)]: calling a method of [None] raises. *)
Definition the_model (self : DropoutPredictor) : result XGBClassifier :=
  match model self with
  | Some m => Return m
  | None => Raise (AttributeError "'NoneType' object has no attribute 'predict'")
  end.

Definition predict (self : DropoutPredictor) (X : DataFrame)
  : result (list Z * list Q * list string) :=
  if negb (is_trained self)
  then Raise (ValueError "Model must be trained before making predictions")
  else
    selected <- getitem_list X (feature_columns self) ;;
    medians <- frame_median selected ;;
    let X_processed := frame_fillna selected medians in
    m <- the_model self ;;
    let predictions := map (xgb_predict m) (rows X_processed) in
    let probabilities := map (xgb_predict_proba m) (rows X_processed) in
    risk_labels <- risk_labels_loop probabilities [] ;;
    Return (predictions, probabilities, risk_labels).

(** ** Persistence *)

(** What [joblib.load] can find at a path: bytes that do not unpickle,
    an object that is not a mapping, or a [dict] with some of the keys
    [save_model] writes. *)
Record model_data : Type := mkModelData {
  md_model : option XGBClassifier;
  md_feature_columns : option (list string);
  md_model_version : option (option string);
  md_training_metrics : option (gmap string Q)
}.

Inductive artifact : Type :=
| Corrupt
| NotAMapping
| Pickled (d : model_data).

Abbreviation filesystem := (gmap string artifact).

Definition joblib_load (fs : filesystem) (filepath : string)
  : result artifact :=
  match fs !! filepath with
  | None => Raise (IOError filepath)
  | Some Corrupt => Raise (ValueError "could not unpickle")
  | Some a => Return a
  end.

(** [model_data[key]] *)
Definition subscript {A} (a : artifact) (key : string)
    (field : model_data -> option A) : result A :=
  match a with
  | Pickled d =>
      match field d with
      | Some v => Return v
      | None => Raise (KeyError [key])
      end
  | _ => Raise (TypeError "object is not subscriptable")
  end.

(** [model_data.get('training_metrics', {})] *)
Definition get_training_metrics (a : artifact) : result (gmap string Q) :=
  match a with
  | Pickled d => Return (default ∅ (md_training_metrics d))
  | _ => Raise (AttributeError "object has no attribute 'get'")
  end.

Definition load_model (fs : filesystem) (filepath : string) : method bool :=
  (try_except
     (model_data <- lift (joblib_load fs filepath) ;;
      m <- lift (subscript model_data "model" md_model) ;;
      set_model (Some m) ;;;
      cols <- lift (subscript model_data "feature_columns" md_feature_columns) ;;
      set_feature_columns cols ;;;
      v <- lift (subscript model_data "model_version" md_model_version) ;;
      set_model_version v ;;;
      ms <- lift (get_training_metrics model_data) ;;
      set_training_metrics ms ;;;
      set_is_trained true ;;;
      ret true)
     (fun e => ret false))%method.

(** [save_model(filepath)] with an explicit path. *)
Definition save_model (self : DropoutPredictor) (fs : filesystem)
    (filepath : string) : result (string * filesystem) :=
  if negb (is_trained self)
  then Raise (ValueError "No trained model to save")
  else
    let data := mkModelData (model self) (Some (feature_columns self))
                  (Some (model_version self))
                  (Some (training_metrics self)) in
    Return (filepath, <[filepath := Pickled data]> fs).

End ModelTrainer.

Export ModelTrainer.

(* ===================================================================== *)
(** * explainability.py: class ModelExplainer                             *)
(* ===================================================================== *)

Module Explainability.

(** A [shap.TreeExplainer] object, seen through what the code reads:
    [explainer.expected_value] and, for one feature row, the row of
    [explainer.shap_values(X)]. *)
Record TreeExplainer : Type := mkTreeExplainer {
  tree_expected_value : Q;
  tree_shap_values : list cell -> list Q
}.

(** The fields of a [ModelExplainer]. [self.model] is a reference to a
    [DropoutPredictor] that lives outside the explainer; the methods
    below receive the current state of that object as [predictor]. *)
Record ModelExplainer : Type := mkExplainer {
  explainer : option TreeExplainer;
  shap_values : option (list (list Q));
  expected_value : option Q
}.

(** [ModelExplainer(model)] *)
Definition init : ModelExplainer := mkExplainer None None None.

Record feature_contribution : Type := mkContribution {
  feature : string;
  shap_value : Q;
  abs_shap_value : Q
}.

Record explanation : Type := mkExplanation {
  student_index : nat;
  prediction : Z;
  probability : Q;
  risk_level : string;
  top_features : list feature_contribution;
  explanation_shap_values : list Q;
  feature_values : list (string * cell);
  explanation_expected_value : option Q
}.

Record local_report : Type := mkLocalReport {
  explanations : list explanation;
  local_expected_value : option Q
}.

Record global_report : Type := mkGlobalReport {
  feature_importance : list (string * pyfloat);
  feature_impact : list (string * pyfloat * pyfloat);
  global_shap_values : list (list Q);
  global_expected_value : option Q
}.

(** [a > b] on floats, a [nan] ordered after every number as
    [sort_values] does. *)
Definition float_gtb (a b : pyfloat) : bool :=
  match a, b with
  | fin x, fin y => Qgtb x y
  | fin _, nan => true
  | nan, _ => false
  end.

(** [f(matrix).mean(axis=0)] for a matrix with [ncols] columns: the mean
    over no rows is [nan]. *)
Definition column_means (f : Q -> Q) (ncols : nat) (matrix : list (list Q))
  : list pyfloat :=
  match matrix with
  | [] => replicate ncols nan
  | _ =>
      map (fun j =>
             let total := foldr Qplus 0%Q (map (fun r => f (nth j r 0%Q)) matrix) in
             fin (Qred (total / inject_Z (Z.of_nat (length matrix)))))
          (seq 0 ncols)
  end.

Definition indicator (b : bool) : Q := if b then 1%Q else 0%Q.

Section WithShap.

(** [shap.TreeExplainer(model)], the constructor of the library. *)
Variable shap_TreeExplainer : XGBClassifier -> TreeExplainer.

Definition initialize_explainer (self : ModelExplainer)
    (predictor : DropoutPredictor) (X_background : DataFrame)
  : result ModelExplainer :=
  if negb (is_trained predictor)
  then Raise (ValueError "Model must be trained before initializing explainer")
  else
    match model predictor with
    | None => Raise (TypeError "Model type not yet supported by TreeExplainer")
    | Some m =>
        let e := shap_TreeExplainer m in
        Return (mkExplainer (Some e) (shap_values self)
                            (Some (tree_expected_value e)))
    end.

End WithShap.

(** [pd.DataFrame({'feature': names, ...: values})]: the columns of a
    frame must have one length. *)
Definition same_length {A B} (names : list A) (values : list B) : result unit :=
  if Nat.eqb (length names) (length values) then Return tt
  else Raise (ValueError "All arrays must be of the same length").

Definition explain_global (self : ModelExplainer)
    (predictor : DropoutPredictor) (X : DataFrame) : result global_report :=
  match explainer self with
  | None => Raise (ValueError "Explainer not initialized. Call initialize_explainer first.")
  | Some e =>
      let shap_values := map (tree_shap_values e) (rows X) in
      let ncols := length (columns X) in
      let importance := column_means Qabs ncols shap_values in
      _ <- same_length (feature_columns predictor) importance ;;
      let feature_importance :=
        sort_desc (fun a b : string * pyfloat => float_gtb a.2 b.2)
                  (zip (feature_columns predictor) importance) in
      let positive :=
        column_means (fun v => indicator (Qgtb v 0)) ncols shap_values in
      let negative :=
        column_means (fun v => indicator (Qltb v 0)) ncols shap_values in
      let feature_impact :=
        zip (zip (feature_columns predictor) positive) negative in
      Return (mkGlobalReport feature_importance feature_impact
                             shap_values (expected_value self))
  end.

(** The risk level of [explain_local]: [probability] is an entry of the
    [float32] array [predict_proba] returns, compared with the literals
    [0.65] and [0.35]. *)
Definition local_risk_level (probability : Q) : string :=
  if float32_ge probability 0.65 then "High"
  else if float32_ge probability 0.35 then "Medium"
  else "Low".

(** The body of the loop of [explain_local] for position [i] of the
    selection. *)
Definition explain_one (self : ModelExplainer) (predictor : DropoutPredictor)
    (X_selected : DataFrame) (shap_values : list (list Q))
    (i student_idx : nat) : result explanation :=
  let student_shap := nth i shap_values [] in
  _ <- same_length (feature_columns predictor) student_shap ;;
  let feature_contributions :=
    sort_desc (fun a b => Qgtb (abs_shap_value a) (abs_shap_value b))
      (zip_with (fun n v => mkContribution n v (Qabs v))
                (feature_columns predictor) student_shap) in
  let top_features := take 3 feature_contributions in
  m <- the_model predictor ;;
  let prediction := xgb_predict m (row X_selected i) in
  let probability := xgb_predict_proba m (row X_selected i) in
  let risk_level := local_risk_level probability in
  Return (mkExplanation student_idx prediction probability risk_level
            top_features student_shap
            (zip (column_names X_selected) (row X_selected i))
            (expected_value self)).

Definition explain_local (self : ModelExplainer)
    (predictor : DropoutPredictor) (X : DataFrame)
    (student_indices : option (list nat)) : result local_report :=
  match explainer self with
  | None => Raise (ValueError "Explainer not initialized. Call initialize_explainer first.")
  | Some e =>
      let student_indices := default (seq 0 (nrows X)) student_indices in
      X_selected <- iloc X student_indices ;;
      let shap_values := map (tree_shap_values e) (rows X_selected) in
      local_explanations <-
        mapM (fun p : nat * nat =>
                explain_one self predictor X_selected shap_values p.1 p.2)
             (zip (seq 0 (length student_indices)) student_indices) ;;
      Return (mkLocalReport local_explanations (expected_value self))
  end.

End Explainability.

(* ===================================================================== *)
(** * data_processor.py: class DataProcessor                              *)
(* ===================================================================== *)

Module DataProcessor.

Import Config.

(** ** Strings *)

Definition chars (s : string) : list ascii := list_ascii_of_string s.
Definition of_chars (l : list ascii) : string := string_of_list_ascii l.

(** [s.replace(c, '')] for a one-character [c]. *)
Definition remove_char (c : ascii) (s : string) : string :=
  of_chars (List.filter (fun a => negb (Ascii.eqb a c)) (chars s)).

Definition is_space (a : ascii) : bool :=
  let n := N_of_ascii a in
  ((9 <=? n) && (n <=? 13) || (28 <=? n) && (n <=? 32))%N.

Fixpoint lstrip (l : list ascii) : list ascii :=
  match l with
  | a :: l' => if is_space a then lstrip l' else l
  | [] => []
  end.

(** [s.strip()] *)
Definition strip (s : string) : string :=
  of_chars (rev (lstrip (rev (lstrip (chars s))))).

Definition lower_char (a : ascii) : ascii :=
  let n := N_of_ascii a in
  if ((65 <=? n) && (n <=? 90))%N then ascii_of_N (n + 32) else a.

(** [s.lower()] *)
Definition lower (s : string) : string :=
  of_chars (map lower_char (chars s)).

(** ** Numbers read from text *)

Definition digit (a : ascii) : option Z :=
  let n := Z.of_N (N_of_ascii a) in
  if ((48 <=? n) && (n <=? 57))%Z then Some (n - 48)%Z else None.

(** [pd.to_numeric] reads a string with the number parser of pandas
    ([precise_xstrtod]): blanks, a sign, digits, a decimal part, an
    exponent, blanks. The parser keeps the first [max_digits] digits of
    a numeral. *)

(** The blanks the parser skips around a number. *)
Definition is_blank (a : ascii) : bool :=
  let n := N_of_ascii a in
  ((9 <=? n) && (n <=? 13) || (n =? 32))%N.

Fixpoint skip_blanks (l : list ascii) : list ascii :=
  match l with
  | a :: l' => if is_blank a then skip_blanks l' else l
  | [] => []
  end.

Definition max_digits : nat := 17.

(** Reads a run of digits: the number read after [acc], how many digits
    were read after [count], and what follows. *)
Fixpoint read_digits (l : list ascii) (acc : Z) (count : nat)
  : Z * nat * list ascii :=
  match l with
  | a :: l' =>
      match digit a with
      | Some d => read_digits l' (acc * 10 + d)%Z (S count)
      | None => (acc, count, l)
      end
  | [] => (acc, count, [])
  end.

(** The digits before the decimal point: a digit past the first
    [max_digits] is dropped and counted in the exponent. *)
Fixpoint read_integer (l : list ascii) (number : Z) (num_digits : nat)
    (exponent : Z) : Z * nat * Z * list ascii :=
  match l with
  | a :: l' =>
      match digit a with
      | Some d =>
          if (num_digits <? max_digits)%nat
          then read_integer l' (number * 10 + d)%Z (S num_digits) exponent
          else read_integer l' number num_digits (exponent + 1)%Z
      | None => (number, num_digits, exponent, l)
      end
  | [] => (number, num_digits, exponent, [])
  end.

(** The digits after the decimal point: a digit past the first
    [max_digits] is consumed and ignored. *)
Fixpoint read_decimals (l : list ascii) (number : Z)
    (num_digits num_decimals : nat) : Z * nat * nat * list ascii :=
  match l with
  | a :: l' =>
      match digit a with
      | Some d =>
          if (num_digits <? max_digits)%nat
          then read_decimals l' (number * 10 + d)%Z (S num_digits)
                 (S num_decimals)
          else read_decimals l' number num_digits num_decimals
      | None => (number, num_digits, num_decimals, l)
      end
  | [] => (number, num_digits, num_decimals, [])
  end.

Definition read_sign (l : list ascii) : Z * list ascii :=
  match l with
  | "-"%char :: l' => ((-1)%Z, l')
  | "+"%char :: l' => (1%Z, l')
  | _ => (1%Z, l)
  end.

(** The exponent part: the mark, a sign and at most [max_digits] digits.
    A mark that no digit follows is not consumed. The result tells whether
    a mark stood there, the exponent read and what follows. *)
Definition read_exponent (l : list ascii) : bool * Z * list ascii :=
  match l with
  | a :: l' =>
      if Ascii.eqb a "e" || Ascii.eqb a "E" then
        let '(sgn, l1) := read_sign l' in
        let '(n, num_digits, _) := read_digits (take max_digits l1) 0 0 in
        if Nat.eqb num_digits 0 then (true, 0%Z, l)
        else (true, (sgn * n)%Z, drop num_digits l1)
      else (false, 0%Z, l)
  | [] => (false, 0%Z, [])
  end.

Definition pow10 (e : Z) : Q :=
  if (0 <=? e)%Z then inject_Z (10 ^ e)
  else Qinv (inject_Z (10 ^ (- e))).

(** The bounds of a double: a value of this size or more rounds to an
    infinity, one of that size or less to zero. *)
Definition double_overflow : Q := inject_Z (2 ^ 1024 - 2 ^ 970).
Definition double_underflow : Q := Qinv (inject_Z (2 ^ 1075)).

(** What [pd.to_numeric(..., errors='coerce')] gives for a string entry.
    A numeral of digits alone, with its sign and the blanks around it,
    is the integer Python's [int] reads from the string (a float when
    that does not fit 64 bits); a numeral with a decimal point or an
    exponent is a float; anything else is coerced to missing, as is a
    numeral that is out of the range of a float. The value of a numeral
    is kept exact.

    The names of the infinities ([inf], [infinity], with a sign, in any
    case) are read by pandas as infinite floats; here they are coerced
    to missing like any other word, and the properties of the parse are
    stated for texts that spell none. *)
Definition parse_number (s : string) : cell :=
  let l := skip_blanks (chars s) in
  let '(sgn, l) := read_sign l in
  let '(int_value, _, _) := read_digits l 0 0 in
  let '(number, num_digits, exponent, l) := read_integer l 0 0 0 in
  let '(maybe_int, number, num_digits, exponent, l) :=
    match l with
    | "."%char :: l' =>
        let '(number, num_digits, num_decimals, l') :=
          read_decimals l' number num_digits 0 in
        (false, number, num_digits, (exponent - Z.of_nat num_decimals)%Z, l')
    | _ => (true, number, num_digits, exponent, l)
    end in
  if Nat.eqb num_digits 0 then NaN
  else
    let '(marked, n, l) := read_exponent l in
    let maybe_int := maybe_int && negb marked in
    let exponent := (exponent + n)%Z in
    if (308 <? exponent)%Z then NaN
    else
      let value :=
        if (exponent <? -616)%Z then 0%Q
        else Qred (inject_Z (sgn * number) * pow10 exponent) in
      if Qle_bool double_overflow (Qabs value) then NaN
      else
        match skip_blanks l with
        | [] =>
            if maybe_int then
              let as_int := (sgn * int_value)%Z in
              if ((- 2 ^ 63 <=? as_int) && (as_int <? 2 ^ 64))%Z
              then Int as_int
              else Float value
            else if Qle_bool (Qabs value) double_underflow then Float 0
            else Float value
        | _ => NaN
        end.

(** The text of an entry after [astype(str)]. The text Python prints for
    a number is kept as the number: it contains no ['%'], no blank and no
    upper-case letter, [pd.to_numeric] reads the number back, and it is
    the key of a lexicon only for an integer. *)
Inductive text : Type :=
| Lit (s : string)
| IntText (z : Z)
| FloatText (q : Q).

Definition astype_str (c : cell) : text :=
  match c with
  | NaN => Lit "nan"
  | Int z => IntText z
  | Float q => FloatText q
  | Str s => Lit s
  end.

Definition on_literal (f : string -> string) (t : text) : text :=
  match t with
  | Lit s => Lit (f s)
  | _ => t
  end.

Definition to_numeric_text (t : text) : cell :=
  match t with
  | Lit s => parse_number s
  | IntText z => Int z
  | FloatText q => Float q
  end.

(** [pd.to_numeric(s, errors='coerce')] on one entry of a column. *)
Definition to_numeric (c : cell) : cell :=
  match c with
  | Str s => parse_number s
  | _ => c
  end.

(** [s.map(lexicon)]: an entry that is no key becomes missing. *)
Definition map_lexicon (lexicon : gmap string Q) (t : text) : cell :=
  let key :=
    match t with
    | Lit s => Some s
    | IntText z => Some (pretty z)
    | FloatText _ => None
    end in
  match key ≫= (fun k => lexicon !! k) with
  | Some v => Float v
  | None => NaN
  end.

(** [s * 100] entrywise on a numeric column. *)
Definition times100 (c : cell) : cell :=
  match c with
  | Int z => Int (z * 100)
  | Float q => Float (Qred (q * 100))
  | _ => c
  end.

(** ** Frames updated in place *)

(** [df[col] = s]: replaces the column of that name, or appends it. *)
Fixpoint set_assoc {A} (k : string) (v : A) (l : list (string * A))
  : list (string * A) :=
  match l with
  | [] => [(k, v)]
  | (k', v') :: l' =>
      if String.eqb k k' then (k, v) :: l' else (k', v') :: set_assoc k v l'
  end.

Definition setitem (df : DataFrame) (col : string) (s : Series) : DataFrame :=
  mkFrame (nrows df) (set_assoc col s (columns df)).

(** [df[col]] for a column known to be there. *)
Definition column (df : DataFrame) (col : string) : Series :=
  default [] (assoc col (columns df)).

(** ** _clean_data_types *)

(** The body of the loop over [percentage_cols]. *)
Definition clean_percentage (df_clean : DataFrame) (col : string) : DataFrame :=
  if has_column df_clean col then
    let df_clean :=
      setitem df_clean col
        (map to_numeric_text
           (map (fun c => on_literal strip
                            (on_literal (remove_char "%") (astype_str c)))
                (column df_clean col))) in
    if String.eqb col "assignment_timeliness" then
      match series_median (column df_clean col) with
      | Return (Float med) =>
          if Qle_bool med 1
          then setitem df_clean col (map times100 (column df_clean col))
          else df_clean
      | _ => df_clean
      end
    else df_clean
  else df_clean.

(** The two lexicon columns. *)
Definition clean_lexicon (lexicon : gmap string Q) (col : string)
    (df_clean : DataFrame) : DataFrame :=
  if has_column df_clean col then
    setitem df_clean col
      (map (fun c => map_lexicon lexicon
                       (on_literal strip (on_literal lower (astype_str c))))
           (column df_clean col))
  else df_clean.

(** The body of the loop over [numeric_cols]. *)
Definition clean_numeric (df_clean : DataFrame) (col : string) : DataFrame :=
  if has_column df_clean col
  then setitem df_clean col (map to_numeric (column df_clean col))
  else df_clean.

Definition _clean_data_types (df : DataFrame) : DataFrame :=
  let df_clean := df in
  let percentage_cols :=
    ["attendance_percentage"; "assignment_timeliness"; "quiz_test_avg_pct"] in
  let df_clean := foldl clean_percentage df_clean percentage_cols in
  let df_clean := clean_lexicon FEE_PAYMENT_MAPPING "fee_payment_status" df_clean in
  let df_clean := clean_lexicon GENDER_MAPPING "gender" df_clean in
  let numeric_cols :=
    ["lms_login_count_monthly"; "time_spent_online_hours_week"; "age";
     "socioeconomic_status"] in
  foldl clean_numeric df_clean numeric_cols.

(** ** _handle_missing_values *)

(** [missing_info[col]] *)
Record missing_entry : Type := mkMissing {
  count : nat;
  percentage : pyfloat
}.

(** [(missing_count / len(df_processed)) * 100]: dividing a NumPy
    integer by zero gives [nan]. *)
Definition missing_percentage (missing_count len : nat) : pyfloat :=
  if Nat.eqb len 0 then nan
  else fin (Qred (inject_Z (Z.of_nat missing_count)
                  / inject_Z (Z.of_nat len) * 100)).

(** Equality of two non-missing entries. *)
Definition cell_eqb (a b : cell) : bool :=
  match a, b with
  | Str s, Str t => String.eqb s t
  | _, _ =>
      match cell_num a, cell_num b with
      | Some x, Some y => Qeq_bool x y
      | _, _ => false
      end
  end.

Definition occurrences (s : Series) (c : cell) : nat :=
  length (List.filter (cell_eqb c) s).

(** The distinct entries, in order of first appearance. *)
Fixpoint distinct (s : Series) : Series :=
  match s with
  | [] => []
  | c :: s' => c :: List.filter (fun d => negb (cell_eqb c d)) (distinct s')
  end.

(** The order in which [mode()] sorts its result: strings by code
    point, numbers by value; a mix of both cannot be sorted. *)
Definition cell_ltb (a b : cell) : bool :=
  match a, b with
  | Str s, Str t => String.ltb s t
  | _, _ =>
      match cell_num a, cell_num b with
      | Some x, Some y => Qltb x y
      | _, _ => false
      end
  end.

Fixpoint insert_cell (x : cell) (l : list cell) : list cell :=
  match l with
  | [] => [x]
  | y :: l' => if cell_ltb y x then y :: insert_cell x l' else x :: y :: l'
  end.

(** [s.mode()]: the most frequent non-missing entries, sorted when they
    can be compared. *)
Definition mode (s : Series) : Series :=
  let present := List.filter (fun c => negb (isnull c)) s in
  let values := distinct present in
  let best := foldr Nat.max 0 (map (occurrences present) values) in
  let modes := List.filter (fun c => Nat.eqb (occurrences present c) best) values in
  if forallb is_str modes || negb (existsb is_str modes)
  then foldr insert_cell [] modes
  else modes.

(** The variables of the loop: the frame, [missing_info] and the
    warnings sent to the logger (column and percentage). *)
Definition missing_state : Type :=
  DataFrame * list (string * missing_entry) * list (string * pyfloat).

Section InPlace.

(** Whether pandas runs with copy-on-write ([pd.options.mode.copy_on_write],
    the only mode from pandas 3 on). *)
Variable copy_on_write : bool.

(** [df[col].fillna(value, inplace=True)]: [df[col]] is a column object
    of its own and [fillna] fills that object in place. Without
    copy-on-write the object shares its data with the frame and the fill
    shows in [df]; with copy-on-write the frame keeps its data and the
    filled object is lost. *)
Definition fillna_inplace (df : DataFrame) (col : string) (value : cell)
  : DataFrame :=
  if copy_on_write then df
  else setitem df col (series_fillna value (column df col)).

(** The body of the loop of [_handle_missing_values]. *)
Definition handle_column (state : missing_state) (col : string)
  : missing_state :=
  let '(df_processed, missing_info, warnings) := state in
  let missing_count :=
    length (List.filter isnull (column df_processed col)) in
  let missing_pct := missing_percentage missing_count (nrows df_processed) in
  let missing_info :=
    set_assoc col (mkMissing missing_count missing_pct) missing_info in
  if Nat.ltb 0 missing_count then
    if float_gt missing_pct 30 then
      (df_processed, missing_info, warnings ++ [(col, missing_pct)])
    else if float_gt missing_pct 0 then
      match dtype_of (column df_processed col) with
      | int64 | float64 =>
          (fillna_inplace df_processed col
             (numeric_median (column df_processed col)),
           missing_info, warnings)
      | object =>
          let mode_value := mode (column df_processed col) in
          match mode_value with
          | first :: _ =>
              (fillna_inplace df_processed col first, missing_info, warnings)
          | [] => (df_processed, missing_info, warnings)
          end
      end
    else (df_processed, missing_info, warnings)
  else (df_processed, missing_info, warnings).

Definition _handle_missing_values (df : DataFrame) : missing_state :=
  let df_processed := df in
  foldl handle_column (df_processed, [], []) (column_names df_processed).

End InPlace.

End DataProcessor.

(* ===================================================================== *)
(** * intervention_system.py: class InterventionRecommender               *)
(* ===================================================================== *)

Module Intervention.

(** The [current_value] of a recommendation is a formatted string; the
    value that is formatted is kept with its format. *)
Inductive current : Type :=
| Percent (v : pyfloat)          (* f"{v:.1f}%" *)
| LoginsPerMonth (v : pyfloat)   (* f"{v} logins/month" *)
| HoursPerWeek (v : pyfloat)     (* f"{v:.1f} hours/week" *)
| Level (v : pyfloat)            (* f"Level {v}" *)
| Text (s : string).

Record Recommendation : Type := mkRecommendation {
  factor : string;
  current_value : current;
  target_value : string;
  recommendation : string;
  priority : string;
  priority_score : Z;
  impact_score : Q;
  intervention_type : string;
  timeline : string;
  resources_needed : list string;
  success_metrics : list string
}.

(** [dict(zip(feature_names, shap_values))]: pairs are taken up to the
    shorter list and a later pair replaces an earlier one with its key. *)
Definition dict_zip (feature_names : list string) (shap_values : list Q)
  : gmap string Q :=
  foldl (fun d p => <[p.1 := p.2]> d) ∅ (zip feature_names shap_values).

(** [d.get(key, value)] *)
Definition get {A} (d : gmap string A) (key : string) (value : A) : A :=
  default value (d !! key).

Definition _analyze_attendance_risk (student_data : gmap string pyfloat)
    (feature_impacts : gmap string Q) : list Recommendation :=
  let recommendations := [] in
  let attendance := get student_data "attendance_percentage" (fin 100) in
  let attendance_impact := get feature_impacts "attendance_percentage" 0%Q in
  if float_lt attendance 70 || Qltb attendance_impact (-0.1) then
    recommendations ++ [
      mkRecommendation "Low Attendance" (Percent attendance) ">80%"
        "Schedule counseling session and implement attendance tracking"
        "High" 9 (Qabs attendance_impact) "academic_support" "1-2 weeks"
        ["Counselor"; "Attendance tracking system"]
        ["Attendance improvement"; "Engagement increase"] ]
  else recommendations.

Definition _analyze_academic_performance_risk
    (student_data : gmap string pyfloat) (feature_impacts : gmap string Q)
  : list Recommendation :=
  let recommendations := [] in
  let quiz_performance := get student_data "quiz_test_avg_pct" (fin 100) in
  let quiz_impact := get feature_impacts "quiz_test_avg_pct" 0%Q in
  let recommendations :=
    if float_lt quiz_performance 60 || Qltb quiz_impact (-0.1) then
      recommendations ++ [
        mkRecommendation "Poor Academic Performance" (Percent quiz_performance)
          ">70%" "Arrange tutoring and study groups"
          "High" 8 (Qabs quiz_impact) "academic_support" "2-4 weeks"
          ["Tutor"; "Study materials"; "Study group facilitator"]
          ["Grade improvement"; "Assignment completion"] ]
    else recommendations in
  let assignment_timeliness := get student_data "assignment_timeliness" (fin 100) in
  let assignment_impact := get feature_impacts "assignment_timeliness" 0%Q in
  if float_lt assignment_timeliness 50 || Qltb assignment_impact (-0.1) then
    recommendations ++ [
      mkRecommendation "Assignment Delays" (Percent assignment_timeliness)
        ">80%" "Implement time management training and deadline reminders"
        "Medium" 6 (Qabs assignment_impact) "time_management" "1-3 weeks"
        ["Time management coach"; "Reminder system"]
        ["On-time submission rate"; "Stress reduction"] ]
  else recommendations.

Definition _analyze_financial_risk (student_data : gmap string pyfloat)
    (feature_impacts : gmap string Q) : list Recommendation :=
  let recommendations := [] in
  let payment_status := get student_data "fee_payment_status" (fin 1) in
  let payment_impact := get feature_impacts "fee_payment_status" 0%Q in
  if float_lt payment_status 1 || Qltb payment_impact (-0.1) then
    recommendations ++ [
      mkRecommendation "Financial Issues"
        (Text (if float_lt payment_status 1 then "Unpaid/Partial" else "Paid"))
        "Fully Paid"
        "Connect with financial aid office and explore payment plans"
        "High" 9 (Qabs payment_impact) "financial_support" "1-2 weeks"
        ["Financial aid counselor"; "Payment plan options"]
        ["Payment completion"; "Financial stress reduction"] ]
  else recommendations.

Definition _analyze_engagement_risk (student_data : gmap string pyfloat)
    (feature_impacts : gmap string Q) : list Recommendation :=
  let recommendations := [] in
  let lms_logins := get student_data "lms_login_count_monthly" (fin 0) in
  let lms_impact := get feature_impacts "lms_login_count_monthly" 0%Q in
  let recommendations :=
    if float_lt lms_logins 5 || Qltb lms_impact (-0.05) then
      recommendations ++ [
        mkRecommendation "Low Online Engagement" (LoginsPerMonth lms_logins)
          ">15 logins/month"
          "Provide additional learning resources and one-on-one support"
          "Medium" 5 (Qabs lms_impact) "engagement_support" "2-3 weeks"
          ["Online learning specialist"; "Engaging content"]
          ["Login frequency"; "Content interaction"] ]
    else recommendations in
  let online_time := get student_data "time_spent_online_hours_week" (fin 0) in
  let online_impact := get feature_impacts "time_spent_online_hours_week" 0%Q in
  if float_lt online_time 3 || Qltb online_impact (-0.05) then
    recommendations ++ [
      mkRecommendation "Low Online Activity" (HoursPerWeek online_time)
        ">8 hours/week"
        "Provide internet access support and digital literacy training"
        "Medium" 4 (Qabs online_impact) "technology_support" "1-2 weeks"
        ["Internet access"; "Digital literacy trainer"]
        ["Online activity time"; "Digital skills improvement"] ]
  else recommendations.

Definition _analyze_behavioral_risk (student_data : gmap string pyfloat)
    (feature_impacts : gmap string Q) : list Recommendation :=
  let recommendations := [] in
  let socioeconomic_status := get student_data "socioeconomic_status" (fin 3) in
  let ses_impact := get feature_impacts "socioeconomic_status" 0%Q in
  if float_lt socioeconomic_status 2 || Qltb ses_impact (-0.05) then
    recommendations ++ [
      mkRecommendation "Socioeconomic Challenges" (Level socioeconomic_status)
        "Improved support"
        "Provide comprehensive support services and mentorship"
        "High" 7 (Qabs ses_impact) "comprehensive_support" "4-6 weeks"
        ["Mentor"; "Support services coordinator"; "Community resources"]
        ["Overall well-being"; "Academic persistence"] ]
  else recommendations.

(** The sort key [(x['priority_score'], x['impact_score'])] and the
    order of Python tuples on it. *)
Definition sort_key (x : Recommendation) : Z * Q :=
  (priority_score x, impact_score x).

Definition key_gtb (a b : Z * Q) : bool :=
  (a.1 >? b.1)%Z || ((a.1 =? b.1)%Z && Qgtb a.2 b.2).

Definition analyze_student_risk_factors (student_data : gmap string pyfloat)
    (shap_values : list Q) (feature_names : list string)
  : list Recommendation :=
  let recommendations := [] in
  let feature_impacts := dict_zip feature_names shap_values in
  let recommendations :=
    recommendations ++ _analyze_attendance_risk student_data feature_impacts in
  let recommendations :=
    recommendations ++ _analyze_academic_performance_risk student_data feature_impacts in
  let recommendations :=
    recommendations ++ _analyze_financial_risk student_data feature_impacts in
  let recommendations :=
    recommendations ++ _analyze_engagement_risk student_data feature_impacts in
  let recommendations :=
    recommendations ++ _analyze_behavioral_risk student_data feature_impacts in
  let recommendations :=
    sort_desc (fun x y => key_gtb (sort_key x) (sort_key y)) recommendations in
  take 5 recommendations.

End Intervention.
(* ===================================================================== *)
(** * Further functions of the four classes                               *)
(* ===================================================================== *)

(** Embedded below, with the definitions above:
    - [data_processor.py]: [_map_columns], [_validate_data_ranges] and
      [prepare_features];
    - [model_trainer.py]: [get_feature_importance];
    - [explainability.py]: [get_intervention_recommendations];
    - [intervention_system.py]: [generate_intervention_plan] with
      [_calculate_plan_timeline], [_calculate_resource_requirements] and
      [_define_success_metrics], and the logs: [add_custom_intervention],
      [get_intervention_history], [track_intervention_outcome],
      [generate_intervention_report], [_calculate_success_rate] and
      [get_intervention_statistics].

    Left out: [_engineer_features] (its scores are floating-point
    arithmetic, with a division by the column maximum),
    [_encode_categorical_variables] (the dtype of the dummy columns is that
    of the installed pandas), [generate_human_readable_explanation] and
    the plots (number formatting and plotly).

    Further conventions.
    - The labels of a frame are taken to be distinct where a column is
      read by its label ([df[col]] is then one column); properties that
      depend on it say so.
    - Strings are read as ASCII: [lower], [strip], [split] and [int] act
      on the ASCII letters, blanks and digits.
    - The position of a dict in memory is a number; a list that holds a
      dict holds its position, so that a write into the dict is seen
      through every list that holds it. *)


(* ===================================================================== *)
(** * config.py: the expected columns and the range rules                *)
(* ===================================================================== *)

Module Schema.

(** [REQUIRED_COLUMNS] *)
Definition REQUIRED_COLUMNS : list string :=
  [ "student_id"; "attendance_percentage"; "assignment_timeliness";
    "quiz_test_avg_pct"; "fee_payment_status"; "lms_login_count_monthly";
    "time_spent_online_hours_week" ].

(** [OPTIONAL_COLUMNS] *)
Definition OPTIONAL_COLUMNS : list string :=
  [ "student_name"; "age"; "gender"; "socioeconomic_status" ].

(** One entry of [VALIDATION_RULES]: the keys ['min'] and ['max'], each
    of which may be absent. *)
Record rules : Type := mkRules {
  rule_min : option Z;
  rule_max : option Z
}.

(** [VALIDATION_RULES], in the order of the dict. *)
Definition VALIDATION_RULES : list (string * rules) :=
  [ ("attendance_percentage", mkRules (Some 0%Z) (Some 100%Z));
    ("assignment_timeliness", mkRules (Some 0%Z) (Some 100%Z));
    ("quiz_test_avg_pct", mkRules (Some 0%Z) (Some 100%Z));
    ("lms_login_count_monthly", mkRules (Some 0%Z) None);
    ("time_spent_online_hours_week", mkRules (Some 0%Z) None);
    ("age", mkRules (Some 16%Z) (Some 100%Z));
    ("socioeconomic_status", mkRules (Some 1%Z) (Some 5%Z)) ].

End Schema.

(* ===================================================================== *)
(** * data_processor.py: column mapping, range validation, features      *)
(* ===================================================================== *)

Module Preprocessing.

Import Schema DataProcessor.

(** The fields of a [DataProcessor] that its methods assign. *)
Record DataProcessor : Type := mkProcessor {
  column_mapping : gmap string string;
  processor_feature_columns : list string
}.

(** [DataProcessor()] *)
Definition new : DataProcessor := mkProcessor ∅ [].

(** ** Strings *)

Fixpoint is_prefix (a b : list ascii) : bool :=
  match a, b with
  | [], _ => true
  | x :: a', y :: b' => Ascii.eqb x y && is_prefix a' b'
  | _ :: _, [] => false
  end.

Fixpoint occurs_in (a b : list ascii) : bool :=
  is_prefix a b ||
  match b with
  | [] => false
  | _ :: b' => occurs_in a b'
  end.

(** [a in b] for two strings. *)
Definition contains (b a : string) : bool := occurs_in (chars a) (chars b).

(** ** _map_columns *)

(** [df.rename(columns=mapping)]: a label that is a key is replaced by
    its value, any other label stays. *)
Definition rename (df : DataFrame) (mapping : gmap string string) : DataFrame :=
  mkFrame (nrows df)
    (map (fun c : string * Series => (default c.1 (mapping !! c.1), c.2))
         (columns df)).

(** The test of the inner loop of the detection. *)
Definition matches (expected_col actual_col : string) : bool :=
  contains (lower actual_col) (lower expected_col)
  || contains (lower expected_col) (lower actual_col).

(** The inner loop: the first column that matches gets the expected name
    and ends the loop. *)
Definition detect (actual_cols : list string)
    (auto_mapping : gmap string string) (expected_col : string)
  : gmap string string :=
  match List.find (matches expected_col) actual_cols with
  | Some actual_col => <[actual_col := expected_col]> auto_mapping
  | None => auto_mapping
  end.

(** The branch of [_map_columns] without a mapping: the labels are put in
    lower case and stripped, and each expected column looks for its first
    match among them. *)
Definition detect_columns (self : DataProcessor) (df_mapped : DataFrame)
  : DataProcessor * DataFrame :=
  let df_mapped :=
    mkFrame (nrows df_mapped)
      (map (fun c : string * Series => (strip (lower c.1), c.2))
           (columns df_mapped)) in
  let auto_mapping :=
    foldl (detect (column_names df_mapped)) ∅
          (REQUIRED_COLUMNS ++ OPTIONAL_COLUMNS) in
  (mkProcessor auto_mapping (processor_feature_columns self),
   rename df_mapped auto_mapping).

(** [_map_columns(df, column_mapping)]: the mapped frame and the
    assignment to [self.column_mapping]. A mapping that is [None] or
    empty counts as false. *)
Definition _map_columns (self : DataProcessor) (df : DataFrame)
    (column_mapping : option (gmap string string))
  : DataProcessor * DataFrame :=
  let df_mapped := df in
  match column_mapping with
  | Some mapping =>
      if bool_decide (mapping = ∅) then detect_columns self df_mapped
      else (mkProcessor mapping (processor_feature_columns self),
            rename df_mapped mapping)
  | None => detect_columns self df_mapped
  end.

(** ** _validate_data_ranges *)

(** [(s.dropna() < bound).sum()] and [(s.dropna() > bound).sum()] for a
    column read with [pd.to_numeric(..., errors='coerce')]. *)
Definition count_below (s : Series) (bound : Z) : nat :=
  length (List.filter (fun q => Qltb q (inject_Z bound))
                      (numbers (map to_numeric s))).

Definition count_above (s : Series) (bound : Z) : nat :=
  length (List.filter (fun q => Qgtb q (inject_Z bound))
                      (numbers (map to_numeric s))).

(** f"Column {col}: {n} values below minimum {bound}" *)
Definition below_message (col : string) (n : nat) (bound : Z) : string :=
  "Column " +:+ col +:+ ": " +:+ pretty n +:+ " values below minimum "
  +:+ pretty bound.

(** f"Column {col}: {n} values above maximum {bound}" *)
Definition above_message (col : string) (n : nat) (bound : Z) : string :=
  "Column " +:+ col +:+ ": " +:+ pretty n +:+ " values above maximum "
  +:+ pretty bound.

(** The body of the loop over [VALIDATION_RULES.items()]. *)
Definition validate_column (df : DataFrame) (errors : list string)
    (rule : string * rules) : list string :=
  let '(col, rules) := rule in
  if has_column df col then
    let s := column df col in
    let errors :=
      match rule_min rules with
      | Some bound =>
          let min_violations := count_below s bound in
          if Nat.ltb 0 min_violations
          then errors ++ [below_message col min_violations bound]
          else errors
      | None => errors
      end in
    match rule_max rules with
    | Some bound =>
        let max_violations := count_above s bound in
        if Nat.ltb 0 max_violations
        then errors ++ [above_message col max_violations bound]
        else errors
    | None => errors
    end
  else errors.

Definition _validate_data_ranges (df : DataFrame) : list string :=
  foldl (validate_column df) [] VALIDATION_RULES.

(** ** prepare_features *)

(** [prepare_features(df)]: the numeric projection and the assignment to
    [self.feature_columns]. *)
Definition prepare_features (self : DataProcessor) (df : DataFrame)
  : DataProcessor * result DataFrame :=
  let feature_cols := numeric_columns df in
  let feature_cols :=
    List.filter (fun col => negb (existsb (String.eqb col) ["student_id"]))
                feature_cols in
  (mkProcessor (column_mapping self) feature_cols,
   getitem_list df feature_cols).

End Preprocessing.

(* ===================================================================== *)
(** * model_trainer.py, explainability.py: derived reports               *)
(* ===================================================================== *)

Module Reports.

Import DataProcessor Explainability.

(** [dict(pairs)] with its order of insertion: a later pair whose key is
    already there replaces the value in place. *)
Definition dict_of {A} (pairs : list (string * A)) : list (string * A) :=
  foldl (fun d (p : string * A) => set_assoc p.1 p.2 d) [] pairs.

(** [get_feature_importance()]. [feature_importances_] is the attribute of
    that name of the fitted ensemble. *)
Definition get_feature_importance (self : DropoutPredictor)
    (feature_importances_ : XGBClassifier -> list Q)
  : result (list (string * Q)) :=
  if negb (is_trained self) then Return []
  else
    match model self with
    | None =>
        Raise (AttributeError
                 "'NoneType' object has no attribute 'feature_importances_'")
    | Some m =>
        let importance_dict :=
          dict_of (zip (feature_columns self) (feature_importances_ m)) in
        Return (dict_of
                  (sort_desc (fun a b : string * Q => Qgtb a.2 b.2)
                             importance_dict))
    end.

(** The [current_value] of a recommendation of the explainer, kept with
    its format. *)
Inductive shown : Type :=
| ShownPercent (v : cell)     (* f"{v:.1f}%" *)
| ShownLogins (v : cell)      (* f"{v} logins" *)
| ShownText (s : string).

Record advice : Type := mkAdvice {
  advice_factor : string;
  advice_current_value : shown;
  advice_recommendation : string;
  advice_priority : string
}.

(** [d[key]] for the dict [row.to_dict()] makes of a row given as its
    labels and entries: the last entry of a repeated label. *)
Definition row_lookup (d : list (string * cell)) (key : string) : option cell :=
  assoc key (rev d).

(** [key in student_data and student_data[key] < bound]: the entry when
    the test holds. *)
Definition entry_below (student_data : list (string * cell)) (key : string)
    (bound : Q) : result (option cell) :=
  match row_lookup student_data key with
  | None => Return None
  | Some v => b <- cell_lt bound v ;; Return (if b then Some v else None)
  end.

Definition get_intervention_recommendations (self : ModelExplainer)
    (predictor : DropoutPredictor) (X : DataFrame) (student_index : nat)
  : result (list advice) :=
  local_explanation <- explain_local self predictor X (Some [student_index]) ;;
  match explanations local_explanation with
  | [] => Raise (IndexError 0)
  | explanation :: _ =>
      let recommendations := [] in
      let student_data := feature_values explanation in
      attendance <- entry_below student_data "attendance_percentage" 70 ;;
      let recommendations :=
        match attendance with
        | Some v =>
            recommendations ++
            [mkAdvice "Low Attendance" (ShownPercent v)
               "Schedule counseling session and implement attendance tracking"
               "High"]
        | None => recommendations
        end in
      payment <- entry_below student_data "fee_payment_status" 1 ;;
      let recommendations :=
        match payment with
        | Some _ =>
            recommendations ++
            [mkAdvice "Payment Issues" (ShownText "Unpaid/Partial")
               "Connect with financial aid office and explore payment plans"
               "High"]
        | None => recommendations
        end in
      quiz <- entry_below student_data "quiz_test_avg_pct" 60 ;;
      let recommendations :=
        match quiz with
        | Some v =>
            recommendations ++
            [mkAdvice "Poor Academic Performance" (ShownPercent v)
               "Arrange tutoring and study groups" "Medium"]
        | None => recommendations
        end in
      logins <- entry_below student_data "lms_login_count_monthly" 5 ;;
      let recommendations :=
        match logins with
        | Some v =>
            recommendations ++
            [mkAdvice "Low Online Engagement" (ShownLogins v)
               "Provide additional learning resources and one-on-one support"
               "Medium"]
        | None => recommendations
        end in
      Return recommendations
  end.

End Reports.

(* ===================================================================== *)
(** * intervention_system.py: plans, logs and statistics                 *)
(* ===================================================================== *)

Module Plans.

Import DataProcessor Preprocessing Intervention.

(** ** Strings and dicts *)

(** [s.split(sep)] for a one-character separator. *)
Fixpoint split_chars (sep : ascii) (l cur : list ascii) : list string :=
  match l with
  | [] => [of_chars (rev cur)]
  | a :: l' =>
      if Ascii.eqb a sep then of_chars (rev cur) :: split_chars sep l' []
      else split_chars sep l' (a :: cur)
  end.

Definition split (sep : ascii) (s : string) : list string :=
  split_chars sep (chars s) [].

(** [s.split()]: the words between runs of blanks. *)
Fixpoint words_chars (l cur : list ascii) : list string :=
  match l with
  | [] => match cur with [] => [] | _ => [of_chars (rev cur)] end
  | a :: l' =>
      if is_space a then
        match cur with
        | [] => words_chars l' []
        | _ => of_chars (rev cur) :: words_chars l' []
        end
      else words_chars l' (a :: cur)
  end.

Definition words (s : string) : list string := words_chars (chars s) [].

(** [l[i]] *)
Definition item {A} (l : list A) (i : nat) : result A :=
  match l !! i with
  | Some x => Return x
  | None => Raise (IndexError i)
  end.

(** The digits of an integer literal: underscores may stand between two
    digits. [last_digit] tells whether the character before was one. *)
Fixpoint int_digits (l : list ascii) (acc : Z) (last_digit : bool) : option Z :=
  match l with
  | [] => if last_digit then Some acc else None
  | a :: l' =>
      match digit a with
      | Some d => int_digits l' (acc * 10 + d)%Z true
      | None =>
          if Ascii.eqb a "_" && last_digit then int_digits l' acc false
          else None
      end
  end.

(** [int(s)] for a word [s]. *)
Definition int (s : string) : result Z :=
  let '(sgn, l) := read_sign (chars s) in
  match int_digits l 0 false with
  | Some n => Return (sgn * n)%Z
  | None => Raise (ValueError "invalid literal for int() with base 10")
  end.

(** The counting loop [counts[x] = counts.get(x, 0) + 1]. *)
Definition count_all (items : list string) : list (string * nat) :=
  foldl (fun counts x => set_assoc x (default 0%nat (assoc x counts) + 1)%nat counts)
        [] items.

(** ** The plan *)

Record phase : Type := mkPhase {
  phase_timeline : string;
  phase_factors : list string;
  phase_count : nat
}.

Record timeline_summary : Type := mkTimeline {
  total_duration : string;
  phases : list phase
}.

(** The loop that groups the factors by timeline. *)
Definition group_by_timeline (recommendations : list Recommendation)
  : list (string * list string) :=
  foldl (fun (timeline_groups : list (string * list string)) r =>
           let timeline := timeline r in
           let timeline_groups :=
             if negb (existsb (String.eqb timeline) (map fst timeline_groups))
             then set_assoc timeline [] timeline_groups
             else timeline_groups in
           set_assoc timeline
             (default [] (assoc timeline timeline_groups) ++ [factor r])
             timeline_groups)
        [] recommendations.

(** The number of weeks a timeline ends with. *)
Definition weeks_of (timeline : string) : result Z :=
  if existsb (Ascii.eqb "-") (chars timeline) then
    second <- item (split "-" timeline) 1 ;;
    word <- item (words second) 0 ;;
    int word
  else
    word <- item (words timeline) 0 ;;
    int word.

(** The loop that takes the maximum over the timelines. *)
Fixpoint max_weeks_loop (timelines : list string) (max_weeks : Z) : result Z :=
  match timelines with
  | [] => Return max_weeks
  | timeline :: rest =>
      weeks <- weeks_of timeline ;;
      max_weeks_loop rest (Z.max max_weeks weeks)
  end.

Definition _calculate_plan_timeline (recommendations : list Recommendation)
  : result timeline_summary :=
  match recommendations with
  | [] => Return (mkTimeline "0 weeks" [])
  | _ =>
      let timeline_groups := group_by_timeline recommendations in
      let phases :=
        map (fun g : string * list string => mkPhase g.1 g.2 (length g.2))
            timeline_groups in
      max_weeks <- max_weeks_loop (map fst timeline_groups) 0 ;;
      Return (mkTimeline (pretty max_weeks +:+ " weeks") phases)
  end.

Record resource_requirements : Type := mkResources {
  human_resources : list (string * nat);
  system_resources : list (string * nat);
  other_resources : list (string * nat);
  total_unique_resources : nat
}.

(** [any(word in r.lower() for word in keywords)] *)
Definition any_keyword (keywords : list string) (r : string) : bool :=
  existsb (contains (lower r)) keywords.

Definition _calculate_resource_requirements
    (recommendations : list Recommendation) : resource_requirements :=
  let all_resources := concat (map resources_needed recommendations) in
  let resource_counts := count_all all_resources in
  let human_resources :=
    List.filter (any_keyword ["counselor"; "tutor"; "coach"; "specialist"; "mentor"])
                (map fst resource_counts) in
  let system_resources :=
    List.filter (any_keyword ["system"; "access"; "materials"; "content"])
                (map fst resource_counts) in
  let other_resources :=
    List.filter (fun r => negb (existsb (String.eqb r) human_resources)
                          && negb (existsb (String.eqb r) system_resources))
                (map fst resource_counts) in
  let counted (names : list string) :=
    map (fun r => (r, default 0%nat (assoc r resource_counts))) names in
  mkResources (counted human_resources) (counted system_resources)
              (counted other_resources) (length resource_counts).

Record metrics_summary : Type := mkMetrics {
  primary_metrics : list string;
  secondary_metrics : list string;
  total_metrics : nat
}.

Definition _define_success_metrics (recommendations : list Recommendation)
  : metrics_summary :=
  let all_metrics := concat (map success_metrics recommendations) in
  let metric_counts := count_all all_metrics in
  mkMetrics
    (map fst (List.filter (fun mc : string * nat => Nat.leb 2 mc.2) metric_counts))
    (map fst (List.filter (fun mc : string * nat => Nat.eqb mc.2 1) metric_counts))
    (length metric_counts).

Record plan : Type := mkPlan {
  plan_student_id : string;
  plan_created_date : string;
  total_recommendations : nat;
  high_priority_count : nat;
  medium_priority_count : nat;
  low_priority_count : nat;
  plan_recommendations : list Recommendation;
  plan_timeline : timeline_summary;
  plan_resource_requirements : resource_requirements;
  plan_success_metrics : metrics_summary
}.

(** [sum(1 for r in recommendations if r['priority'] == level)] *)
Definition count_priority (level : string)
    (recommendations : list Recommendation) : nat :=
  length (List.filter (fun r => String.eqb (priority r) level) recommendations).

(** [generate_intervention_plan(student_id, recommendations)]; [now] is
    [datetime.now().isoformat()]. *)
Definition generate_intervention_plan (now : string) (student_id : string)
    (recommendations : list Recommendation) : result plan :=
  timeline <- _calculate_plan_timeline recommendations ;;
  Return (mkPlan student_id now (length recommendations)
            (count_priority "High" recommendations)
            (count_priority "Medium" recommendations)
            (count_priority "Low" recommendations)
            recommendations timeline
            (_calculate_resource_requirements recommendations)
            (_define_success_metrics recommendations)).

(** ** The logs *)

(** A value kept in the dict of an outcome. *)
Inductive pyvalue : Type :=
| PNone
| PBool (b : bool)
| PNum (q : Q)
| PStr (s : string).

(** The truth value [if v:] takes. *)
Definition truthy (v : pyvalue) : bool :=
  match v with
  | PNone => false
  | PBool b => b
  | PNum q => negb (Qeq_bool q 0)
  | PStr s => negb (String.eqb s "")
  end.

Record outcome_record : Type := mkOutcome {
  outcome_student_id : string;
  intervention_id : string;
  outcome : gmap string pyvalue;
  tracked_date : string
}.

(** An [InterventionRecommender] and the intervention dicts it refers to.
    [add_custom_intervention] writes into the dict it is given and keeps a
    reference to it, so the dicts live in [objects] under their identity
    and the lists of [custom_interventions] hold identities. The values of
    an intervention dict are strings. *)
Record InterventionRecommender : Type := mkRecommender {
  objects : gmap nat (gmap string string);
  custom_interventions : gmap string (list nat);
  intervention_history : list outcome_record
}.

(** [InterventionRecommender()], among the dicts the caller has. *)
Definition new (objects : gmap nat (gmap string string))
  : InterventionRecommender :=
  mkRecommender objects ∅ [].

(** [add_custom_intervention(student_id, intervention)] for the dict of
    identity [intervention]; [now] is [datetime.now().isoformat()]. *)
Definition add_custom_intervention (now : string)
    (self : InterventionRecommender) (student_id : string) (intervention : nat)
  : InterventionRecommender :=
  let custom :=
    match custom_interventions self !! student_id with
    | None => <[student_id := []]> (custom_interventions self)
    | Some _ => custom_interventions self
    end in
  let dict := default ∅ (objects self !! intervention) in
  let dict := <["created_date" := now]> dict in
  let dict := <["type" := "custom"]> dict in
  mkRecommender (<[intervention := dict]> (objects self))
    (<[student_id := default [] (custom !! student_id) ++ [intervention]]> custom)
    (intervention_history self).

(** [get_intervention_history(student_id)] *)
Definition get_intervention_history (self : InterventionRecommender)
    (student_id : string) : list nat :=
  default [] (custom_interventions self !! student_id).

(** The dicts behind a list of identities, as a reader sees them now. *)
Definition contents (self : InterventionRecommender) (l : list nat)
  : list (gmap string string) :=
  map (fun i => default ∅ (objects self !! i)) l.

(** [track_intervention_outcome(student_id, intervention_id, outcome)] *)
Definition track_intervention_outcome (now : string)
    (self : InterventionRecommender) (student_id intervention_id : string)
    (outcome : gmap string pyvalue) : InterventionRecommender :=
  let outcome_record := mkOutcome student_id intervention_id outcome now in
  mkRecommender (objects self) (custom_interventions self)
    (intervention_history self ++ [outcome_record]).

(** [outcome['outcome'].get('success', False)], as a condition. *)
Definition succeeded (o : outcome_record) : bool :=
  truthy (default (PBool false) (outcome o !! "success")).

Definition _calculate_success_rate (outcomes : list outcome_record) : Q :=
  match outcomes with
  | [] => 0
  | _ =>
      let successful_outcomes := length (List.filter succeeded outcomes) in
      Qred (inject_Z (Z.of_nat successful_outcomes)
            / inject_Z (Z.of_nat (length outcomes)))
  end.

Record intervention_report : Type := mkReport {
  report_student_id : string;
  report_date : string;
  report_custom_interventions : list nat;
  tracked_outcomes : list outcome_record;
  total_interventions : nat;
  total_outcomes : nat;
  success_rate : Q
}.

Definition generate_intervention_report (now : string)
    (self : InterventionRecommender) (student_id : string)
  : intervention_report :=
  let custom_interventions := get_intervention_history self student_id in
  let tracked_outcomes :=
    List.filter (fun h => String.eqb (outcome_student_id h) student_id)
                (intervention_history self) in
  mkReport student_id now custom_interventions tracked_outcomes
    (length custom_interventions) (length tracked_outcomes)
    (_calculate_success_rate tracked_outcomes).

Record statistics : Type := mkStatistics {
  stat_total_interventions : nat;
  stat_total_outcomes : nat;
  stat_success_rate : Q;
  intervention_types : gmap string nat;
  students_with_interventions : nat
}.

(** [intervention.get('intervention_type', 'unknown')] *)
Definition type_of (d : gmap string string) : string :=
  default "unknown" (d !! "intervention_type").

Definition get_intervention_statistics (self : InterventionRecommender)
  : statistics :=
  let lists := map snd (map_to_list (custom_interventions self)) in
  let total_interventions := foldr Nat.add 0%nat (map length lists) in
  let total_outcomes := length (intervention_history self) in
  let successful_outcomes :=
    length (List.filter succeeded (intervention_history self)) in
  let success_rate :=
    if Nat.ltb 0 total_outcomes
    then Qred (inject_Z (Z.of_nat successful_outcomes)
               / inject_Z (Z.of_nat total_outcomes))
    else 0%Q in
  let intervention_types :=
    foldl (fun types i =>
             let t := type_of (default ∅ (objects self !! i)) in
             <[t := (default 0%nat (types !! t) + 1)%nat]> types)
          ∅ (concat lists) in
  mkStatistics total_interventions total_outcomes success_rate
    intervention_types (size (custom_interventions self)).

End Plans.

(* ===================================================================== *)
(** * The vocabulary of the specification                                 *)
(* ===================================================================== *)

Module Spec.

Import Config Explainability DataProcessor Intervention.

(** ** Risk tiers *)

(** The tier of a probability by the cut points 0.65 and 0.35 taken as
    decimal numbers. *)
Inductive decimal_tier : Q -> string -> Prop :=
| decimal_High (p : Q) : (0.65 <= p)%Q -> decimal_tier p "High"
| decimal_Medium (p : Q) :
    (0.35 <= p)%Q -> (p < 0.65)%Q -> decimal_tier p "Medium"
| decimal_Low (p : Q) : (p < 0.35)%Q -> decimal_tier p "Low".

(** The cut points in single precision. *)
Definition high_cut : Q := float32 0.65.
Definition medium_cut : Q := float32 0.35.

(** The tier of a probability by the cut points in single precision. *)
Inductive tier : Q -> string -> Prop :=
| tier_High (p : Q) : (high_cut <= p)%Q -> tier p "High"
| tier_Medium (p : Q) :
    (medium_cut <= p)%Q -> (p < high_cut)%Q -> tier p "Medium"
| tier_Low (p : Q) : (p < medium_cut)%Q -> tier p "Low".

(** ** The additive law of attributions *)

(** The baseline of an explanation plus its attributions is the scored
    output it reports, within 1e-6. *)
Definition sum_law (e : explanation) : Prop :=
  match explanation_expected_value e with
  | Some baseline =>
      (Qabs (baseline + foldr Qplus 0 (explanation_shap_values e)
             - probability e) <= 1 # 1000000)%Q
  | None => False
  end.

(** An ensemble whose trees never split and have leaves of weight 0: the
    margin (the log-odds) of every row is 0, its probability 1/2 and its
    class 0. *)
Definition even_odds : XGBClassifier :=
  mkClassifier (fun _ => 0%Z) (fun _ => (1 # 2)%Q).

(** [shap.TreeExplainer(model)] for this ensemble. Built without
    [model_output], the explainer explains the margin of the ensemble:
    the expected margin is 0 and no feature moves it. *)
Definition even_odds_explainer (model : XGBClassifier)
  : Explainability.TreeExplainer :=
  Explainability.mkTreeExplainer 0 (map (fun _ => 0%Q)).

(** A model trained on the features [a] and [b] that holds it. *)
Definition trained_even : DropoutPredictor :=
  mkPredictor (Some even_odds) ["a"; "b"] ∅ (Some "v1") true.

(** ** Operational-state errors *)

(** The specification names the errors of the taxonomy; the code raises
    the built-in [ValueError] with these messages. *)
Definition NotTrainedError : exn :=
  ValueError "Model must be trained before making predictions".
Definition NotInitializedError : exn :=
  ValueError "Explainer not initialized. Call initialize_explainer first.".

(** ** Example inputs *)

(** An ensemble that scores every row alike. *)
Definition constant_classifier (label : Z) (p : Q) : XGBClassifier :=
  mkClassifier (fun _ => label) (fun _ => p).

Definition constant_explainer (base : Q) (attribution : list Q)
  : Explainability.TreeExplainer :=
  Explainability.mkTreeExplainer base (fun _ => attribution).

(** A model trained on the features [a] and [b]. *)
Definition trained_ab : DropoutPredictor :=
  mkPredictor (Some (constant_classifier 1 0.7)) ["a"; "b"] ∅ (Some "v1") true.

Definition explainer_ab : Explainability.ModelExplainer :=
  Explainability.mkExplainer (Some (constant_explainer 0.5 [0.1; 0.1]%Q))
    None (Some 0.5%Q).

(** An ensemble whose probability is the value of the first feature,
    and a model trained on the feature [a] with it. *)
Definition echo_classifier : XGBClassifier :=
  mkClassifier (fun _ => 0%Z)
    (fun r => match r with Float q :: _ => q | _ => 0%Q end).



(** Two students, both features present, one value missing. *)
Definition table_ab : DataFrame :=
  mkFrame 2 [("a", [Float 1; NaN]); ("b", [Float 3; Float 4])].


(** ** Ranking of recommendations *)

(** [a] is at least [b] in the lexicographic order of the pairs
    (priority_score, impact_score). *)
Definition key_ge (a b : Z * Q) : Prop :=
  (b.1 < a.1)%Z \/ (a.1 = b.1 /\ (b.2 <= a.2)%Q).

Definition ranked_before (x y : Recommendation) : Prop :=
  key_ge (sort_key x) (sort_key y).

(** The two recommendations of a record without engagement data and
    without attribution. *)
Definition low_online_engagement : Recommendation :=
  mkRecommendation "Low Online Engagement" (LoginsPerMonth (fin 0))
    ">15 logins/month"
    "Provide additional learning resources and one-on-one support"
    "Medium" 5 0 "engagement_support" "2-3 weeks"
    ["Online learning specialist"; "Engaging content"]
    ["Login frequency"; "Content interaction"].

Definition low_online_activity : Recommendation :=
  mkRecommendation "Low Online Activity" (HoursPerWeek (fin 0))
    ">8 hours/week"
    "Provide internet access support and digital literacy training"
    "Medium" 4 0 "technology_support" "1-2 weeks"
    ["Internet access"; "Digital literacy trainer"]
    ["Online activity time"; "Digital skills improvement"].

(** A student failing on every count, with the attributions of two
    features. *)
Definition struggling_student : gmap string pyfloat :=
  <["attendance_percentage" := fin 50]>
  (<["quiz_test_avg_pct" := fin 10]>
  (<["assignment_timeliness" := fin 10]>
  (<["fee_payment_status" := fin 0]>
  (<["socioeconomic_status" := fin 1]> ∅)))).

(** ** The synthetic label, record by record *)

(** The entry of record [i] in the column [col], when the frame has that
    column. *)
Definition entry (df : DataFrame) (col : string) (i : nat) : option cell :=
  match assoc col (columns df) with
  | Some s => Some (nth i s NaN)
  | None => None
  end.

(** The record has a number under [bound] in that place. *)
Definition below (e : option cell) (bound : Q) : bool :=
  match e ≫= cell_num with
  | Some q => Qltb q bound
  | None => false
  end.

(** The integer risk weight of record [i]. *)
Definition risk_weight (df : DataFrame) (i : nat) : Z :=
  ((if below (entry df "attendance_percentage" i) 60 then 2 else 0)
   + (if below (entry df "assignment_timeliness" i) 50 then 2 else 0)
   + (if below (entry df "quiz_test_avg_pct" i) 50 then 2 else 0)
   + (if below (entry df "fee_payment_status" i) 0.5 then 1 else 0)
   + (if below (entry df "lms_login_count_monthly" i) 5 then 1 else 0))%Z.

(** The binary label of record [i]. *)
Definition synthetic_label (df : DataFrame) (i : nat) : Z :=
  if (3 <=? risk_weight df i)%Z then 1%Z else 0%Z.

(** The column [col], if the frame has it, holds no string. *)
Definition numeric_in (df : DataFrame) (col : string) : Prop :=
  forall s, assoc col (columns df) = Some s -> existsb is_str s = false.

Definition risk_columns : list string :=
  ["attendance_percentage"; "assignment_timeliness"; "quiz_test_avg_pct";
   "fee_payment_status"; "lms_login_count_monthly"].

(** The record of the scenario: attendance 40, quiz 45, unpaid, 2 logins. *)
Definition scenario : DataFrame :=
  mkFrame 1 [("attendance_percentage", [Float 40]);
             ("quiz_test_avg_pct", [Float 45]);
             ("fee_payment_status", [Float 0]);
             ("lms_login_count_monthly", [Int 2])].

(** ** The matrix [predict] scores *)

(** The listed columns of [X], each missing entry replaced by the median
    of the entries [X] itself has in that column. *)
Definition own_median_fill (X : DataFrame) (cols : list string) : DataFrame :=
  mkFrame (nrows X)
    (map (fun c => (c, series_fillna (numeric_median (column X c)) (column X c)))
         cols).

(** ** Stored artifacts *)

(** A complete artifact, one that lost every key but ['model'], and bytes
    that do not unpickle. *)
Definition complete_data : model_data :=
  mkModelData (Some (constant_classifier 0 0.2)) (Some ["a"; "b"])
    (Some (Some "v2")) (Some {["accuracy" := 0.9%Q]}).

Definition partial_data : model_data :=
  mkModelData (Some (constant_classifier 0 0.2)) None None None.

Definition models_dir : filesystem :=
  <["good.joblib" := Pickled complete_data]>
  (<["partial.joblib" := Pickled partial_data]>
  (<["corrupt.joblib" := Corrupt]> ∅)).

(** The artifact is complete enough for [load_model] to read its three
    required keys. *)
Definition loadable (fs : filesystem) (filepath : string) (d : model_data)
    (m : XGBClassifier) (cols : list string) (v : option string) : Prop :=
  fs !! filepath = Some (Pickled d)
  /\ md_model d = Some m
  /\ md_feature_columns d = Some cols
  /\ md_model_version d = Some v.

(** Nothing of the artifact can be read: no file, bytes that do not
    unpickle, an object that is no mapping, or a mapping without
    ['model']. *)
Definition unreadable (fs : filesystem) (filepath : string) : Prop :=
  match fs !! filepath with
  | None | Some Corrupt | Some NotAMapping => True
  | Some (Pickled d) => md_model d = None
  end.

(** ** Type cleaning of the percentage fields *)

Definition percentage_cols : list string :=
  ["attendance_percentage"; "assignment_timeliness"; "quiz_test_avg_pct"].

(** A text the development reads as pandas does: plain ASCII (printable
    characters and blanks), at most 15 digits, at most 9 of them after an
    exponent mark, and not the name of an infinity. (A longer numeral is
    rounded by the parser, a longer exponent overflows its counter, an
    infinity is no finite number.) *)
Definition is_digit (a : ascii) : bool := bool_decide (is_Some (digit a)).

Definition is_mark (a : ascii) : bool :=
  Ascii.eqb a "e" || Ascii.eqb a "E".

Fixpoint after_mark (l : list ascii) : list ascii :=
  match l with
  | a :: l' => if is_mark a then l' else after_mark l'
  | [] => []
  end.

Definition plain_ascii (a : ascii) : bool :=
  let n := N_of_ascii a in
  ((9 <=? n) && (n <=? 13) || (32 <=? n) && (n <=? 126))%N.

Definition infinities : list string :=
  ["inf"; "+inf"; "-inf"; "infinity"; "+infinity"; "-infinity"].

Definition spells_infinity (s : string) : bool :=
  bool_decide (lower s ∈ infinities).

Definition modest (s : string) : bool :=
  forallb plain_ascii (chars s)
  && (length (List.filter is_digit (chars s)) <=? 15)%nat
  && (length (List.filter is_digit (after_mark (chars s))) <=? 9)%nat
  && negb (spells_infinity s).

(** The text entries of a column are modest as they stand. *)
Definition modest_entry (c : cell) : bool :=
  match c with
  | Str s => modest s
  | _ => true
  end.


(** A text entry has its ['%'] signs removed and its surrounding blanks
    stripped and is then read as a number, becoming missing when it is not
    the text of a number; a number stays as it is. *)
Definition percent_entry (c : cell) : cell :=
  match c with
  | Str s => parse_number (strip (remove_char "%" s))
  | _ => c
  end.

(** A column whose median is at most 1 is taken to be on the scale 0..1
    and multiplied by 100. *)
Definition rescale_unit (s : Series) : Series :=
  match numeric_median s with
  | Float med => if Qle_bool med 1 then map times100 s else s
  | _ => s
  end.


(** ** The missing-value policy, column by column *)

Definition missing_count (s : Series) : nat :=
  length (List.filter isnull s).

(** The share of missing entries of a column in a table of [n] rows. *)
Definition missing_share (n : nat) (s : Series) : pyfloat :=
  missing_percentage (missing_count s) n.

Definition numeric_column (s : Series) : bool :=
  match dtype_of s with
  | int64 | float64 => true
  | object => false
  end.

(** A column is flagged when it has missing entries and their share
    exceeds 30 percent. *)
Definition over_threshold (n : nat) (s : Series) : bool :=
  Nat.ltb 0 (missing_count s) && float_gt (missing_share n s) 30.

(** What the policy makes of a column of a table of [n] rows: a flagged
    column and a column without missing entries stay as they are; any other
    column gets its missing entries replaced, by the median when it is
    numeric and by the first mode otherwise. *)
Definition impute (n : nat) (s : Series) : Series :=
  if Nat.ltb 0 (missing_count s) then
    if float_gt (missing_share n s) 30 then s
    else if float_gt (missing_share n s) 0 then
      if numeric_column s then series_fillna (numeric_median s) s
      else match mode s with
           | first :: _ => series_fillna first s
           | [] => s
           end
    else s
  else s.

(** What the step leaves of a column: the outcome of the policy where
    the in-place fill reaches the table, the column as it was under
    copy-on-write. *)
Definition processed (copy_on_write : bool) (n : nat) (s : Series) : Series :=
  if copy_on_write then s else impute n s.

Definition info_of (n : nat) (c : string * Series) : string * missing_entry :=
  (c.1, mkMissing (missing_count c.2) (missing_share n c.2)).

Definition warning_of (n : nat) (c : string * Series)
  : option (string * pyfloat) :=
  if over_threshold n c.2 then Some (c.1, missing_share n c.2) else None.

(** Four students: half of [a] is missing, a quarter of [b] and of the
    text column [c]. *)
Definition gaps : DataFrame :=
  mkFrame 4 [("a", [NaN; NaN; Float 1; Float 2]);
             ("b", [NaN; Float 3; Float 1; Float 2]);
             ("c", [Str "x"; NaN; Str "y"; Str "x"])].

End Spec.

(* ===================================================================== *)
(** * Further vocabulary and example inputs                               *)
(* ===================================================================== *)

Module Cases.

Import Config Explainability DataProcessor Intervention Schema Preprocessing
       Reports Plans Spec.

(** ** Training data *)

(** The features [prepare_training_data] keeps: the numeric columns other
    than the identifier and the target. *)
Definition training_columns (df : DataFrame) (target_column : string)
  : list string :=
  List.filter (fun col => negb (existsb (String.eqb col)
                                  ["student_id"; target_column]))
              (numeric_columns df).

(** A column has an entry that is not missing. *)
Definition has_value (s : Series) : Prop :=
  exists c, In c s /\ isnull c = false.

(** Four students with an identifier, a recorded outcome and a feature
    that is missing throughout. *)
Definition cohort : DataFrame :=
  mkFrame 4 [("student_id", [Int 1; Int 2; Int 3; Int 4]);
             ("attendance_percentage", [Float 90; NaN; Float 50; Float 70]);
             ("age", [NaN; NaN; NaN; NaN]);
             ("student_name", [Str "a"; Str "b"; Str "c"; Str "d"]);
             ("dropout", [Int 0; Int 0; Int 1; Int 0])].

(** The table [table_ab] with its columns in the other order and a column
    the model was not trained on. *)
Definition table_ba_extra : DataFrame :=
  mkFrame 2 [("note", [Str "x"; Str "y"]);
             ("b", [Float 3; Float 4]);
             ("a", [Float 1; NaN])].

(** A table without an outcome column whose attendance is worded. *)
Definition worded_attendance : DataFrame :=
  mkFrame 2 [("attendance_percentage", [Str "high"; Str "low"]);
             ("age", [Int 17; Int 18])].

(** ** Explanations *)

(** The explanation [e] is about the row of [X] that it names: the values
    are those of that row under the labels of [X], the attributions are
    those the explainer [te] gives for that row, and the prediction and
    its probability are those of the ensemble on that row. *)
Definition describes (self : ModelExplainer) (predictor : DropoutPredictor)
    (te : TreeExplainer) (X : DataFrame) (e : explanation) : Prop :=
  let r := row X (student_index e) in
  feature_values e = zip (column_names X) r
  /\ explanation_shap_values e = tree_shap_values te r
  /\ explanation_expected_value e = expected_value self
  /\ exists m, model predictor = Some m
       /\ prediction e = xgb_predict m r
       /\ probability e = xgb_predict_proba m r.

(** The contribution of each feature, as [explain_local] tabulates them
    before it sorts. *)
Definition contributions (names : list string) (student_shap : list Q)
  : list feature_contribution :=
  zip_with (fun n v => mkContribution n v (Qabs v)) names student_shap.

(** [a] contributes at least as much as [b], in absolute value. *)
Definition outweighs (a b : feature_contribution) : Prop :=
  (abs_shap_value b <= abs_shap_value a)%Q.

(** A column without gaps and without text. *)
Definition complete_numeric (s : Series) : Prop :=
  Forall (fun x => is_str x = false /\ isnull x = false) s.

(** Two students with both features recorded. *)
Definition table_full : DataFrame :=
  mkFrame 2 [("a", [Float 1; Float 2]); ("b", [Float 3; Float 4])].

(** One student with low attendance and the fee paid. *)
Definition absentee : DataFrame :=
  mkFrame 1 [("attendance_percentage", [Float 50]);
             ("fee_payment_status", [Float 1])].

(** An explainer with other attributions and another baseline. *)
Definition other_explainer : ModelExplainer :=
  mkExplainer (Some (constant_explainer 0 [0.3; (-0.4)]%Q)) None None.

(** A predictor with another ensemble. *)
Definition other_predictor : DropoutPredictor :=
  mkPredictor (Some echo_classifier) ["x"; "y"] ∅ (Some "v7") true.

(** ** Cleaning *)

(** What the cleaning makes of an entry of a coded field: text is looked
    up in lower case and stripped, an integer by its digits; a float has
    no key, nor has a missing entry. *)
Definition coded (lexicon : gmap string Q) (c : cell) : cell :=
  match c with
  | Str s => from_option Float NaN (lexicon !! strip (lower s))
  | Int z => from_option Float NaN (lexicon !! pretty z)
  | Float _ | NaN => NaN
  end.

(** The coded fields with their lexicons. *)
Definition coded_fields : list (string * gmap string Q) :=
  [("fee_payment_status", FEE_PAYMENT_MAPPING); ("gender", GENDER_MAPPING)].

(** The fields [_clean_data_types] names. *)
Definition cleaned_fields : list string :=
  ["attendance_percentage"; "assignment_timeliness"; "quiz_test_avg_pct";
   "fee_payment_status"; "gender"; "lms_login_count_monthly";
   "time_spent_online_hours_week"; "age"; "socioeconomic_status"].

(** Fee states as a spreadsheet exports them once a cell is blank. *)
Definition fees : DataFrame :=
  mkFrame 4 [("fee_payment_status", [Str " Paid "; Int 2; Float 1; NaN]);
             ("remarks", [Str "85%"; Str "x"; NaN; Int 3])].

(** One step of the cleaning keeps the labels, the number of rows and the
    length of every column, and leaves every other column as it is. *)
Definition step_keeps (step : DataFrame -> DataFrame) (col : string) : Prop :=
  forall df,
    column_names (step df) = column_names df
    /\ nrows (step df) = nrows df
    /\ (forall c, length (column (step df) c) = length (column df c))
    /\ (forall c, c <> col -> column (step df) c = column df c).

(** ** Ranges *)

(** The values of a column that [pd.to_numeric] can read. *)
Definition readable (s : Series) : list Q := numbers (map to_numeric s).

(** A value respects the bounds a rule has. *)
Definition within (r : rules) (q : Q) : Prop :=
  (forall bound, rule_min r = Some bound -> (inject_Z bound <= q)%Q)
  /\ (forall bound, rule_max r = Some bound -> (q <= inject_Z bound)%Q).

(** Ages in range, one of them text between blanks, one unreadable, one
    missing. *)
Definition ages : DataFrame :=
  mkFrame 4 [("age", [Int 17; Str " 18 "; Str "n/a"; NaN])].

(** ** Column detection *)

(** A table under the documented header. *)
Definition standard_table : DataFrame :=
  mkFrame 1 [("Student_ID", [Int 1]);
             (" Attendance_Percentage ", [Float 40]);
             ("assignment_timeliness", [Float 80]);
             ("quiz_test_avg_pct", [Float 70]);
             ("fee_payment_status", [Str "paid"]);
             ("lms_login_count_monthly", [Int 12]);
             ("time_spent_online_hours_week", [Float 6]);
             ("student_name", [Str "A"]);
             ("age", [Int 19]);
             ("gender", [Str "f"]);
             ("socioeconomic_status", [Int 3])].

(** ** Recommendations *)

(** The recommendations of the five analyses, before they are sorted and
    cut to five. *)
Definition candidates (student_data : gmap string pyfloat)
    (feature_impacts : gmap string Q) : list Recommendation :=
  _analyze_attendance_risk student_data feature_impacts
  ++ _analyze_academic_performance_risk student_data feature_impacts
  ++ _analyze_financial_risk student_data feature_impacts
  ++ _analyze_engagement_risk student_data feature_impacts
  ++ _analyze_behavioral_risk student_data feature_impacts.

(** The recommendation made for a student of socioeconomic level 1 when
    the level has no attribution. *)
Definition socioeconomic_challenges : Recommendation :=
  mkRecommendation "Socioeconomic Challenges" (Level (fin 1))
    "Improved support"
    "Provide comprehensive support services and mentorship"
    "High" 7 0 "comprehensive_support" "4-6 weeks"
    ["Mentor"; "Support services coordinator"; "Community resources"]
    ["Overall well-being"; "Academic persistence"].

(** ** Plans and logs *)

(** How often [x] stands in a list. *)
Definition occurrences_of (x : string) (items : list string) : nat :=
  length (List.filter (String.eqb x) items).

(** A recommendation written by hand, with a timeline that names no
    number of weeks. *)
Definition open_ended : Recommendation :=
  mkRecommendation "Mentoring" (Text "n/a") "regular meetings"
    "Assign a mentor" "Low" 3 0 "mentoring" "ongoing" ["Mentor"]
    ["Meetings held"].

(** A recommender that has logged one dict for the student [s1]. *)
Definition one_logged : InterventionRecommender :=
  add_custom_intervention "2024-01-01T09:00:00"
    (Plans.new {[ 7%nat := {[ "title" := "Tutoring"; "type" := "academic" ]} ]})
    "s1" 7.

End Cases.

(* ===================================================================== *)
(** * Properties                                                          *)
(* ===================================================================== *)

(** ** Exact comparisons *)

Lemma Qgeb_true (x y : Q) : Qgeb x y = true <-> (y <= x)%Q.
Proof. unfold Qgeb. apply Qle_bool_iff. Qed.

Lemma Qgeb_false (x y : Q) : Qgeb x y = false <-> (x < y)%Q.
Proof.
  unfold Qgeb. split; intros H.
  - apply Qnot_le_lt. intros Hle. apply Qle_bool_iff in Hle. congruence.
  - apply not_true_is_false. intros Hb. apply Qle_bool_iff in Hb.
    exact (Qlt_not_le _ _ H Hb).
Qed.

Lemma Qltb_true (x y : Q) : Qltb x y = true <-> (x < y)%Q.
Proof.
  unfold Qltb. rewrite negb_true_iff. apply (Qgeb_false x y).
Qed.

Lemma Qltb_false (x y : Q) : Qltb x y = false <-> (y <= x)%Q.
Proof.
  unfold Qltb. rewrite negb_false_iff. apply (Qgeb_true x y).
Qed.

Lemma Qgtb_true (x y : Q) : Qgtb x y = true <-> (y < x)%Q.
Proof. apply (Qltb_true y x). Qed.

Lemma Qgtb_false (x y : Q) : Qgtb x y = false <-> (x <= y)%Q.
Proof. apply (Qltb_false y x). Qed.

(** ** Results *)

Lemma bind_Return {A B} (r : result A) (k : A -> result B) (b : B) :
  bind r k = Return b -> exists a, r = Return a /\ k a = Return b.
Proof. destruct r as [a|e]; simpl; [eauto | discriminate]. Qed.

Lemma mapM_Return {A B} (f : A -> result B) (l : list A) (l' : list B) :
  mapM f l = Return l' -> Forall2 (fun x y => f x = Return y) l l'.
Proof.
  revert l'. induction l as [|x l IH]; simpl; intros l' H.
  - injection H as <-. constructor.
  - apply bind_Return in H as (y & Hy & H).
    apply bind_Return in H as (ys & Hys & H).
    injection H as <-. constructor; auto.
Qed.

Lemma mapM_total {A B} (f : A -> result B) (g : A -> B) (l : list A) :
  Forall (fun x => f x = Return (g x)) l -> mapM f l = Return (map g l).
Proof.
  induction 1 as [|x l Hx _ IH]; simpl; [reflexivity|].
  rewrite Hx. simpl. rewrite IH. reflexivity.
Qed.

(** ** Risk tiers (model_trainer.py, explainability.py) *)

Section RiskTiers.

Import Config Explainability.

Lemma threshold_high : threshold "high" = Return 0.65%Q.
Proof. reflexivity. Qed.

Lemma threshold_medium : threshold "medium" = Return 0.35%Q.
Proof. reflexivity. Qed.

(** The cut points the comparisons use. *)
Lemma high_cut_value : Spec.high_cut = (5452595 # 8388608)%Q.
Proof. by vm_compute. Qed.

Lemma medium_cut_value : Spec.medium_cut = (11744051 # 33554432)%Q.
Proof. by vm_compute. Qed.

Lemma local_risk_level_cuts (p : Q) :
  local_risk_level p
  = if Qgeb p Spec.high_cut then "High"
    else if Qgeb p Spec.medium_cut then "Medium" else "Low".
Proof. reflexivity. Qed.

(** The tier of [predict] is the tier of [explain_local]. *)
Lemma risk_label_local (p : Q) : risk_label p = Return (local_risk_level p).
Proof.
  rewrite local_risk_level_cuts. unfold risk_label.
  rewrite threshold_high. simpl bind. unfold float32_ge.
  fold Spec.high_cut. destruct (Qgeb p Spec.high_cut); [reflexivity|].
  rewrite threshold_medium. simpl bind.
  fold Spec.medium_cut. destruct (Qgeb p Spec.medium_cut); reflexivity.
Qed.

Lemma local_risk_level_High (p : Q) :
  local_risk_level p = "High" <-> (Spec.high_cut <= p)%Q.
Proof.
  rewrite local_risk_level_cuts, <- Qgeb_true.
  destruct (Qgeb p Spec.high_cut); [tauto|].
  destruct (Qgeb p Spec.medium_cut); split; discriminate.
Qed.

Lemma local_risk_level_Medium (p : Q) :
  local_risk_level p = "Medium"
  <-> (Spec.medium_cut <= p /\ p < Spec.high_cut)%Q.
Proof.
  rewrite local_risk_level_cuts, <- Qgeb_true, <- Qgeb_false.
  destruct (Qgeb p Spec.high_cut) eqn:Hh.
  - split; [discriminate | intros [_ ?]; discriminate].
  - destruct (Qgeb p Spec.medium_cut); split; try tauto; try discriminate.
    intros [? _]; discriminate.
Qed.

Lemma cuts_ordered : (Spec.medium_cut <= Spec.high_cut)%Q.
Proof. rewrite high_cut_value, medium_cut_value. discriminate. Qed.

Lemma local_risk_level_Low (p : Q) :
  local_risk_level p = "Low" <-> (p < Spec.medium_cut)%Q.
Proof.
  rewrite local_risk_level_cuts, <- Qgeb_false.
  destruct (Qgeb p Spec.high_cut) eqn:Hh.
  - split; [discriminate|]. intros Hm.
    apply Qgeb_true in Hh. apply Qgeb_false in Hm.
    exfalso. apply (Qlt_irrefl p).
    eapply Qlt_le_trans; [exact Hm|].
    eapply Qle_trans; [|exact Hh]. apply cuts_ordered.
  - destruct (Qgeb p Spec.medium_cut); split; try tauto; discriminate.
Qed.

Lemma risk_labels_loop_spec (probabilities : list Q) (acc : list string) :
  risk_labels_loop probabilities acc
  = Return (acc ++ map local_risk_level probabilities).
Proof.
  revert acc. induction probabilities as [|p ps IH]; intros acc; simpl.
  - rewrite app_nil_r. reflexivity.
  - rewrite risk_label_local. simpl bind. rewrite IH, <- app_assoc.
    reflexivity.
Qed.

Lemma predict_labels (self : DropoutPredictor) (X : DataFrame)
    (predictions : list Z) (probabilities : list Q) (risk_labels : list string) :
  predict self X = Return (predictions, probabilities, risk_labels) ->
  risk_labels = map local_risk_level probabilities.
Proof.
  unfold predict. destruct (negb (is_trained self)); [discriminate|].
  intros H.
  apply bind_Return in H as (sel & _ & H).
  apply bind_Return in H as (med & _ & H).
  apply bind_Return in H as (m & _ & H).
  rewrite risk_labels_loop_spec in H. simpl in H.
  injection H as _ <- <-. reflexivity.
Qed.

Lemma explain_one_level self predictor X_selected shap_values i idx e :
  explain_one self predictor X_selected shap_values i idx = Return e ->
  risk_level e = local_risk_level (probability e).
Proof.
  unfold explain_one. intros H.
  apply bind_Return in H as (u & _ & H).
  apply bind_Return in H as (m & _ & H).
  injection H as <-. reflexivity.
Qed.

Lemma explain_local_levels self predictor X student_indices report :
  explain_local self predictor X student_indices = Return report ->
  Forall (fun e => risk_level e = local_risk_level (probability e))
         (explanations report).
Proof.
  unfold explain_local. destruct (explainer self) as [e|]; [|discriminate].
  intros H.
  apply bind_Return in H as (Xs & _ & H).
  apply bind_Return in H as (les & Hm & H).
  injection H as <-. simpl.
  apply mapM_Return in Hm.
  induction Hm as [|x y l l' Hxy _ IH]; constructor; auto.
  eapply explain_one_level; eauto.
Qed.

End RiskTiers.

(** ** Risk tiers and operational state *)

Section Classifier.

Import Config Explainability Spec.

Lemma tier_local_risk_level (p : Q) (t : string) :
  tier p t <-> local_risk_level p = t.
Proof.
  split.
  - intros [q H|q H1 H2|q H]; symmetry.
    + symmetry. by apply local_risk_level_High.
    + symmetry. by apply local_risk_level_Medium.
    + symmetry. by apply local_risk_level_Low.
  - intros <-. rewrite local_risk_level_cuts.
    destruct (Qgeb p high_cut) eqn:Hh.
    + apply tier_High. by apply Qgeb_true.
    + destruct (Qgeb p medium_cut) eqn:Hm.
      * apply tier_Medium; [by apply Qgeb_true | by apply Qgeb_false].
      * apply tier_Low. by apply Qgeb_false.
Qed.

(** Away from the two gaps between a cut point in single precision and
    its decimal, the tier is the tier by the decimals. *)
Lemma tier_decimal (p : Q) (t : string) :
  (p < high_cut \/ 0.65 <= p)%Q ->
  (p < medium_cut \/ 0.35 <= p)%Q ->
  tier p t <-> decimal_tier p t.
Proof.
  assert (Hh : (high_cut < 0.65)%Q) by (rewrite high_cut_value; reflexivity).
  assert (Hm : (medium_cut < 0.35)%Q) by (rewrite medium_cut_value; reflexivity).
  intros Hp1 Hp2. split.
  - intros H. inversion H as [q H1|q H1 H2|q H1]; subst.
    + apply decimal_High. destruct Hp1 as [Hp1|Hp1]; [|done].
      exfalso. exact (Qlt_not_le _ _ Hp1 H1).
    + apply decimal_Medium.
      * destruct Hp2 as [Hp2|Hp2]; [|done].
        exfalso. exact (Qlt_not_le _ _ Hp2 H1).
      * by eapply Qlt_trans.
    + apply decimal_Low. by eapply Qlt_trans.
  - intros H. inversion H as [q H1|q H1 H2|q H1]; subst.
    + apply tier_High. eapply Qle_trans; [|exact H1]. by apply Qlt_le_weak.
    + apply tier_Medium.
      * eapply Qle_trans; [|exact H1]. by apply Qlt_le_weak.
      * destruct Hp1 as [Hp1|Hp1]; [done|].
        exfalso. exact (Qlt_not_le _ _ H2 Hp1).
    + apply tier_Low. destruct Hp2 as [Hp2|Hp2]; [done|].
      exfalso. exact (Qlt_not_le _ _ H1 Hp2).
Qed.

(** [Qlog2] on the two binades of the cut points. *)
Lemma Qlog2_half (p : Q) : (1 # 2 <= p)%Q -> (p < 1)%Q -> Qlog2 p = (-1)%Z.
Proof.
  destruct p as [n d]. unfold Qle, Qlt. simpl. intros H1 H2.
  unfold Qlog2. cbn [Qnum Qden].
  assert (Hn : (0 < n)%Z) by lia.
  assert (Hk : (Z.log2 n - Z.log2 (Z.pos d) = 0
                \/ Z.log2 n - Z.log2 (Z.pos d) = -1)%Z).
  { pose proof (Z.log2_le_mono n (Z.pos d) ltac:(lia)).
    pose proof (Z.log2_le_mono (Z.pos d) (2 * n) ltac:(lia)).
    rewrite Z.log2_double in * by done. lia. }
  destruct Hk as [-> | ->].
  - replace (Qle_bool (2 ^ 0) (n # d)) with false; [done|].
    symmetry. apply not_true_is_false. intros Hb.
    apply Qle_bool_iff in Hb. unfold Qle in Hb. simpl in Hb. lia.
  - replace (Qle_bool (2 ^ (-1)) (n # d)) with true; [done|].
    symmetry. apply Qle_bool_iff. unfold Qle. simpl. lia.
Qed.

Lemma Qlog2_quarter (p : Q) : (1 # 4 <= p)%Q -> (p < 1 # 2)%Q -> Qlog2 p = (-2)%Z.
Proof.
  destruct p as [n d]. unfold Qle, Qlt. simpl. intros H1 H2.
  unfold Qlog2. cbn [Qnum Qden].
  assert (Hn : (0 < n)%Z) by lia.
  assert (Hk : (Z.log2 n - Z.log2 (Z.pos d) = -1
                \/ Z.log2 n - Z.log2 (Z.pos d) = -2)%Z).
  { pose proof (Z.log2_le_mono (2 * n) (Z.pos d) ltac:(lia)).
    pose proof (Z.log2_le_mono (Z.pos d) (2 * (2 * n)) ltac:(lia)).
    rewrite !Z.log2_double in * by lia. lia. }
  destruct Hk as [-> | ->].
  - replace (Qle_bool (2 ^ (-1)) (n # d)) with false; [done|].
    symmetry. apply not_true_is_false. intros Hb.
    apply Qle_bool_iff in Hb. unfold Qle in Hb. simpl in Hb. lia.
  - replace (Qle_bool (2 ^ (-2)) (n # d)) with true; [done|].
    symmetry. apply Qle_bool_iff. unfold Qle. simpl. lia.
Qed.

(** A number of single precision is a multiple of its unit in the last
    place. *)
Lemma float32_grid (p : Q) (e : Z) (ulp : Q) :
  (0 < p)%Q -> Qlog2 (Qabs p) = e -> (-126 <= e)%Z ->
  Qpower 2 (e - 23) = ulp ->
  (float32 p == p)%Q -> exists K : Z, (p == inject_Z K * ulp)%Q.
Proof.
  intros Hpos He Hmin Hulp. unfold float32.
  destruct (Qeq_bool p 0) eqn:E.
  { apply Qeq_bool_eq in E. rewrite E in Hpos. by apply Qlt_irrefl in Hpos. }
  rewrite He, Z.max_l by done. rewrite Hulp, Qred_correct.
  intros H. eexists. symmetry. exact H.
Qed.

Lemma single_precision_gap_high (p : Q) :
  (float32 p == p)%Q -> (high_cut <= p)%Q -> (p < 0.65)%Q ->
  (p == high_cut)%Q.
Proof.
  rewrite high_cut_value. intros Hfix Hle Hlt.
  assert (Hpos : (0 < p)%Q) by (eapply Qlt_le_trans; [|exact Hle]; reflexivity).
  destruct (float32_grid p (-1) (1 # 16777216)) as [K HK];
    [done| |done|reflexivity|done|].
  - apply Qlog2_half; rewrite Qabs_pos by (by apply Qlt_le_weak).
    + eapply Qle_trans; [|exact Hle]. discriminate.
    + eapply Qlt_trans; [exact Hlt|]. reflexivity.
  - rewrite HK in *. revert Hle Hlt.
    unfold Qle, Qlt, Qeq, Qmult, inject_Z. simpl. lia.
Qed.

Lemma single_precision_gap_medium (p : Q) :
  (float32 p == p)%Q -> (medium_cut <= p)%Q -> (p < 0.35)%Q ->
  (p == medium_cut)%Q.
Proof.
  rewrite medium_cut_value. intros Hfix Hle Hlt.
  assert (Hpos : (0 < p)%Q) by (eapply Qlt_le_trans; [|exact Hle]; reflexivity).
  destruct (float32_grid p (-2) (1 # 33554432)) as [K HK];
    [done| |done|reflexivity|done|].
  - apply Qlog2_quarter; rewrite Qabs_pos by (by apply Qlt_le_weak).
    + eapply Qle_trans; [|exact Hle]. discriminate.
    + eapply Qlt_trans; [exact Hlt|]. reflexivity.
  - rewrite HK in *. revert Hle Hlt.
    unfold Qle, Qlt, Qeq, Qmult, inject_Z. simpl. lia.
Qed.

(** For a probability of single precision other than the two cut points,
    the tier is the tier by the decimal cut points. *)
Lemma tier_single_precision (p : Q) (t : string) :
  (float32 p == p)%Q -> ~ (p == high_cut)%Q -> ~ (p == medium_cut)%Q ->
  tier p t <-> decimal_tier p t.
Proof.
  intros Hfix Hh Hm. apply tier_decimal.
  - destruct (Qlt_le_dec p high_cut) as [H|H]; [by left|].
    destruct (Qlt_le_dec p 0.65) as [H'|H']; [|by right].
    by destruct Hh; apply single_precision_gap_high.
  - destruct (Qlt_le_dec p medium_cut) as [H|H]; [by left|].
    destruct (Qlt_le_dec p 0.35) as [H'|H']; [|by right].
    by destruct Hm; apply single_precision_gap_medium.
Qed.

(** C2, as the code has it. Every probability gets exactly one risk tier,
    fixed by the thresholds high = 0.65 and medium = 0.35 as the
    comparison in single precision sees them: with
    [high_cut = float32(0.65) = 5452595/8388608] (just under 0.65) and
    [medium_cut = float32(0.35) = 11744051/33554432] (just under 0.35),
    [p >= high_cut] is High, [medium_cut <= p < high_cut] is Medium and
    [p < medium_cut] is Low. The loop of [predict] (through
    [RISK_THRESHOLDS]) and the recomputation of [explain_local] (through
    its literals) assign this same tier, to every probability they
    report. Outside the two gaps [high_cut <= p < 0.65] and
    [medium_cut <= p < 0.35] it is the tier by the decimal cut points;
    the only numbers of single precision in the gaps are the two cut
    points themselves. *)
Theorem risk_tier_assignment :
  (forall p : Q, exists t, tier p t /\ forall t', tier p t' -> t' = t)
  /\ (forall (p : Q) (t : string), risk_label p = Return t <-> tier p t)
  /\ (forall (p : Q) (t : string), local_risk_level p = t <-> tier p t)
  /\ (forall self X predictions probabilities risk_labels,
        predict self X = Return (predictions, probabilities, risk_labels) ->
        Forall2 tier probabilities risk_labels)
  /\ (forall self predictor X student_indices report,
        explain_local self predictor X student_indices = Return report ->
        Forall (fun e => tier (probability e) (risk_level e))
               (explanations report))
  /\ high_cut = (5452595 # 8388608)%Q
  /\ medium_cut = (11744051 # 33554432)%Q
  /\ (forall (p : Q) (t : string),
        (p < high_cut \/ 0.65 <= p)%Q ->
        (p < medium_cut \/ 0.35 <= p)%Q ->
        tier p t <-> decimal_tier p t)
  /\ (forall (p : Q) (t : string),
        (float32 p == p)%Q ->
        ~ (p == high_cut)%Q -> ~ (p == medium_cut)%Q ->
        tier p t <-> decimal_tier p t).
Proof.
  split; [|split; [|split; [|split; [|split; [|split; [|split; [|split]]]]]]].
  - intros p. exists (local_risk_level p). split.
    + by apply tier_local_risk_level.
    + intros t' Ht'. symmetry. by apply tier_local_risk_level.
  - intros p t. rewrite risk_label_local, tier_local_risk_level.
    split; [by intros [= ->] | by intros ->].
  - intros p t. symmetry. apply tier_local_risk_level.
  - intros self X predictions probabilities risk_labels H.
    apply predict_labels in H as ->.
    induction probabilities as [|p ps IH]; constructor; [|exact IH].
    by apply tier_local_risk_level.
  - intros self predictor X student_indices report H.
    apply explain_local_levels in H.
    eapply Forall_impl; [exact H|].
    intros e He. by apply tier_local_risk_level.
  - apply high_cut_value.
  - apply medium_cut_value.
  - apply tier_decimal.
  - apply tier_single_precision.
Qed.

(** The tiers of C2 at the model [trained_ab], whose ensemble scores 0.7,
    and at the probabilities 0.70, 0.50 and 0.10; 1/2 is a number of
    single precision. *)
Lemma risk_tier_assignment_witness :
  predict trained_ab table_ab
  = Return ([1; 1]%Z, [0.7; 0.7]%Q, ["High"; "High"])
  /\ Forall2 tier [0.7; 0.7]%Q ["High"; "High"]
  /\ tier 0.70 "High" /\ tier 0.50 "Medium" /\ tier 0.10 "Low"
  /\ decimal_tier 0.50 "Medium"
  /\ decimal_tier (1 # 2) "Medium".
Proof.
  split; [reflexivity|]. split.
  - apply (proj1 (proj2 (proj2 (proj2 risk_tier_assignment)))
             trained_ab table_ab [1; 1]%Z). reflexivity.
  - repeat split.
    + apply (proj1 (proj2 risk_tier_assignment)). reflexivity.
    + apply (proj1 (proj2 risk_tier_assignment)). reflexivity.
    + apply (proj1 (proj2 risk_tier_assignment)). reflexivity.
    + apply (proj1 (proj2 (proj2 (proj2 (proj2 (proj2 (proj2 (proj2
               risk_tier_assignment))))))) 0.50%Q "Medium").
      * left. by vm_compute.
      * right. by vm_compute.
      * apply (proj1 (proj2 risk_tier_assignment)). reflexivity.
    + apply (proj2 (proj2 (proj2 (proj2 (proj2 (proj2 (proj2 (proj2
               risk_tier_assignment))))))) (1 # 2)%Q "Medium").
      * by vm_compute.
      * by vm_compute.
      * by vm_compute.
      * apply (proj1 (proj2 risk_tier_assignment)). reflexivity.
Defined.

(** C2 fails as stated. The probability 5452595/8388608 is a number of
    single precision under 0.65 and over 0.35, so its tier by the decimal
    cut points is Medium and not High; [predict] and [explain_local] call
    it High. The probability 11744051/33554432 is under 0.35, so its tier
    by the decimal cut points is Low; they call it Medium. *)
Lemma tiers_are_cut_in_single_precision :
  float32 (5452595 # 8388608) = (5452595 # 8388608)%Q
  /\ decimal_tier (5452595 # 8388608) "Medium"
  /\ ~ decimal_tier (5452595 # 8388608) "High"
  /\ risk_label (5452595 # 8388608) = Return "High"
  /\ local_risk_level (5452595 # 8388608) = "High"
  /\ float32 (11744051 # 33554432) = (11744051 # 33554432)%Q
  /\ decimal_tier (11744051 # 33554432) "Low"
  /\ ~ decimal_tier (11744051 # 33554432) "Medium"
  /\ risk_label (11744051 # 33554432) = Return "Medium"
  /\ local_risk_level (11744051 # 33554432) = "Medium".
Proof.
  repeat split; try (by vm_compute).
  - by apply decimal_Medium.
  - intros H. inversion H as [q Hq| |]. by apply Hq.
  - by apply decimal_Low.
  - intros H. inversion H as [|q Hq _|]. by apply Hq.
Qed.

(** ** The additive law (explainability.py) *)

(** C1 fails on the code. [initialize_explainer] builds the explainer
    with [shap.TreeExplainer(model)], which explains the margin (the
    log-odds) of the ensemble, and [explain_local] reports its baseline
    and its attributions next to the probability of the row. For the
    ensemble [even_odds] the baseline is 0, the attributions are 0 and
    the probability is 1/2: the baseline and the attributions miss the
    scored output by 1/2, far from the tolerance of the additive law. *)
Theorem attributions_miss_the_probability :
  exists self e,
    initialize_explainer even_odds_explainer Explainability.init
      trained_even table_ab = Return self
    /\ explain_local self trained_even table_ab (Some [0%nat])
       = Return (mkLocalReport [e] (Some 0%Q))
    /\ explanation_expected_value e = Some 0%Q
    /\ explanation_shap_values e = [0; 0]%Q
    /\ probability e = (1 # 2)%Q
    /\ ~ sum_law e.
Proof.
  eexists. eexists. split; [reflexivity|]. split; [reflexivity|].
  split; [reflexivity|]. split; [reflexivity|]. split; [reflexivity|].
  unfold sum_law. cbn [explanation_expected_value explanation_shap_values
                       probability foldr].
  apply Qlt_not_le. reflexivity.
Qed.

(** C6. [predict] on an untrained model raises the not-trained error, and
    [explain_global] and [explain_local] on an explainer that
    [initialize_explainer] has not set up raise the not-initialized error;
    nothing is returned. A new predictor is untrained and a new explainer
    is not set up. *)
Theorem untrained_uninitialized_raise :
  (forall self X,
      is_trained self = false ->
      predict self X = Raise NotTrainedError /\ ~ returns (predict self X))
  /\ (forall self predictor X,
        explainer self = None ->
        explain_global self predictor X = Raise NotInitializedError
        /\ ~ returns (explain_global self predictor X))
  /\ (forall self predictor X student_indices,
        explainer self = None ->
        explain_local self predictor X student_indices
        = Raise NotInitializedError
        /\ ~ returns (explain_local self predictor X student_indices))
  /\ is_trained ModelTrainer.init = false
  /\ explainer Explainability.init = None.
Proof.
  split; [|split; [|split; [|split]]]; try reflexivity.
  - intros self X Huntrained. unfold predict. rewrite Huntrained.
    split; [reflexivity | by intros [r Hr]].
  - intros self predictor X Hnone. unfold explain_global. rewrite Hnone.
    split; [reflexivity | by intros [r Hr]].
  - intros self predictor X student_indices Hnone.
    unfold explain_local. rewrite Hnone.
    split; [reflexivity | by intros [r Hr]].
Qed.

(** C6 at a new predictor and a new explainer. *)
Lemma untrained_uninitialized_raise_witness :
  predict ModelTrainer.init table_ab = Raise NotTrainedError
  /\ explain_global Explainability.init trained_ab table_ab
     = Raise NotInitializedError
  /\ explain_local Explainability.init trained_ab table_ab (Some [0])
     = Raise NotInitializedError.
Proof.
  split; [|split].
  - apply (proj1 untrained_uninitialized_raise). reflexivity.
  - apply (proj1 (proj2 untrained_uninitialized_raise)). reflexivity.
  - apply (proj1 (proj2 (proj2 untrained_uninitialized_raise))). reflexivity.
Defined.

(** [initialize_explainer] needs a trained model, and sets the explainer
    up when it returns. *)
Lemma initialize_explainer_sets_up
    (shap_TreeExplainer : XGBClassifier -> TreeExplainer)
    (self : ModelExplainer) (predictor : DropoutPredictor)
    (X_background : DataFrame) :
  (is_trained predictor = false ->
     raises (initialize_explainer shap_TreeExplainer self predictor X_background))
  /\ (forall self',
        initialize_explainer shap_TreeExplainer self predictor X_background
        = Return self' ->
        is_trained predictor = true
        /\ exists m, model predictor = Some m
             /\ explainer self' = Some (shap_TreeExplainer m)
             /\ expected_value self'
                = Some (tree_expected_value (shap_TreeExplainer m))).
Proof.
  unfold initialize_explainer. split.
  - intros ->. simpl. by eexists.
  - intros self'. destruct (is_trained predictor); simpl; [|done].
    destruct (model predictor) as [m|]; [|done].
    intros [= <-]. split; [done|]. eauto.
Qed.

(** The report of [explain_local] for the second student of [table_ab]. *)
Example explain_local_second_student :
  explain_local explainer_ab trained_ab table_ab (Some [1%nat])
  = Return (mkLocalReport
              [mkExplanation 1 1 0.7 "High"
                 [mkContribution "a" 0.1 0.1; mkContribution "b" 0.1 0.1]
                 [0.1; 0.1]%Q [("a", NaN); ("b", Float 4)] (Some 0.5%Q)]
              (Some 0.5%Q)).
Proof. reflexivity. Qed.

End Classifier.


(** ** Recommendations (intervention_system.py) *)

Section StableSort.

Context {A : Type} (gt : A -> A -> bool).

Hypothesis gt_asym : forall x y, gt x y = true -> gt y x = false.
Hypothesis not_after_trans : forall x y z,
  not_after gt x y -> not_after gt y z -> not_after gt x z.

Lemma insert_desc_elem (x : A) (l : list A) (P : A -> Prop) :
  P x -> Forall P l -> Forall P (insert_desc gt x l).
Proof.
  intros Hx Hl. induction Hl as [|y l Hy Hl IH]; simpl.
  - by constructor.
  - destruct (gt y x); constructor; auto.
Qed.

Lemma insert_desc_sorted (x : A) (l : list A) :
  StronglySorted (not_after gt) l -> StronglySorted (not_after gt) (insert_desc gt x l).
Proof.
  induction 1 as [|y l Hl IH Hy]; simpl.
  - repeat constructor.
  - destruct (gt y x) eqn:Hyx.
    + constructor; [exact IH|].
      apply insert_desc_elem; [|exact Hy].
      unfold not_after. by apply gt_asym.
    + constructor; [by constructor|].
      constructor; [exact Hyx|].
      eapply Forall_impl; [exact Hy|].
      intros z Hz. by apply (not_after_trans x y z).
Qed.

Lemma sort_desc_sorted (l : list A) :
  StronglySorted (not_after gt) (sort_desc gt l).
Proof.
  unfold sort_desc. induction l as [|x l IH]; simpl.
  - constructor.
  - by apply insert_desc_sorted.
Qed.

Lemma insert_desc_length (x : A) (l : list A) :
  length (insert_desc gt x l) = S (length l).
Proof.
  induction l as [|y l IH]; simpl; [done|].
  destruct (gt y x); simpl; by rewrite ?IH.
Qed.

End StableSort.

Lemma StronglySorted_take {A} (R : A -> A -> Prop) (n : nat) (l : list A) :
  StronglySorted R l -> StronglySorted R (take n l).
Proof.
  intros H. revert n. induction H as [|x l Hl IH Hx]; intros [|n]; simpl;
    try constructor; auto.
  apply Forall_take. exact Hx.
Qed.

Lemma StronglySorted_weaken {A} (R1 R2 : A -> A -> Prop) (l : list A) :
  (forall x y, R1 x y -> R2 x y) ->
  StronglySorted R1 l -> StronglySorted R2 l.
Proof.
  intros HR. induction 1 as [|x l Hl IH Hx]; constructor; [exact IH|].
  eapply Forall_impl; [exact Hx|]. intros y. apply HR.
Qed.

Lemma StronglySorted_lookup {A} (R : A -> A -> Prop) (l : list A) :
  StronglySorted R l ->
  forall i j x y, (i < j)%nat -> l !! i = Some x -> l !! j = Some y -> R x y.
Proof.
  induction 1 as [|a l Hl IH Ha]; intros i j x y Hij Hi Hj.
  - by rewrite lookup_nil in Hi.
  - destruct j as [|j]; [lia|]. simpl in Hj. destruct i as [|i]; simpl in Hi.
    + injection Hi as <-. rewrite Forall_forall in Ha. apply Ha.
      by eapply list_elem_of_lookup_2.
    + eapply IH; [|exact Hi|exact Hj]. lia.
Qed.

Section Recommendations.

Import Intervention Spec.

Lemma key_gtb_false (a b : Z * Q) : key_gtb b a = false <-> key_ge a b.
Proof.
  unfold key_gtb, key_ge. destruct a as [pa ia], b as [pb ib]; simpl.
  rewrite orb_false_iff, andb_false_iff, Z.gtb_ltb, Z.ltb_ge, Z.eqb_neq, Qgtb_false.
  split.
  - intros [Hle [Hne|Hq]]; [left; lia|].
    destruct (Z.eq_dec pa pb) as [->|Hne]; [right; done | left; lia].
  - intros [Hlt|[-> Hq]]; (split; [lia|]); [left; lia | right; done].
Qed.

Lemma key_gtb_asym (a b : Z * Q) : key_gtb a b = true -> key_gtb b a = false.
Proof.
  intros H. apply key_gtb_false. unfold key_gtb, key_ge in *.
  destruct a as [pa ia], b as [pb ib]; simpl in *.
  apply orb_true_iff in H as [H|H].
  - left. apply Z.gtb_lt in H. lia.
  - apply andb_true_iff in H as [He Hq]. apply Z.eqb_eq in He as ->.
    right. split; [done|]. apply Qgtb_true in Hq. by apply Qlt_le_weak.
Qed.

Lemma key_ge_trans (a b c : Z * Q) : key_ge a b -> key_ge b c -> key_ge a c.
Proof.
  unfold key_ge. intros [H1|[H1 H1']] [H2|[H2 H2']].
  - left; lia.
  - left; lia.
  - left; lia.
  - right. split; [congruence|]. by eapply Qle_trans.
Qed.

Lemma recommendations_sorted (l : list Recommendation) :
  StronglySorted ranked_before
    (sort_desc (fun x y => key_gtb (sort_key x) (sort_key y)) l).
Proof.
  eapply StronglySorted_weaken; [|apply sort_desc_sorted].
  - intros x y. unfold not_after. by rewrite key_gtb_false.
  - intros x y. apply key_gtb_asym.
  - intros x y z. unfold not_after. rewrite !key_gtb_false. apply key_ge_trans.
Qed.

(** C7. The list [analyze_student_risk_factors] returns has at most five
    recommendations, and each one that comes earlier has a pair
    (priority_score, impact_score) lexicographically greater than or equal
    to that of each one that comes later. *)
Theorem recommendations_top5_ranked
    (student_data : gmap string pyfloat) (shap_values : list Q)
    (feature_names : list string) :
  let result := analyze_student_risk_factors student_data shap_values feature_names in
  (length result <= 5)%nat
  /\ forall (i j : nat) (x y : Recommendation),
       (i < j)%nat -> result !! i = Some x -> result !! j = Some y ->
       key_ge (priority_score x, impact_score x)
              (priority_score y, impact_score y).
Proof.
  unfold analyze_student_risk_factors. split.
  - rewrite length_take. lia.
  - apply (StronglySorted_lookup ranked_before).
    apply StronglySorted_take, recommendations_sorted.
Qed.

(** C7 at a student failing on every count. *)
Lemma recommendations_top5_ranked_witness :
  (length (analyze_student_risk_factors struggling_student [0.3; -0.2]%Q
             ["fee_payment_status"; "attendance_percentage"]) <= 5)%nat
  /\ key_ge (9%Z, Qabs 0.3) (9%Z, Qabs (-0.2)).
Proof.
  pose proof (recommendations_top5_ranked struggling_student [0.3; -0.2]%Q
                ["fee_payment_status"; "attendance_percentage"]) as [Hlen Hrank].
  split; [exact Hlen|].
  exact (Hrank 0%nat 1%nat _ _ (Nat.lt_0_succ 0) eq_refl eq_refl).
Defined.

(** *** Absent fields *)

Lemma get_absent {A} (d : gmap string A) (key : string) (value : A) :
  d !! key = None -> get d key value = value.
Proof. unfold get. by intros ->. Qed.

Lemma get_insert {A} (d : gmap string A) (key : string) (v value : A) :
  get (<[key := v]> d) key value = v.
Proof. unfold get. by rewrite lookup_insert_eq. Qed.

Lemma get_insert_ne {A} (d : gmap string A) (key key' : string) (v value : A) :
  key <> key' -> get (<[key := v]> d) key' value = get d key' value.
Proof. intros H. unfold get. by rewrite lookup_insert_ne. Qed.

Lemma zip_all_zero (feature_names : list string) (shap_values : list Q) :
  Forall (fun v => v = 0%Q) shap_values ->
  Forall (fun p : string * Q => p.2 = 0%Q) (zip feature_names shap_values).
Proof.
  intros H. revert feature_names.
  induction H as [|v vs Hv _ IH]; intros [|n ns]; simpl; constructor; auto.
Qed.

Lemma foldl_insert_zero (l : list (string * Q)) (d : gmap string Q) :
  Forall (fun p : string * Q => p.2 = 0%Q) l ->
  (forall k v, d !! k = Some v -> v = 0%Q) ->
  forall k v, foldl (fun d p => <[p.1 := p.2]> d) d l !! k = Some v -> v = 0%Q.
Proof.
  intros Hl. revert d. induction Hl as [|p l Hp _ IH]; intros d Hd; simpl.
  - exact Hd.
  - apply IH. intros k v. destruct (decide (p.1 = k)) as [->|Hne].
    + rewrite lookup_insert_eq. congruence.
    + rewrite lookup_insert_ne by done. apply Hd.
Qed.

(** An all-zero attribution vector gives every feature the impact 0. *)
Lemma zero_impacts (feature_names : list string) (shap_values : list Q)
    (key : string) :
  Forall (fun v => v = 0%Q) shap_values ->
  get (dict_zip feature_names shap_values) key 0%Q = 0%Q.
Proof.
  intros H. unfold get, dict_zip.
  destruct (foldl _ _ _ !! key) as [v|] eqn:E; simpl; [|done].
  eapply foldl_insert_zero in E; [done| |].
  - by apply zip_all_zero.
  - intros k v'. by rewrite lookup_empty.
Qed.

(** C10. With an all-zero attribution vector, an absent field of
    [student_data] is read as its default. For [attendance_percentage],
    [quiz_test_avg_pct], [assignment_timeliness] and [fee_payment_status]
    the defaults are 100, 100, 100 and 1, and no recommendation is made for
    them; for [lms_login_count_monthly] and [time_spent_online_hours_week]
    the default is 0, and 'Low Online Engagement' and 'Low Online Activity'
    are always made. A record without any of the six fields gets both,
    and a record without any field gets exactly these two. *)
Theorem absent_fields_default_asymmetrically
    (student_data : gmap string pyfloat) (shap_values : list Q)
    (feature_names : list string) :
  Forall (fun v => v = 0%Q) shap_values ->
  let feature_impacts := dict_zip feature_names shap_values in
  let result :=
    analyze_student_risk_factors student_data shap_values feature_names in
  (student_data !! "attendance_percentage" = None ->
     _analyze_attendance_risk student_data feature_impacts
     = _analyze_attendance_risk
         (<["attendance_percentage" := fin 100]> student_data) feature_impacts
     /\ _analyze_attendance_risk student_data feature_impacts = [])
  /\ (student_data !! "quiz_test_avg_pct" = None ->
       _analyze_academic_performance_risk student_data feature_impacts
       = _analyze_academic_performance_risk
           (<["quiz_test_avg_pct" := fin 100]> student_data) feature_impacts
       /\ Forall (fun r => factor r <> "Poor Academic Performance")
            (_analyze_academic_performance_risk student_data feature_impacts))
  /\ (student_data !! "assignment_timeliness" = None ->
       _analyze_academic_performance_risk student_data feature_impacts
       = _analyze_academic_performance_risk
           (<["assignment_timeliness" := fin 100]> student_data) feature_impacts
       /\ Forall (fun r => factor r <> "Assignment Delays")
            (_analyze_academic_performance_risk student_data feature_impacts))
  /\ (student_data !! "fee_payment_status" = None ->
       _analyze_financial_risk student_data feature_impacts
       = _analyze_financial_risk
           (<["fee_payment_status" := fin 1]> student_data) feature_impacts
       /\ _analyze_financial_risk student_data feature_impacts = [])
  /\ (student_data !! "lms_login_count_monthly" = None ->
       _analyze_engagement_risk student_data feature_impacts
       = _analyze_engagement_risk
           (<["lms_login_count_monthly" := fin 0]> student_data) feature_impacts
       /\ low_online_engagement
            ∈ _analyze_engagement_risk student_data feature_impacts)
  /\ (student_data !! "time_spent_online_hours_week" = None ->
       _analyze_engagement_risk student_data feature_impacts
       = _analyze_engagement_risk
           (<["time_spent_online_hours_week" := fin 0]> student_data)
           feature_impacts
       /\ low_online_activity
            ∈ _analyze_engagement_risk student_data feature_impacts)
  /\ (student_data !! "attendance_percentage" = None ->
       student_data !! "quiz_test_avg_pct" = None ->
       student_data !! "assignment_timeliness" = None ->
       student_data !! "fee_payment_status" = None ->
       student_data !! "lms_login_count_monthly" = None ->
       student_data !! "time_spent_online_hours_week" = None ->
       low_online_engagement ∈ result /\ low_online_activity ∈ result
       /\ Forall (fun r => factor r = "Low Online Engagement"
                           \/ factor r = "Low Online Activity"
                           \/ factor r = "Socioeconomic Challenges") result)
  /\ (student_data = ∅ ->
       result = [low_online_engagement; low_online_activity]).
Proof.
  intros Hzero feature_impacts result.
  assert (Himpact : forall key, get feature_impacts key 0%Q = 0%Q)
    by (intros key; by apply zero_impacts).
  repeat apply conj.
  - intros Habs. unfold _analyze_attendance_risk.
    rewrite get_insert, (get_absent _ _ _ Habs), Himpact. done.
  - intros Habs. unfold _analyze_academic_performance_risk.
    rewrite get_insert, get_insert_ne by done.
    rewrite (get_absent _ _ _ Habs), !Himpact. split; [done|].
    simpl. destruct (float_lt _ 50 || _); repeat constructor; done.
  - intros Habs. unfold _analyze_academic_performance_risk.
    rewrite get_insert, get_insert_ne by done.
    rewrite (get_absent _ _ _ Habs), !Himpact. split; [done|].
    simpl. destruct (float_lt _ 60 || _); repeat constructor; done.
  - intros Habs. unfold _analyze_financial_risk.
    rewrite get_insert, (get_absent _ _ _ Habs), Himpact. done.
  - intros Habs. unfold _analyze_engagement_risk.
    rewrite get_insert, get_insert_ne by done.
    rewrite (get_absent _ _ _ Habs), !Himpact. split; [done|].
    simpl. destruct (float_lt _ 3 || _); set_solver.
  - intros Habs. unfold _analyze_engagement_risk.
    rewrite get_insert, get_insert_ne by done.
    rewrite (get_absent _ _ _ Habs), !Himpact. split; [done|].
    simpl. destruct (float_lt _ 5 || _); set_solver.
  - intros H1 H2 H3 H4 H5 H6.
    subst result. unfold analyze_student_risk_factors.
    fold feature_impacts.
    unfold _analyze_attendance_risk, _analyze_academic_performance_risk,
      _analyze_financial_risk, _analyze_engagement_risk,
      _analyze_behavioral_risk.
    rewrite (get_absent _ _ _ H1), (get_absent _ _ _ H2),
      (get_absent _ _ _ H3), (get_absent _ _ _ H4),
      (get_absent _ _ _ H5), (get_absent _ _ _ H6), !Himpact.
    simpl. destruct (float_lt _ 2 || _); simpl.
    + split; [set_solver|]. split; [set_solver|].
      repeat (apply Forall_cons_2; [simpl; tauto|]). apply Forall_nil_2.
    + split; [set_solver|]. split; [set_solver|].
      repeat (apply Forall_cons_2; [simpl; tauto|]). apply Forall_nil_2.
  - intros ->. subst result. unfold analyze_student_risk_factors.
    fold feature_impacts.
    unfold _analyze_attendance_risk, _analyze_academic_performance_risk,
      _analyze_financial_risk, _analyze_engagement_risk,
      _analyze_behavioral_risk.
    rewrite !get_absent by apply lookup_empty.
    rewrite !Himpact. reflexivity.
Qed.

(** C10 at the empty record with two zero attributions. *)
Lemma absent_fields_default_asymmetrically_witness :
  analyze_student_risk_factors ∅ [0; 0]%Q
    ["attendance_percentage"; "lms_login_count_monthly"]
  = [low_online_engagement; low_online_activity].
Proof.
  apply (absent_fields_default_asymmetrically ∅ [0; 0]%Q
           ["attendance_percentage"; "lms_login_count_monthly"]).
  - repeat constructor.
  - reflexivity.
Defined.

End Recommendations.


(** ** Frames *)

Section Frames.

Lemma assoc_elem_of {A} (k : string) (v : A) (l : list (string * A)) :
  assoc k l = Some v -> (k, v) ∈ l.
Proof.
  induction l as [|[k' v'] l IH]; simpl; [done|].
  destruct (String.eqb k k') eqn:E.
  - apply String.eqb_eq in E as ->. intros [= ->]. left.
  - intros H. right. by apply IH.
Qed.

Lemma assoc_NoDup {A} (k : string) (v : A) (l : list (string * A)) :
  NoDup (map fst l) -> (k, v) ∈ l -> assoc k l = Some v.
Proof.
  induction l as [|[k' v'] l IH]; simpl; intros Hnd Hin.
  - by apply elem_of_nil in Hin.
  - apply NoDup_cons in Hnd as [Hk' Hnd].
    apply elem_of_cons in Hin as [[= <- <-]|Hin].
    + by rewrite String.eqb_refl.
    + destruct (String.eqb k k') eqn:E; [|by apply IH].
      apply String.eqb_eq in E as ->. exfalso. apply Hk'.
      apply (list_elem_of_fmap_2 fst) in Hin. exact Hin.
Qed.

Lemma has_column_assoc (df : DataFrame) (col : string) :
  has_column df col = true <-> is_Some (assoc col (columns df)).
Proof.
  unfold has_column, column_names. destruct df as [n cols]; simpl.
  induction cols as [|[k v] cols IH]; simpl.
  - split; [done | by intros [? ?]].
  - destruct (String.eqb col k); simpl; [split; eauto|exact IH].
Qed.

Lemma has_column_false (df : DataFrame) (col : string) :
  has_column df col = false <-> assoc col (columns df) = None.
Proof.
  rewrite <- not_true_iff_false, has_column_assoc, <- eq_None_not_Some. done.
Qed.

Lemma wf_frame_length (df : DataFrame) (col : string) (s : Series) :
  wf_frame df -> assoc col (columns df) = Some s -> length s = nrows df.
Proof.
  unfold wf_frame. rewrite Forall_forall. intros Hwf Hs.
  apply assoc_elem_of in Hs. exact (Hwf _ Hs).
Qed.

Lemma map_nth_seq {A} (d : A) (l : list A) :
  map (fun i => nth i l d) (seq 0 (length l)) = l.
Proof.
  induction l as [|x l IH]; simpl; [done|].
  f_equal. rewrite <- seq_shift, map_map. exact IH.
Qed.

Lemma zip_with_map_map {A B C D} (g : B -> C -> D) (f : A -> B) (h : A -> C)
    (l : list A) :
  zip_with g (map f l) (map h l) = map (fun x => g (f x) (h x)) l.
Proof. induction l as [|x l IH]; simpl; [done|]. by rewrite IH. Qed.

(** The pandas operations on small columns. *)
Example median_of_examples :
  median_of [3; 1; 2]%Q = Some 2%Q
  /\ median_of [1; 2]%Q = Some (3 # 2)%Q
  /\ median_of [] = None
  /\ numeric_median [NaN; Float 3; Int 1; Float 2] = Float 2.
Proof. repeat split. Qed.

Example mode_examples :
  DataProcessor.mode [Str "y"; Str "x"; NaN; Str "x"; Str "y"]
  = [Str "x"; Str "y"]
  /\ DataProcessor.mode [NaN; NaN] = []
  /\ DataProcessor.mode [Float 2; Int 2; Float 1] = [Float 2].
Proof. repeat split. Qed.

Example parse_number_examples :
  map DataProcessor.parse_number
      ["85"; "-3"; "85.5"; "1e3"; ".5"; "5."; "85 pct"; "8x5"; "nan"; ""]
  = [Int 85; Int (-3); Float (171 # 2); Float 1000; Float (1 # 2); Float 5;
     NaN; NaN; NaN; NaN].
Proof. reflexivity. Qed.

(** Blanks around a numeral are skipped; an exponent needs its digits; a
    numeral out of the range of a float is coerced to missing and one
    under it is zero. *)
Example parse_number_blanks_and_range :
  map DataProcessor.parse_number
      [" 15 "; "+7"; " -2.50 "; "1 5"; "2E-2"; "5e"; "5e+"; "1e309";
       "0e400"; "-1e-400"; "18446744073709551616"; "."; "+"; "1e5 "]
  = [Int 15; Int 7; Float (-5 # 2); NaN; Float (1 # 50); NaN; NaN; NaN;
     NaN; Float 0; Float 18446744073709551000; NaN; NaN; Float 100000].
Proof. by vm_compute. Qed.

Example text_examples :
  DataProcessor.strip "  ab c  " = "ab c"
  /\ DataProcessor.lower "PaId" = "paid"
  /\ DataProcessor.remove_char "%" "85%" = "85".
Proof. repeat split. Qed.

End Frames.


(** ** The synthetic label (model_trainer.py) *)

Section SyntheticLabel.

Import Spec.

Lemma cell_lt_numeric (bound : Q) (c : cell) :
  is_str c = false -> cell_lt bound c = Return (below (Some c) bound).
Proof. by destruct c. Qed.

Lemma series_lt_numeric (s : Series) (bound : Q) :
  existsb is_str s = false ->
  series_lt s bound = Return (map (fun c => below (Some c) bound) s).
Proof.
  intros H. apply mapM_total.
  induction s as [|c s IH]; simpl in *; constructor.
  - apply cell_lt_numeric. by apply orb_false_iff in H as [? _].
  - apply IH. by apply orb_false_iff in H as [_ ?].
Qed.

Lemma replicate_seq {A} (x : A) (n : nat) :
  replicate n x = map (fun _ => x) (seq 0 n).
Proof.
  generalize 0%nat. induction n as [|n IH]; intros k; simpl; [done|].
  by rewrite <- IH.
Qed.

(** One risk indicator adds its term to the weight of every record. *)
Lemma risk_indicator_spec (df : DataFrame) (col : string) (bound : Q)
    (weight : Z) (f : nat -> Z) :
  wf_frame df -> numeric_in df col ->
  risk_indicator df col bound weight (map f (seq 0 (nrows df)))
  = Return (map (fun i => f i + (if below (entry df col i) bound
                                 then weight else 0))%Z
                (seq 0 (nrows df))).
Proof.
  intros Hwf Hnum. unfold risk_indicator, entry.
  destruct (has_column df col) eqn:E.
  - apply has_column_assoc in E as [s Hs].
    unfold getitem. rewrite Hs. simpl.
    rewrite (series_lt_numeric s bound (Hnum s Hs)). simpl.
    unfold add_flags. f_equal.
    rewrite <- (wf_frame_length df col s Hwf Hs).
    rewrite <- (map_nth_seq NaN s) at 2.
    rewrite !map_map, zip_with_map_map.
    apply map_ext. intros i. by destruct (below _ bound); rewrite ?Z.mul_1_l, ?Z.mul_0_l.
  - apply has_column_false in E. rewrite E. simpl. f_equal.
    apply map_ext. intros i. by rewrite Z.add_0_r.
Qed.

Lemma _create_synthetic_target_spec (df : DataFrame) :
  wf_frame df -> Forall (numeric_in df) risk_columns ->
  _create_synthetic_target df
  = Return (map (synthetic_label df) (seq 0 (nrows df))).
Proof.
  intros Hwf Hnum. unfold risk_columns in Hnum.
  rewrite !Forall_cons in Hnum.
  destruct Hnum as (H1 & H2 & H3 & H4 & H5 & _).
  unfold _create_synthetic_target.
  rewrite replicate_seq.
  rewrite risk_indicator_spec by done. simpl bind.
  rewrite risk_indicator_spec by done. simpl bind.
  rewrite risk_indicator_spec by done. simpl bind.
  rewrite risk_indicator_spec by done. simpl bind.
  rewrite risk_indicator_spec by done. simpl bind.
  f_equal. rewrite map_map. apply map_ext. intros i.
  unfold synthetic_label, risk_weight. rewrite Z.geb_leb, Z.add_0_l.
  by destruct (3 <=? _)%Z.
Qed.

Lemma numeric_columns_spec (df : DataFrame) (c : string) :
  NoDup (column_names df) -> In c (numeric_columns df) ->
  exists s, assoc c (columns df) = Some s /\ existsb is_str s = false.
Proof.
  intros Hnd Hc. unfold numeric_columns in Hc.
  apply in_map_iff in Hc as ([c' s] & <- & Hin).
  apply filter_In in Hin as [Hin HP]. simpl in *.
  exists s. split.
  - apply assoc_NoDup; [exact Hnd|]. by apply list_elem_of_In.
  - unfold dtype_of in HP. by destruct (existsb is_str s).
Qed.

Lemma getitem_list_present (df : DataFrame) (cols : list string) :
  Forall (fun c => has_column df c = true) cols ->
  getitem_list df cols
  = Return (mkFrame (nrows df)
              (map (fun c => (c, default [] (assoc c (columns df)))) cols)).
Proof.
  intros H. unfold getitem_list.
  replace (List.filter _ cols) with (@nil string); [done|].
  induction H as [|c cols Hc _ IH]; simpl; [done|]. by rewrite Hc.
Qed.

Lemma frame_median_numeric (df : DataFrame) :
  Forall (fun c : string * Series => existsb is_str c.2 = false) (columns df) ->
  frame_median df
  = Return (map (fun c : string * Series => (c.1, numeric_median c.2))
                (columns df)).
Proof.
  intros H. unfold frame_median. apply mapM_total.
  eapply Forall_impl; [exact H|]. intros [c s] Hs. simpl in *.
  unfold series_median. by rewrite Hs.
Qed.

(** The features [prepare_training_data] selects can be read and their
    medians taken. *)
Lemma training_features_ok (df : DataFrame) (cols : list string) :
  NoDup (column_names df) ->
  (forall c, In c cols -> In c (numeric_columns df)) ->
  exists features medians,
    getitem_list df cols = Return features
    /\ frame_median features = Return medians.
Proof.
  intros Hnd Hcols. eexists _, _. split.
  - apply getitem_list_present. apply Forall_forall. intros c Hc.
    apply list_elem_of_In, Hcols in Hc.
    destruct (numeric_columns_spec df c Hnd Hc) as (s & Hs & _).
    apply has_column_assoc. by exists s.
  - apply frame_median_numeric. simpl. apply Forall_forall.
    intros [c s] Hin. apply list_elem_of_fmap in Hin as (c' & [= -> ->] & Hc').
    apply list_elem_of_In, Hcols in Hc'.
    destruct (numeric_columns_spec df c' Hnd Hc') as (s & -> & Hs). exact Hs.
Qed.

Lemma below_spec (e : option cell) (bound : Q) :
  below e bound = true
  <-> exists c q, e = Some c /\ cell_num c = Some q /\ (q < bound)%Q.
Proof.
  unfold below. split.
  - destruct e as [c|]; simpl; [|done].
    destruct (cell_num c) as [q|] eqn:E; [|done].
    intros H. exists c, q. by rewrite <- Qltb_true.
  - intros (c & q & -> & Hq & Hlt). simpl. rewrite Hq. by apply Qltb_true.
Qed.

(** C3. Without an outcome column, the label of a record is 1 exactly when
    its integer risk weight is at least 3, the weight being +2 for
    attendance_percentage < 60, +2 for assignment_timeliness < 50, +2 for
    quiz_test_avg_pct < 50, +1 for fee_payment_status < 0.5 and +1 for
    lms_login_count_monthly < 5, each term only for a column that is
    present; [prepare_training_data] returns these labels as its target.
    The record with attendance 40, quiz 45, payment 0 and 2 logins has
    weight 6 and label 1. *)
Theorem synthetic_label_rule (df : DataFrame) (target_column : string)
    (self : DropoutPredictor) :
  wf_frame df ->
  NoDup (column_names df) ->
  Forall (numeric_in df) risk_columns ->
  has_column df target_column = false ->
  (exists features self',
      prepare_training_data df target_column self
      = (Return (features,
                 map (fun i => Int (synthetic_label df i)) (seq 0 (nrows df))),
         self'))
  /\ _create_synthetic_target df
     = Return (map (synthetic_label df) (seq 0 (nrows df)))
  /\ (forall i, (synthetic_label df i = 1%Z <-> (3 <= risk_weight df i)%Z)
               /\ (synthetic_label df i = 0%Z <-> (risk_weight df i < 3)%Z))
  /\ (forall i,
        risk_weight df i
        = ((if below (entry df "attendance_percentage" i) 60 then 2 else 0)
           + (if below (entry df "assignment_timeliness" i) 50 then 2 else 0)
           + (if below (entry df "quiz_test_avg_pct" i) 50 then 2 else 0)
           + (if below (entry df "fee_payment_status" i) 0.5 then 1 else 0)
           + (if below (entry df "lms_login_count_monthly" i) 5 then 1 else 0))%Z)
  /\ (forall col i bound,
        below (entry df col i) bound = true
        <-> exists s q, assoc col (columns df) = Some s
                        /\ cell_num (nth i s NaN) = Some q /\ (q < bound)%Q)
  /\ risk_weight scenario 0 = 6%Z
  /\ synthetic_label scenario 0 = 1%Z.
Proof.
  intros Hwf Hnd Hnum Htarget.
  pose proof (_create_synthetic_target_spec df Hwf Hnum) as Hsyn.
  repeat apply conj.
  - unfold prepare_training_data, andthen, lift, set_feature_columns, ret.
    rewrite Htarget. simpl negb. cbv iota. rewrite Hsyn. simpl bind.
    set (feature_cols := List.filter _ (numeric_columns df)).
    destruct (training_features_ok df feature_cols Hnd)
      as (features & medians & Hf & Hm).
    { intros c Hc. by apply filter_In in Hc as [Hc _]. }
    simpl. rewrite Hf, Hm. rewrite map_map. eauto.
  - exact Hsyn.
  - intros i. unfold synthetic_label.
    destruct (3 <=? risk_weight df i)%Z eqn:E.
    + apply Z.leb_le in E. split; split; intros; try done; lia.
    + apply Z.leb_gt in E. split; split; intros; try done; lia.
  - reflexivity.
  - intros col i bound. rewrite below_spec. unfold entry.
    destruct (assoc col (columns df)) as [s|]; split.
    + intros (c & q & [= <-] & Hq & Hlt). eauto.
    + intros (s' & q & [= <-] & Hq & Hlt). eauto.
    + by intros (c & q & ? & _).
    + by intros (s' & q & ? & _).
  - reflexivity.
  - reflexivity.
Qed.

(** C3 at the record of the scenario. *)
Lemma synthetic_label_rule_witness :
  _create_synthetic_target scenario = Return [1%Z]
  /\ risk_weight scenario 0 = 6%Z.
Proof.
  assert (Hwf : wf_frame scenario) by (repeat constructor).
  assert (Hnd : NoDup (column_names scenario)).
  { apply NoDup_ListNoDup. repeat constructor; simpl; intuition discriminate. }
  assert (Hnum : Forall (numeric_in scenario) risk_columns).
  { repeat constructor; intros s [= <-]; reflexivity. }
  destruct (synthetic_label_rule scenario "dropout" ModelTrainer.init
              Hwf Hnd Hnum eq_refl) as (_ & Hsyn & _ & _ & _ & Hw & _).
  split; [exact Hsyn | exact Hw].
Defined.

End SyntheticLabel.


(** ** Prediction on a table (model_trainer.py) *)

Section Prediction.

Import Spec DataProcessor.

Lemma assoc_map_key {A} (h : string -> A) (k : string) (names : list string) :
  In k names -> assoc k (map (fun c => (c, h c)) names) = Some (h k).
Proof.
  induction names as [|n names IH]; simpl; [done|].
  destruct (String.eqb k n) eqn:E.
  - apply String.eqb_eq in E as ->. done.
  - intros [->|H]; [by rewrite String.eqb_refl in E | by apply IH].
Qed.

(** Filling the selected columns with the medians [predict] computes is
    filling each column with its own median. *)
Lemma fill_selected (X : DataFrame) (cols : list string) :
  let selected :=
    mkFrame (nrows X) (map (fun c => (c, column X c)) cols) in
  frame_fillna selected
    (map (fun c : string * Series => (c.1, numeric_median c.2))
         (columns selected))
  = own_median_fill X cols.
Proof.
  simpl. unfold frame_fillna, own_median_fill. simpl. f_equal.
  rewrite !map_map. simpl. apply map_ext_in. intros c Hc. simpl.
  rewrite (assoc_map_key (fun c => numeric_median (column X c)) c cols Hc).
  done.
Qed.

Lemma predict_present (self : DropoutPredictor) (X : DataFrame)
    (m : XGBClassifier) :
  is_trained self = true -> model self = Some m ->
  (forall c, In c (feature_columns self) -> has_column X c = true) ->
  (forall c, In c (feature_columns self) -> numeric_in X c) ->
  let X_processed := own_median_fill X (feature_columns self) in
  predict self X
  = Return (map (xgb_predict m) (rows X_processed),
            map (xgb_predict_proba m) (rows X_processed),
            map Explainability.local_risk_level
                (map (xgb_predict_proba m) (rows X_processed))).
Proof.
  intros Ht Hm Hpresent Hnum. simpl. unfold predict. rewrite Ht. simpl negb. cbv iota.
  rewrite getitem_list_present
    by (apply Forall_forall; intros c Hc; by apply Hpresent, list_elem_of_In).
  simpl bind. rewrite frame_median_numeric.
  - simpl bind. unfold the_model. rewrite Hm. simpl bind.
    rewrite risk_labels_loop_spec. simpl bind. simpl app.
    pose proof (fill_selected X (feature_columns self)) as Hfill.
    cbv zeta in Hfill. rewrite <- Hfill. reflexivity.
  - simpl. apply Forall_forall. intros [c s] Hin.
    apply list_elem_of_fmap in Hin as (c' & [= -> ->] & Hc'). simpl.
    apply list_elem_of_In in Hc'.
    specialize (Hnum c' Hc'). specialize (Hpresent c' Hc').
    apply has_column_assoc in Hpresent as [s Hs]. rewrite Hs. simpl.
    by apply Hnum.
Qed.


Lemma mapM_Raise {A B} (f : A -> result B) (l : list A) (e : exn) :
  mapM f l = Raise e -> exists x, In x l /\ f x = Raise e.
Proof.
  induction l as [|x l IH]; simpl; [done|].
  destruct (f x) as [y|e'] eqn:Hx; simpl.
  - destruct (mapM f l) as [ys|e'']; simpl; [done|].
    intros [= ->]. destruct IH as (x' & Hin & Hx'); eauto.
  - intros [= ->]. eauto.
Qed.








(** The single-prediction endpoint reindexes the table to the trained
    columns, an absent one filled with 0, before it calls [predict]; after
    that no column is absent. *)
Lemma predict_after_reindex (self : DropoutPredictor) (X : DataFrame)
    (m : XGBClassifier) :
  is_trained self = true -> model self = Some m ->
  (forall c, numeric_in X c) ->
  returns (predict self (reindex X (feature_columns self) (Int 0))).
Proof.
  intros Ht Hm Hnum. eexists.
  apply (predict_present self _ m Ht Hm).
  - intros c Hc. apply has_column_assoc. unfold reindex. cbn [columns nrows].
    rewrite (assoc_map_key _ c _ Hc).
    by eexists.
  - intros c Hc. unfold numeric_in, reindex. cbn [columns nrows].
    rewrite (assoc_map_key _ c _ Hc).
    intros s [= <-]. destruct (assoc c (columns X)) as [s|] eqn:E; simpl.
    + by apply (Hnum c).
    + induction (nrows X); simpl; done.
Qed.

End Prediction.

(** ** Loading an artifact (model_trainer.py) *)

Section Persistence.

Import Spec.

(** What [load_model] returns, by the state of the artifact. *)
Lemma load_model_returns_flag_cases (fs : filesystem) (filepath : string)
    (self : DropoutPredictor) :
  (exists flag self', load_model fs filepath self = (Return flag, self'))
  /\ (forall d m cols v,
        loadable fs filepath d m cols v ->
        load_model fs filepath self
        = (Return true,
           mkPredictor (Some m) cols (default ∅ (md_training_metrics d))
                       v true)).
Proof.
  unfold load_model, try_except, andthen, lift, ret, joblib_load, subscript,
    get_training_metrics, set_model, set_feature_columns, set_model_version,
    set_training_metrics, set_is_trained, loadable.
  split.
  - destruct (fs !! filepath) as [[| |[[m|] [cols|] [v|] oms]]|];
      simpl; eauto.
  - intros d m cols v (-> & Hm & Hcols & Hv). simpl.
    rewrite Hm, Hcols, Hv. reflexivity.
Qed.

(** C5, as the code has it. [load_model] never raises: it returns [True],
    or [False] when anything fails. It returns [True] exactly when the
    artifact is a mapping with the keys ['model'], ['feature_columns'] and
    ['model_version'], and then all fields come from the artifact and
    [is_trained] is set. When nothing of the artifact can be read (no file,
    bytes that do not unpickle, no mapping, no ['model'] key) it returns
    [False] and the fields are unchanged. *)
Theorem load_model_returns_flag (fs : filesystem) (filepath : string)
    (self : DropoutPredictor) :
  (exists flag self', load_model fs filepath self = (Return flag, self'))
  /\ (forall d m cols v,
        loadable fs filepath d m cols v ->
        load_model fs filepath self
        = (Return true,
           mkPredictor (Some m) cols (default ∅ (md_training_metrics d))
                       v true))
  /\ (forall self',
        load_model fs filepath self = (Return true, self') ->
        exists d m cols v, loadable fs filepath d m cols v)
  /\ (unreadable fs filepath ->
      load_model fs filepath self = (Return false, self)).
Proof.
  destruct (load_model_returns_flag_cases fs filepath self) as [Hflag Hload].
  split; [exact Hflag|]. split; [exact Hload|]. clear Hflag Hload.
  unfold load_model, try_except, andthen, lift, ret, joblib_load, subscript,
    get_training_metrics, set_model, set_feature_columns, set_model_version,
    set_training_metrics, set_is_trained, loadable, unreadable.
  split.
  - intros self'.
    destruct (fs !! filepath) as [[| |[[m|] [cols|] [v|] oms]]|];
      simpl; try discriminate.
    intros _. eexists _, m, cols, v. eauto.
  - destruct (fs !! filepath) as [[| |[[m|] ocols ov oms]]|];
      simpl; try done.
Qed.

(** C5 as the code has it, at a complete artifact and at bytes that do
    not unpickle. *)
Lemma load_model_returns_flag_witness :
  load_model models_dir "good.joblib" ModelTrainer.init
  = (Return true,
     mkPredictor (Some (constant_classifier 0 0.2)) ["a"; "b"]
                 {["accuracy" := 0.9%Q]} (Some "v2") true)
  /\ load_model models_dir "corrupt.joblib" trained_ab
     = (Return false, trained_ab).
Proof.
  split.
  - apply (proj1 (proj2 (load_model_returns_flag models_dir "good.joblib"
                           ModelTrainer.init)) complete_data).
    repeat split; reflexivity.
  - apply (proj2 (proj2 (proj2 (load_model_returns_flag models_dir
                                  "corrupt.joblib" trained_ab)))).
    reflexivity.
Defined.

(** C5 fails as stated. Loading bytes that do not unpickle raises nothing:
    the caller gets [False]. Loading an artifact that has the key
    ['model'] but not ['feature_columns'] also returns [False], and it
    leaves the ensemble of the artifact in [self.model] while the other
    fields keep their values. *)
Lemma load_model_failure_is_silent_and_partial :
  load_model models_dir "corrupt.joblib" trained_ab = (Return false, trained_ab)
  /\ ~ raises (load_model models_dir "corrupt.joblib" trained_ab).1
  /\ load_model models_dir "partial.joblib" trained_ab
     = (Return false,
        mkPredictor (Some (constant_classifier 0 0.2)) ["a"; "b"] ∅
                    (Some "v1") true)
  /\ model (load_model models_dir "partial.joblib" trained_ab).2
     <> model trained_ab.
Proof.
  split; [reflexivity|]. split; [by intros [e He]|].
  split; [reflexivity|].
  intros H.
  apply (f_equal (fun o => match o with
                           | Some m => xgb_predict m []
                           | None => 0%Z
                           end)) in H.
  vm_compute in H. discriminate H.
Qed.

(** Round trip: what [save_model] writes, [load_model] reads back. *)
Lemma save_then_load (self other : DropoutPredictor) (fs : filesystem)
    (filepath : string) (m : XGBClassifier) :
  is_trained self = true -> model self = Some m ->
  exists fs',
    save_model self fs filepath = Return (filepath, fs')
    /\ load_model fs' filepath other = (Return true, self).
Proof.
  intros Ht Hm. unfold save_model. rewrite Ht. simpl. eexists. split; [done|].
  destruct (load_model_returns_flag_cases
              (<[filepath := Pickled (mkModelData (model self)
                   (Some (feature_columns self)) (Some (model_version self))
                   (Some (training_metrics self)))]> fs) filepath other)
    as [_ Hload].
  rewrite (Hload (mkModelData (model self) (Some (feature_columns self))
                    (Some (model_version self)) (Some (training_metrics self)))
                 m (feature_columns self) (model_version self)).
  - simpl. destruct self; simpl in *. by subst.
  - unfold loadable. rewrite lookup_insert_eq. simpl. by rewrite Hm.
Qed.

End Persistence.


(** ** Type cleaning (data_processor.py) *)

Section Cleaning.

Import DataProcessor Spec.

Lemma assoc_set_assoc_eq {A} (k : string) (v : A) (l : list (string * A)) :
  assoc k (set_assoc k v l) = Some v.
Proof.
  induction l as [|[k' v'] l IH]; simpl.
  - by rewrite String.eqb_refl.
  - destruct (String.eqb k k') eqn:E; simpl.
    + by rewrite String.eqb_refl.
    + by rewrite E.
Qed.

Lemma assoc_set_assoc_ne {A} (k k' : string) (v : A) (l : list (string * A)) :
  k <> k' -> assoc k' (set_assoc k v l) = assoc k' l.
Proof.
  intros Hne. induction l as [|[k0 v0] l IH]; simpl.
  - destruct (String.eqb k' k) eqn:E; [|done].
    apply String.eqb_eq in E. congruence.
  - destruct (String.eqb k k0) eqn:E; simpl.
    + apply String.eqb_eq in E as <-.
      destruct (String.eqb k' k) eqn:E'; [|done].
      apply String.eqb_eq in E'. congruence.
    + by rewrite IH.
Qed.

Lemma column_setitem_eq (df : DataFrame) (col : string) (s : Series) :
  column (setitem df col s) col = s.
Proof. unfold column, setitem. simpl. by rewrite assoc_set_assoc_eq. Qed.

Lemma column_setitem_ne (df : DataFrame) (col col' : string) (s : Series) :
  col <> col' -> column (setitem df col s) col' = column df col'.
Proof.
  intros H. unfold column, setitem. simpl. by rewrite assoc_set_assoc_ne.
Qed.


Lemma parse_number_not_str (s : string) : is_str (parse_number s) = false.
Proof. unfold parse_number. by repeat case_match. Qed.

(** What the first two statements of the loop over [percentage_cols] do
    to one entry. *)
Lemma percent_entry_code (c : cell) :
  to_numeric_text
    (on_literal strip (on_literal (remove_char "%") (astype_str c)))
  = percent_entry c.
Proof. by destruct c. Qed.

Lemma percent_entry_not_str (c : cell) : is_str (percent_entry c) = false.
Proof. destruct c; try done. apply parse_number_not_str. Qed.


Lemma existsb_is_str_map (f : cell -> cell) (s : Series) :
  (forall c, is_str (f c) = false) -> existsb is_str (map f s) = false.
Proof.
  intros Hf. induction s as [|c s IH]; simpl; [done|]. by rewrite Hf, IH.
Qed.


(** The loop body on the column it cleans. *)
Lemma clean_percentage_eq (df : DataFrame) (col : string) :
  has_column df col = true ->
  column (clean_percentage df col) col
  = if String.eqb col "assignment_timeliness"
    then rescale_unit (map percent_entry (column df col))
    else map percent_entry (column df col).
Proof.
  intros H. unfold clean_percentage. rewrite H.
  rewrite column_setitem_eq.
  rewrite (map_map _ to_numeric_text).
  rewrite (map_ext _ _ percent_entry_code).
  destruct (String.eqb col "assignment_timeliness");
    [|by rewrite column_setitem_eq].
  unfold series_median, rescale_unit.
  rewrite (existsb_is_str_map _ _ percent_entry_not_str).
  destruct (numeric_median _) as [| |med|]; try by rewrite column_setitem_eq.
  destruct (Qle_bool med 1); by rewrite !column_setitem_eq.
Qed.

(** The loop body on every other column. *)
Lemma clean_percentage_ne (df : DataFrame) (col col' : string) :
  col <> col' -> column (clean_percentage df col) col' = column df col'.
Proof.
  intros H. unfold clean_percentage.
  repeat case_match; rewrite ?column_setitem_ne by done; done.
Qed.


Lemma clean_lexicon_ne (lexicon : gmap string Q) (df : DataFrame)
    (col col' : string) :
  col <> col' -> column (clean_lexicon lexicon col df) col' = column df col'.
Proof.
  intros H. unfold clean_lexicon.
  case_match; rewrite ?column_setitem_ne by done; done.
Qed.

Lemma clean_numeric_ne (df : DataFrame) (col col' : string) :
  col <> col' -> column (clean_numeric df col) col' = column df col'.
Proof.
  intros H. unfold clean_numeric.
  case_match; rewrite ?column_setitem_ne by done; done.
Qed.





(** The lexicon columns and the numeric columns on a small table. *)
Example clean_other_columns :
  _clean_data_types
    (mkFrame 3 [("fee_payment_status", [Str "Paid "; Int 2; Float 1]);
                ("gender", [Str "F"; Str "male"; Str "?"]);
                ("age", [Str "17"; Int 18; Str "n/a"])])
  = mkFrame 3 [("fee_payment_status", [Float 1; Float 0.5; NaN]);
               ("gender", [Float 0; Float 1; NaN]);
               ("age", [Int 17; Int 18; NaN])].
Proof. reflexivity. Qed.

End Cleaning.


(** ** Missing values (data_processor.py) *)

Section MissingValues.

Import DataProcessor Spec.

Lemma assoc_app_fresh {A} (k : string) (pre l : list (string * A)) :
  ~ In k (map fst pre) -> assoc k (pre ++ l) = assoc k l.
Proof.
  induction pre as [|[k' v'] pre IH]; simpl; [done|].
  intros H. destruct (String.eqb k k') eqn:E.
  - apply String.eqb_eq in E as ->. tauto.
  - apply IH. tauto.
Qed.

Lemma set_assoc_app_fresh {A} (k : string) (v : A) (pre l : list (string * A)) :
  ~ In k (map fst pre) -> set_assoc k v (pre ++ l) = pre ++ set_assoc k v l.
Proof.
  induction pre as [|[k' v'] pre IH]; simpl; [done|].
  intros H. destruct (String.eqb k k') eqn:E.
  - apply String.eqb_eq in E as ->. tauto.
  - rewrite IH; [done|tauto].
Qed.

Lemma set_assoc_fresh {A} (k : string) (v : A) (l : list (string * A)) :
  ~ In k (map fst l) -> set_assoc k v l = l ++ [(k, v)].
Proof.
  intros H. rewrite <- (app_nil_r l) at 1.
  by rewrite set_assoc_app_fresh.
Qed.

Lemma set_assoc_head {A} (k : string) (v v' : A) (l : list (string * A)) :
  set_assoc k v ((k, v') :: l) = (k, v) :: l.
Proof. simpl. by rewrite String.eqb_refl. Qed.

(** One turn of the loop, on the next column of the frame. *)
Lemma handle_column_step (copy_on_write : bool) (n : nat)
    (pre suf : list (string * Series))
    (k : string) (s : Series) (info : list (string * missing_entry))
    (warnings : list (string * pyfloat)) :
  ~ In k (map fst pre) -> map fst info = map fst pre ->
  handle_column copy_on_write
    (mkFrame n (pre ++ (k, s) :: suf), info, warnings) k
  = (mkFrame n (pre ++ (k, processed copy_on_write n s) :: suf),
     info ++ [info_of n (k, s)],
     warnings ++ from_option (fun w => [w]) [] (warning_of n (k, s))).
Proof.
  intros Hk Hinfo.
  unfold handle_column, fillna_inplace, processed, column, setitem, impute,
    warning_of, over_threshold, info_of, missing_share, missing_count,
    numeric_column. simpl.
  rewrite assoc_app_fresh by done. simpl. rewrite String.eqb_refl. simpl.
  rewrite set_assoc_fresh by (by rewrite Hinfo).
  destruct copy_on_write.
  { destruct (Nat.ltb 0 _); simpl; [|by rewrite app_nil_r].
    destruct (float_gt _ 30); simpl; [done|]. rewrite app_nil_r.
    destruct (float_gt _ 0); [|done].
    destruct (dtype_of s); try done. by destruct (mode s). }
  destruct (Nat.ltb 0 _); simpl; [|by rewrite app_nil_r].
  destruct (float_gt _ 30); simpl; [done|]. rewrite app_nil_r.
  rewrite !set_assoc_app_fresh by done. rewrite !set_assoc_head.
  destruct (float_gt _ 0); [|done].
  destruct (dtype_of s); try done.
  destruct (mode s); [done|].
  by rewrite set_assoc_app_fresh, set_assoc_head.
Qed.

Lemma handle_columns_fold (copy_on_write : bool) (n : nat)
    (suf pre : list (string * Series))
    (info : list (string * missing_entry)) (warnings : list (string * pyfloat)) :
  List.NoDup (map fst (pre ++ suf)) -> map fst info = map fst pre ->
  foldl (handle_column copy_on_write)
    (mkFrame n (pre ++ suf), info, warnings) (map fst suf)
  = (mkFrame n
       (pre ++ map (fun c => (c.1, processed copy_on_write n c.2)) suf),
     info ++ map (info_of n) suf,
     warnings ++ omap (warning_of n) suf).
Proof.
  revert pre info warnings.
  induction suf as [|[k s] suf IH]; intros pre info warnings Hnd Hinfo.
  - simpl. by rewrite !app_nil_r.
  - assert (Hk : ~ In k (map fst pre)).
    { rewrite map_app in Hnd. simpl in Hnd.
      apply NoDup_remove_2 in Hnd. intros Hin. apply Hnd.
      apply in_or_app. by left. }
    change (foldl (handle_column copy_on_write)
              (mkFrame n (pre ++ (k, s) :: suf), info, warnings)
              (map fst ((k, s) :: suf)))
      with (foldl (handle_column copy_on_write)
              (handle_column copy_on_write
                 (mkFrame n (pre ++ (k, s) :: suf), info, warnings) k)
              (map fst suf)).
    rewrite handle_column_step by done.
    replace (pre ++ (k, processed copy_on_write n s) :: suf)
      with ((pre ++ [(k, processed copy_on_write n s)]) ++ suf)
      by (by rewrite <- app_assoc).
    rewrite IH.
    + rewrite <- !app_assoc. simpl. f_equal.
      by destruct (warning_of n (k, s)).
    + rewrite <- app_assoc. simpl.
      rewrite map_app in *. exact Hnd.
    + rewrite !map_app, Hinfo. done.
Qed.

(** The whole step, column by column. *)
Lemma _handle_missing_values_columns (copy_on_write : bool) (df : DataFrame) :
  NoDup (column_names df) ->
  _handle_missing_values copy_on_write df
  = (mkFrame (nrows df)
       (map (fun c => (c.1, processed copy_on_write (nrows df) c.2))
            (columns df)),
     map (info_of (nrows df)) (columns df),
     omap (warning_of (nrows df)) (columns df)).
Proof.
  intros Hnd%NoDup_ListNoDup. unfold _handle_missing_values, column_names in *.
  destruct df as [n cols]. simpl in *.
  exact (handle_columns_fold copy_on_write n cols [] [] [] Hnd eq_refl).
Qed.

(** *** Shares *)

Lemma ratio_gt (a z k : Z) :
  (0 < z)%Z ->
  (inject_Z k < inject_Z a / inject_Z z * 100)%Q <-> (k * z < 100 * a)%Z.
Proof.
  intros Hz. destruct z as [|p|p]; try lia.
  unfold Qlt, Qdiv, Qmult, Qinv, inject_Z. simpl.
  rewrite ?Pos.mul_1_r, ?Pos.mul_1_l, ?Z.mul_1_r. lia.
Qed.

(** The share of missing entries exceeds [k] percent exactly when
    [100 * missing > k * rows]. *)
Lemma share_gt (n : nat) (s : Series) (k : Z) :
  (0 < n)%nat ->
  float_gt (missing_share n s) (inject_Z k) = true
  <-> (k * Z.of_nat n < 100 * Z.of_nat (missing_count s))%Z.
Proof.
  intros Hn. unfold missing_share, missing_percentage.
  destruct (Nat.eqb n 0) eqn:E; [apply Nat.eqb_eq in E; lia|].
  simpl. rewrite Qgtb_true, Qred_correct. apply ratio_gt. lia.
Qed.

Lemma filter_length_le {A} (f : A -> bool) (l : list A) :
  (length (List.filter f l) <= length l)%nat.
Proof.
  induction l as [|x l IH]; simpl; [lia|]. destruct (f x); simpl; lia.
Qed.

Lemma over_threshold_spec (n : nat) (s : Series) :
  length s = n ->
  over_threshold n s = true
  <-> (3 * n < 10 * missing_count s)%nat.
Proof.
  intros Hlen. unfold over_threshold.
  pose proof (filter_length_le isnull s) as Hle. fold (missing_count s) in Hle.
  destruct (Nat.ltb_spec 0 (missing_count s)) as [Hpos|Hzero]; simpl.
  - change 30%Q with (inject_Z 30). rewrite share_gt by lia. lia.
  - split; [done|lia].
Qed.

(** A column with missing entries has a positive share of them. *)
Lemma share_positive (n : nat) (s : Series) :
  length s = n -> (0 < missing_count s)%nat ->
  float_gt (missing_share n s) 0 = true.
Proof.
  intros Hlen Hpos.
  pose proof (filter_length_le isnull s) as Hle. fold (missing_count s) in Hle.
  change 0%Q with (inject_Z 0). rewrite share_gt by lia. lia.
Qed.

(** *** Medians and modes exist *)

Lemma filter_partition_length {A} (f : A -> bool) (l : list A) :
  (length (List.filter f l) + length (List.filter (fun x => negb (f x)) l)
   = length l)%nat.
Proof.
  induction l as [|x l IH]; simpl; [done|]. destruct (f x); simpl; lia.
Qed.

Lemma numbers_length (s : Series) :
  existsb is_str s = false ->
  (length (numbers s) + missing_count s = length s)%nat.
Proof.
  unfold numbers, missing_count.
  induction s as [|c s IH]; simpl; [done|].
  intros H. apply orb_false_iff in H as [Hc Hs]. specialize (IH Hs).
  destruct c; try done; csimpl in *; lia.
Qed.

Lemma insert_asc_length (x : Q) (l : list Q) :
  length (insert_asc x l) = S (length l).
Proof.
  induction l as [|y l IH]; simpl; [done|].
  destruct (Qle_bool x y); simpl; by rewrite ?IH.
Qed.

Lemma sort_asc_length (l : list Q) : length (sort_asc l) = length l.
Proof.
  unfold sort_asc. induction l as [|x l IH]; simpl; [done|].
  by rewrite insert_asc_length, IH.
Qed.

Lemma median_of_nonempty (l : list Q) :
  l <> [] -> exists q, median_of l = Some q.
Proof.
  intros H. unfold median_of. rewrite sort_asc_length.
  destruct l as [|x l]; [done|]. simpl Nat.eqb. cbv iota.
  destruct (Nat.even _); eauto.
Qed.

Lemma numeric_median_exists (s : Series) :
  numeric_column s = true -> (missing_count s < length s)%nat ->
  exists q, numeric_median s = Float q.
Proof.
  unfold numeric_column, dtype_of. intros Hnum Hlt.
  destruct (existsb is_str s) eqn:Hstr; [done|].
  pose proof (numbers_length s Hstr) as Hlen.
  destruct (median_of_nonempty (numbers s)) as [q Hq].
  { intros E. rewrite E in Hlen. simpl in Hlen. lia. }
  exists q. unfold numeric_median. by rewrite Hq.
Qed.

Lemma series_fillna_filled (v : cell) (s : Series) :
  isnull v = false ->
  Forall (fun c => isnull c = false) (series_fillna v s).
Proof.
  intros Hv. unfold series_fillna. apply Forall_forall. intros c Hc.
  apply list_elem_of_fmap in Hc as (c' & -> & _).
  by destruct (isnull c') eqn:E.
Qed.

Lemma series_fillna_complete (v : cell) (s : Series) :
  missing_count s = 0%nat -> series_fillna v s = s.
Proof.
  unfold missing_count, series_fillna.
  induction s as [|c s IH]; simpl; [done|].
  destruct (isnull c); simpl; [done|]. intros H. by rewrite IH.
Qed.

Lemma complete_no_null (s : Series) :
  missing_count s = 0%nat -> Forall (fun c => isnull c = false) s.
Proof.
  unfold missing_count. induction s as [|c s IH]; simpl; [constructor|].
  destruct (isnull c) eqn:E; simpl; [done|]. intros H. constructor; auto.
Qed.

Lemma max_attained {A} (f : A -> nat) (l : list A) :
  l <> [] -> exists x, In x l /\ f x = foldr Nat.max 0%nat (map f l).
Proof.
  induction l as [|x l IH]; [done|]. intros _. simpl.
  destruct l as [|y l].
  - exists x. simpl. split; [by left | lia].
  - destruct IH as (z & Hz & Hfz); [done|].
    destruct (Nat.max_dec (f x) (foldr Nat.max 0%nat (map f (y :: l))))
      as [E|E]; rewrite E.
    + exists x. split; [by left | done].
    + exists z. split; [by right | done].
Qed.

Lemma distinct_In (s : Series) (c : cell) : In c (distinct s) -> In c s.
Proof.
  revert c. induction s as [|d s IH]; simpl; [done|].
  intros c [->|Hc]; [by left|]. right. apply IH.
  by apply filter_In in Hc as [Hc _].
Qed.

Lemma insert_cell_In (x y : cell) (l : list cell) :
  In y (insert_cell x l) -> y = x \/ In y l.
Proof.
  induction l as [|z l IH]; simpl.
  - intros [<-|[]]. by left.
  - destruct (cell_ltb z x); simpl.
    + intros [<-|H]; [by right; left|]. destruct (IH H); auto.
    + intros [<-|[<-|H]]; auto.
Qed.

Lemma sorted_cells_In (l : list cell) (y : cell) :
  In y (foldr insert_cell [] l) -> In y l.
Proof.
  induction l as [|x l IH]; simpl; [done|].
  intros H. apply insert_cell_In in H as [->|H]; auto.
Qed.

Lemma insert_cell_nonempty (x : cell) (l : list cell) : insert_cell x l <> [].
Proof. destruct l as [|y l]; simpl; [done|]. by destruct (cell_ltb y x). Qed.

(** A column that is not all missing has a mode, and its first mode is an
    entry of the column that is not missing. *)
Lemma mode_exists (s : Series) :
  (missing_count s < length s)%nat ->
  exists first rest, mode s = first :: rest /\ isnull first = false.
Proof.
  intros Hlt. unfold mode.
  set (present := List.filter (fun c => negb (isnull c)) s).
  set (values := distinct present).
  set (best := foldr Nat.max 0%nat (map (occurrences present) values)).
  set (modes := List.filter _ values).
  assert (Hpresent : present <> []).
  { intros E. pose proof (filter_partition_length isnull s) as Hlen.
    fold present in Hlen. rewrite E in Hlen. unfold missing_count in Hlt.
    simpl in Hlen. lia. }
  assert (Hvalues : values <> []).
  { subst values. by destruct present. }
  assert (Hmodes_in : forall c, In c modes -> isnull c = false).
  { intros c Hc. apply filter_In in Hc as [Hc _].
    apply distinct_In, filter_In in Hc as [_ Hc].
    by apply negb_true_iff in Hc. }
  assert (Hmodes : modes <> []).
  { destruct (max_attained (occurrences present) values Hvalues)
      as (x & Hx & Hfx).
    assert (Hin : In x modes).
    { apply filter_In. split; [done|]. fold best in Hfx. rewrite Hfx.
      apply Nat.eqb_refl. }
    intros E. by rewrite E in Hin. }
  destruct (forallb is_str modes || negb (existsb is_str modes)).
  - destruct (foldr insert_cell [] modes) as [|first rest] eqn:E.
    + destruct modes; [done|]. simpl in E. by apply insert_cell_nonempty in E.
    + exists first, rest. split; [done|]. apply Hmodes_in, sorted_cells_In.
      rewrite E. by left.
  - destruct modes as [|first rest]; [done|].
    exists first, rest. split; [done|]. apply Hmodes_in. by left.
Qed.

Lemma assoc_map_values {A B} (g : A -> B) (k : string) (l : list (string * A)) :
  assoc k (map (fun c : string * A => (c.1, g c.2)) l) = g <$> assoc k l.
Proof.
  induction l as [|[k' v] l IH]; simpl; [done|].
  by destruct (String.eqb k k').
Qed.

Lemma numeric_column_false (s : Series) :
  numeric_column s = false -> (0 < length s)%nat.
Proof.
  unfold numeric_column, dtype_of.
  destruct s; simpl; [done|lia].
Qed.

(** What the policy makes of one column of a well-formed table. *)
Lemma impute_spec (n : nat) (s : Series) :
  length s = n ->
  (over_threshold n s = true -> impute n s = s)
  /\ (over_threshold n s = false ->
      Forall (fun c => isnull c = false) (impute n s)
      /\ (numeric_column s = true ->
          impute n s = series_fillna (numeric_median s) s)
      /\ (numeric_column s = false ->
          exists first rest,
            mode s = first :: rest /\ impute n s = series_fillna first s)).
Proof.
  intros Hlen. pose proof (over_threshold_spec n s Hlen) as Hover.
  unfold impute. unfold over_threshold in *.
  destruct (Nat.ltb_spec 0 (missing_count s)) as [Hpos|Hzero]; simpl in *.
  - rewrite (share_positive n s Hlen Hpos).
    destruct (float_gt (missing_share n s) 30); [by split|].
    split; [done|]. intros _.
    assert (Hlt : (missing_count s < length s)%nat).
    { destruct (Nat.lt_ge_cases (3 * n) (10 * missing_count s)) as [H|H].
      - apply Hover in H. done.
      - lia. }
    destruct (numeric_column s) eqn:Hnum.
    + destruct (numeric_median_exists s Hnum Hlt) as [q Hq].
      split; [|by split]. rewrite Hq. by apply series_fillna_filled.
    + destruct (mode_exists s Hlt) as (first & rest & Hmode & Hfirst).
      rewrite Hmode. split; [by apply series_fillna_filled|].
      split; [done|]. eauto.
  - assert (Hc : missing_count s = 0%nat) by lia.
    split; [done|]. intros _. split; [by apply complete_no_null|].
    split.
    + intros _. by rewrite series_fillna_complete.
    + intros Hnum. apply numeric_column_false in Hnum.
      destruct (mode_exists s) as (first & rest & Hmode & _); [lia|].
      exists first, rest. by rewrite series_fillna_complete.
Qed.

(** C8, as the code has it. For a table with distinct column labels, the
    missing-value step of [validate_and_preprocess] drops no column and no
    row. A column whose share of missing entries exceeds 30 percent is
    flagged in a warning and is left as it is, missing entries included.
    In every other column, where the in-place [fillna] of the column
    reaches the table (pandas without copy-on-write), no entry is missing
    afterwards: a numeric column has its missing entries replaced by the
    column median, any other column by the first of its modes. *)
Theorem missing_values_policy (copy_on_write : bool) (df : DataFrame) :
  wf_frame df ->
  NoDup (column_names df) ->
  let df_processed := (_handle_missing_values copy_on_write df).1.1 in
  let warnings := (_handle_missing_values copy_on_write df).2 in
  column_names df_processed = column_names df
  /\ nrows df_processed = nrows df
  /\ forall col s,
       assoc col (columns df) = Some s ->
       (over_threshold (nrows df) s = true
        <-> (3 * nrows df < 10 * missing_count s)%nat)
       /\ (over_threshold (nrows df) s = true ->
           column df_processed col = s
           /\ (col, missing_share (nrows df) s) ∈ warnings)
       /\ (over_threshold (nrows df) s = false ->
           copy_on_write = false ->
           Forall (fun c => isnull c = false) (column df_processed col)
           /\ (numeric_column s = true ->
               column df_processed col
               = series_fillna (numeric_median s) s)
           /\ (numeric_column s = false ->
               exists first rest,
                 mode s = first :: rest
                 /\ column df_processed col = series_fillna first s)).
Proof.
  intros Hwf Hnd.
  rewrite (_handle_missing_values_columns copy_on_write df Hnd). simpl.
  split; [|split; [done|]].
  - unfold column_names. simpl. rewrite map_map. by apply map_ext.
  - intros col s Hs.
    pose proof (wf_frame_length df col s Hwf Hs) as Hlen.
    destruct (impute_spec (nrows df) s Hlen) as [Hflag Hfill].
    assert (Hcol : column (mkFrame (nrows df)
                     (map (fun c : string * Series =>
                             (c.1, processed copy_on_write (nrows df) c.2))
                          (columns df))) col
                   = processed copy_on_write (nrows df) s).
    { unfold column. simpl. by rewrite assoc_map_values, Hs. }
    rewrite Hcol. split; [by apply over_threshold_spec|]. split.
    + intros Hover. split.
      * unfold processed. destruct copy_on_write; [done | by apply Hflag].
      * apply list_elem_of_omap. exists (col, s). split.
        -- by apply assoc_elem_of.
        -- unfold warning_of. simpl. by rewrite Hover.
    + intros Hover ->. by apply Hfill.
Qed.

(** C8 as the code has it, at the table [gaps] without copy-on-write: a
    quarter of [b] is missing and is filled with the median 2. *)
Lemma missing_values_policy_witness :
  Forall (fun c => isnull c = false)
         (column (_handle_missing_values false gaps).1.1 "b")
  /\ column (_handle_missing_values false gaps).1.1 "b"
     = [Float 2; Float 3; Float 1; Float 2].
Proof.
  assert (Hwf : wf_frame gaps) by (repeat constructor).
  assert (Hnd : NoDup (column_names gaps)).
  { apply NoDup_ListNoDup. repeat constructor; simpl; intuition discriminate. }
  destruct (missing_values_policy false gaps Hwf Hnd) as (_ & _ & Hcols).
  destruct (Hcols "b" [NaN; Float 3; Float 1; Float 2] eq_refl)
    as (_ & _ & Hfill).
  destruct (Hfill eq_refl eq_refl) as (Hfilled & Hmedian & _).
  split; [exact Hfilled|]. rewrite (Hmedian eq_refl). reflexivity.
Defined.

(** C8 fails as stated. Half of the column [a] is missing: with and
    without copy-on-write it is flagged and keeps its two missing
    entries. Without copy-on-write the columns [b] and [c], a quarter of
    which is missing, are filled with their median and their mode. *)
Lemma flagged_column_is_not_filled :
  column gaps "a" = [NaN; NaN; Float 1; Float 2]
  /\ column (_handle_missing_values false gaps).1.1 "a"
     = [NaN; NaN; Float 1; Float 2]
  /\ ~ Forall (fun c => isnull c = false)
              (column (_handle_missing_values false gaps).1.1 "a")
  /\ (_handle_missing_values false gaps).2 = [("a", fin 50)]
  /\ column (_handle_missing_values false gaps).1.1 "b"
     = [Float 2; Float 3; Float 1; Float 2]
  /\ column (_handle_missing_values false gaps).1.1 "c"
     = [Str "x"; Str "x"; Str "y"; Str "x"]
  /\ column (_handle_missing_values true gaps).1.1 "a"
     = [NaN; NaN; Float 1; Float 2]
  /\ ~ Forall (fun c => isnull c = false)
              (column (_handle_missing_values true gaps).1.1 "a")
  /\ (_handle_missing_values true gaps).2 = [("a", fin 50)].
Proof.
  split; [reflexivity|]. split; [reflexivity|]. split.
  { intros H. apply Forall_cons in H as [H _]. discriminate H. }
  split; [reflexivity|]. split; [reflexivity|]. split; [reflexivity|].
  split; [reflexivity|]. split; [|reflexivity].
  intros H. apply Forall_cons in H as [H _]. discriminate H.
Qed.

(** With copy-on-write the in-place fill of a column never reaches the
    table: the step returns the table as it was given, with the counts
    and the warnings. *)
Lemma copy_on_write_keeps_the_table (df : DataFrame) :
  NoDup (column_names df) ->
  (_handle_missing_values true df).1.1 = df.
Proof.
  intros Hnd. rewrite (_handle_missing_values_columns true df Hnd). simpl.
  destruct df as [n cols]. simpl. f_equal.
  induction cols as [|[k s] cols IH]; [done|]. simpl. f_equal.
  apply IH. by apply NoDup_cons in Hnd as [_ Hnd].
Qed.

End MissingValues.

(* ===================================================================== *)
(** * Further properties of the code                                      *)
(* ===================================================================== *)

(** ** Persistence and prediction (model_trainer.py) *)

Section TrainerMore.

Import Spec Cases DataProcessor.

(** X1. What [save_model] writes, [load_model] reads back into any predictor:
    the loaded predictor is the saved one, it predicts the same, and no
    other path of the store is written. *)
Theorem save_load_round_trip (self other : DropoutPredictor) (fs : filesystem)
    (filepath : string) (m : XGBClassifier) :
  is_trained self = true -> model self = Some m ->
  exists fs',
    save_model self fs filepath = Return (filepath, fs')
    /\ load_model fs' filepath other = (Return true, self)
    /\ (forall X, predict (load_model fs' filepath other).2 X = predict self X)
    /\ (forall p, p <> filepath -> fs' !! p = fs !! p).
Proof.
  intros Ht Hm.
  destruct (save_then_load self other fs filepath m Ht Hm) as (fs' & Hs & Hl).
  exists fs'. split; [exact Hs|]. split; [exact Hl|]. split.
  - intros X. by rewrite Hl.
  - intros p Hp. unfold save_model in Hs. rewrite Ht in Hs. simpl in Hs.
    injection Hs as <-. by rewrite lookup_insert_ne.
Qed.

Lemma save_load_round_trip_witness :
  exists fs',
    save_model trained_ab models_dir "new.joblib" = Return ("new.joblib", fs')
    /\ load_model fs' "new.joblib" ModelTrainer.init = (Return true, trained_ab).
Proof.
  destruct (save_load_round_trip trained_ab ModelTrainer.init models_dir
              "new.joblib" (constant_classifier 1 0.7) eq_refl eq_refl)
    as (fs' & Hs & Hl & _).
  exists fs'. split; [exact Hs | exact Hl].
Defined.

(** X2. A load that fails never marks the predictor as trained, and leaves
    its version and its metrics as they were. *)
Theorem failed_load_keeps_status (fs : filesystem) (filepath : string)
    (self self' : DropoutPredictor) :
  load_model fs filepath self = (Return false, self') ->
  is_trained self' = is_trained self
  /\ model_version self' = model_version self
  /\ training_metrics self' = training_metrics self.
Proof.
  unfold load_model, try_except, andthen, lift, ret, joblib_load, subscript,
    get_training_metrics, set_model, set_feature_columns, set_model_version,
    set_training_metrics, set_is_trained.
  destruct (fs !! filepath) as [[| |[[m|] [cols|] [v|] oms]]|]; simpl;
    intros [= <-]; done.
Qed.

Lemma failed_load_keeps_status_witness :
  is_trained (load_model models_dir "partial.joblib" ModelTrainer.init).2 = false.
Proof.
  exact (proj1 (failed_load_keeps_status models_dir "partial.joblib"
                  ModelTrainer.init _ eq_refl)).
Defined.

Lemma getitem_list_ext (X X' : DataFrame) (cols : list string) :
  nrows X = nrows X' ->
  (forall c, In c cols -> assoc c (columns X) = assoc c (columns X')) ->
  getitem_list X cols = getitem_list X' cols.
Proof.
  intros Hn Hcols.
  assert (Hhas : forall c, In c cols -> has_column X c = has_column X' c).
  { intros c Hc. apply eq_true_iff_eq. rewrite !has_column_assoc.
    by rewrite (Hcols c Hc). }
  unfold getitem_list.
  rewrite (filter_ext_in (fun c => negb (has_column X c))
             (fun c => negb (has_column X' c)))
    by (intros c Hc; by rewrite (Hhas c Hc)).
  destruct (List.filter _ _); [|done]. rewrite Hn. do 2 f_equal.
  apply map_ext_in. intros c Hc. by rewrite (Hcols c Hc).
Qed.

(** X3. [predict] reads the trained columns by name and nothing else: two
    tables (each with distinct labels) with the same number of rows and
    the same trained columns get the same result, whatever else they hold
    and in whatever order. *)
Theorem predict_reads_trained_columns_only (self : DropoutPredictor)
    (X X' : DataFrame) :
  NoDup (column_names X) -> NoDup (column_names X') ->
  nrows X = nrows X' ->
  (forall c, In c (feature_columns self) ->
             assoc c (columns X) = assoc c (columns X')) ->
  predict self X = predict self X'.
Proof.
  intros _ _ Hn Hcols. unfold predict.
  destruct (negb (is_trained self)); [done|].
  by rewrite (getitem_list_ext X X' (feature_columns self) Hn Hcols).
Qed.

Lemma predict_reads_trained_columns_only_witness :
  predict trained_ab table_ab = predict trained_ab table_ba_extra.
Proof.
  apply predict_reads_trained_columns_only; [| |reflexivity|].
  - apply NoDup_ListNoDup. repeat constructor; simpl; intuition discriminate.
  - apply NoDup_ListNoDup. repeat constructor; simpl; intuition discriminate.
  - intros c [<-|[<-|[]]]; reflexivity.
Defined.

Lemma training_columns_numeric (df : DataFrame) (target_column c : string) :
  In c (training_columns df target_column) ->
  In c (numeric_columns df) /\ c <> "student_id" /\ c <> target_column.
Proof.
  unfold training_columns. rewrite filter_In. intros [Hin Hneg].
  split; [exact Hin|]. simpl in Hneg. rewrite orb_false_r in Hneg.
  apply negb_true_iff, orb_false_iff in Hneg as [H1 H2].
  split; intros ->; by rewrite String.eqb_refl in *.
Qed.

Lemma prepare_training_data_run (df : DataFrame) (target_column : string)
    (self : DropoutPredictor) :
  NoDup (column_names df) ->
  prepare_training_data df target_column self
  = match (if negb (has_column df target_column)
           then (t <- _create_synthetic_target df ;; Return (map Int t))%py
           else getitem df target_column) with
    | Return target =>
        (Return (own_median_fill df (training_columns df target_column), target),
         mkPredictor (model self) (training_columns df target_column)
           (training_metrics self) (model_version self) (is_trained self))
    | Raise e => (Raise e, self)
    end.
Proof.
  intros Hnd. unfold prepare_training_data, andthen, lift, ret,
    set_feature_columns.
  fold (training_columns df target_column).
  destruct (if negb (has_column df target_column) then _ else _)
    as [target|e]; [|done].
  rewrite getitem_list_present.
  2:{ apply Forall_forall. intros c Hc.
      apply list_elem_of_In, training_columns_numeric in Hc as [Hc _].
      destruct (numeric_columns_spec df c Hnd Hc) as (s & Hs & _).
      apply has_column_assoc. by exists s. }
  rewrite frame_median_numeric.
  2:{ simpl. apply Forall_forall. intros [c s] Hin.
      apply list_elem_of_fmap in Hin as (c' & [= -> ->] & Hc').
      apply list_elem_of_In, training_columns_numeric in Hc' as [Hc' _].
      destruct (numeric_columns_spec df c' Hnd Hc') as (s & -> & Hs).
      exact Hs. }
  pose proof (fill_selected df (training_columns df target_column)) as Hf.
  cbv zeta in Hf. by rewrite <- Hf.
Qed.

Lemma has_value_median (s : Series) :
  existsb is_str s = false -> has_value s ->
  exists q, numeric_median s = Float q.
Proof.
  intros Hstr (c & Hin & Hc).
  destruct (median_of_nonempty (numbers s)) as [q Hq].
  - intros E. unfold numbers in E.
    destruct c as [|z|x|t]; try done.
    + assert (H : inject_Z z ∈ omap cell_num s).
      { apply list_elem_of_omap. exists (Int z). split; [|done].
        by apply list_elem_of_In. }
      rewrite E in H. by apply elem_of_nil in H.
    + assert (H : x ∈ omap cell_num s).
      { apply list_elem_of_omap. exists (Float x). split; [|done].
        by apply list_elem_of_In. }
      rewrite E in H. by apply elem_of_nil in H.
    + assert (H : existsb is_str s = true)
        by (apply existsb_exists; by exists (Str t)).
      congruence.
  - exists q. unfold numeric_median. by rewrite Hq.
Qed.

Lemma filter_names {A} (P : string -> bool) (g : string * A -> bool)
    (l : list (string * A)) :
  List.filter P (map fst (List.filter g l))
  = map fst (List.filter (fun c => g c && P c.1) l).
Proof.
  induction l as [|c l IH]; [done|]. simpl.
  destruct (g c); simpl; [|done].
  destruct (P c.1); simpl; by rewrite IH.
Qed.

Lemma training_columns_in_order (df : DataFrame) (target_column : string) :
  training_columns df target_column
  = map fst (List.filter
               (fun c : string * Series =>
                  numeric_column c.2
                  && negb (String.eqb c.1 "student_id")
                  && negb (String.eqb c.1 target_column))
               (columns df)).
Proof.
  unfold training_columns, numeric_columns. rewrite filter_names.
  f_equal. apply List.filter_ext. intros [k s]. unfold numeric_column.
  simpl. rewrite orb_false_r, negb_orb. by rewrite andb_assoc.
Qed.

(** X4. The features [prepare_training_data] returns are the numeric columns
    of the table other than [student_id] and the target, in the table's
    order, and they are what it records as [feature_columns]; each one is
    the table's column with its gaps filled by its own median, so that a
    gap remains only in a column that is missing throughout. *)
Theorem training_features_imputed (df : DataFrame) (target_column : string)
    (self self' : DropoutPredictor) (features : DataFrame) (target : Series) :
  NoDup (column_names df) ->
  prepare_training_data df target_column self
  = (Return (features, target), self') ->
  feature_columns self' = column_names features
  /\ column_names features
     = map fst (List.filter
                  (fun c : string * Series =>
                     numeric_column c.2
                     && negb (String.eqb c.1 "student_id")
                     && negb (String.eqb c.1 target_column))
                  (columns df))
  /\ nrows features = nrows df
  /\ (forall c, In c (column_names features) <->
                In c (numeric_columns df)
                /\ c <> "student_id" /\ c <> target_column)
  /\ (forall c, In c (column_names features) ->
        column features c
        = series_fillna (numeric_median (column df c)) (column df c)
        /\ (has_value (column df c) ->
            Forall (fun x => isnull x = false) (column features c))).
Proof.
  intros Hnd. rewrite prepare_training_data_run by done.
  destruct (if negb (has_column df target_column) then _ else _)
    as [t|e]; [|done].
  intros [= <- <- <-]. unfold column_names, own_median_fill. simpl.
  rewrite map_map. simpl. rewrite map_id.
  split; [done|]. split; [apply training_columns_in_order|].
  split; [done|]. split.
  - intros c. split; [apply training_columns_numeric|].
    intros (Hc & H1 & H2). unfold training_columns. apply filter_In.
    split; [done|]. simpl.
    apply String.eqb_neq in H1, H2. by rewrite H1, H2.
  - intros c Hc.
    match goal with |- ?l = ?r /\ _ => assert (Heq : l = r) end.
    { unfold column at 1. simpl. by rewrite (assoc_map_key _ c _ Hc). }
    split; [exact Heq|]. rewrite Heq. intros Hv. apply training_columns_numeric in Hc as [Hc _].
    destruct (numeric_columns_spec df c Hnd Hc) as (s & Hs & Hstr).
    destruct (has_value_median (column df c)) as [q Hq]; [|done|].
    { unfold column. by rewrite Hs. }
    rewrite Hq. by apply series_fillna_filled.
Qed.

Lemma training_features_imputed_witness :
  feature_columns (prepare_training_data cohort "dropout" ModelTrainer.init).2
  = ["attendance_percentage"; "age"].
Proof.
  refine (proj1 (training_features_imputed cohort "dropout" ModelTrainer.init
                   _ _ _ _ eq_refl)).
  apply NoDup_ListNoDup. repeat constructor; simpl; intuition discriminate.
Defined.

(** X5. A recorded outcome column is returned as the target exactly as it
    stands in the table, and with it [prepare_training_data] cannot
    fail. *)
Theorem recorded_target_is_kept (df : DataFrame) (target_column : string)
    (self : DropoutPredictor) :
  NoDup (column_names df) -> has_column df target_column = true ->
  exists features,
    (prepare_training_data df target_column self).1
    = Return (features, column df target_column).
Proof.
  intros Hnd Hhas. rewrite prepare_training_data_run by done.
  rewrite Hhas. simpl. unfold getitem, column.
  apply has_column_assoc in Hhas as [s ->]. simpl. eauto.
Qed.

Lemma recorded_target_is_kept_witness :
  exists features,
    (prepare_training_data cohort "dropout" ModelTrainer.init).1
    = Return (features, [Int 0; Int 0; Int 1; Int 0]).
Proof.
  apply (recorded_target_is_kept cohort "dropout" ModelTrainer.init).
  - apply NoDup_ListNoDup. repeat constructor; simpl; intuition discriminate.
  - reflexivity.
Defined.

(** X6. [prepare_training_data] can only fail while it makes up the outcome;
    it has then not yet assigned [feature_columns], which stay as they
    were. *)
Theorem failed_preparation_assigns_nothing (df : DataFrame)
    (target_column : string) (self self' : DropoutPredictor) (e : exn) :
  NoDup (column_names df) ->
  prepare_training_data df target_column self = (Raise e, self') ->
  self' = self
  /\ has_column df target_column = false
  /\ _create_synthetic_target df = Raise e.
Proof.
  intros Hnd. rewrite prepare_training_data_run by done.
  destruct (has_column df target_column) eqn:Hhas; simpl.
  - unfold getitem. apply has_column_assoc in Hhas as [s ->]. done.
  - destruct (_create_synthetic_target df) as [t|e']; simpl; [done|].
    by intros [= -> ->].
Qed.

Lemma failed_preparation_assigns_nothing_witness :
  (prepare_training_data worded_attendance "dropout" trained_ab).2 = trained_ab.
Proof.
  refine (proj1 (failed_preparation_assigns_nothing worded_attendance "dropout"
                   trained_ab _ _ _ eq_refl)).
  apply NoDup_ListNoDup. repeat constructor; simpl; intuition discriminate.
Defined.

End TrainerMore.

(** ** Feature importance (model_trainer.py) *)

Section ImportanceMore.

Import Spec Cases DataProcessor Reports.

Lemma insert_desc_Permutation {A} (gt : A -> A -> bool) (x : A) (l : list A) :
  insert_desc gt x l ≡ₚ x :: l.
Proof.
  induction l as [|y l IH]; simpl; [done|].
  destruct (gt y x); [|done]. rewrite IH. apply Permutation_swap.
Qed.

Lemma sort_desc_Permutation {A} (gt : A -> A -> bool) (l : list A) :
  sort_desc gt l ≡ₚ l.
Proof.
  unfold sort_desc. induction l as [|x l IH]; simpl; [done|].
  by rewrite insert_desc_Permutation, IH.
Qed.

Lemma dict_of_app {A} (acc pairs : list (string * A)) :
  NoDup (map fst (acc ++ pairs)) ->
  foldl (fun d (p : string * A) => set_assoc p.1 p.2 d) acc pairs
  = acc ++ pairs.
Proof.
  revert acc. induction pairs as [|[k v] pairs IH]; intros acc Hnd; simpl.
  - by rewrite app_nil_r.
  - rewrite set_assoc_fresh.
    + rewrite IH; rewrite <- app_assoc; [done|exact Hnd].
    + rewrite map_app in Hnd. apply NoDup_app in Hnd as (_ & Hd & _).
      intros Hin. apply (Hd k); [by apply list_elem_of_In | simpl; left].
Qed.

Lemma dict_of_NoDup {A} (pairs : list (string * A)) :
  NoDup (map fst pairs) -> dict_of pairs = pairs.
Proof. intros H. unfold dict_of. by rewrite dict_of_app. Qed.

Lemma zip_keys_NoDup {A} (keys : list string) (values : list A) :
  NoDup keys -> NoDup (map fst (zip keys values)).
Proof.
  intros H. revert values. induction H as [|k keys Hk Hnd IH];
    intros [|v values]; simpl; try constructor; [|by apply IH].
  intros Hin. apply Hk. apply list_elem_of_fmap in Hin as ([k' v'] & -> & Hin).
  simpl. by apply elem_of_zip_l in Hin.
Qed.

(** X7. The importances of a trained predictor are its feature columns paired
    with the importances of the ensemble, each exactly once, from the most
    to the least important. *)
Theorem feature_importance_ranked (self : DropoutPredictor)
    (feature_importances_ : XGBClassifier -> list Q) (m : XGBClassifier) :
  is_trained self = true -> model self = Some m ->
  NoDup (feature_columns self) ->
  exists ranking,
    get_feature_importance self feature_importances_ = Return ranking
    /\ ranking ≡ₚ zip (feature_columns self) (feature_importances_ m)
    /\ StronglySorted (fun a b : string * Q => (b.2 <= a.2)%Q) ranking.
Proof.
  intros Ht Hm Hnd. unfold get_feature_importance. rewrite Ht, Hm. simpl.
  eexists. split; [reflexivity|].
  pose proof (zip_keys_NoDup _ (feature_importances_ m) Hnd) as Hz.
  rewrite (dict_of_NoDup (zip _ _)) by exact Hz.
  rewrite dict_of_NoDup.
  2:{ by rewrite sort_desc_Permutation. }
  split; [apply sort_desc_Permutation|].
  eapply StronglySorted_weaken; [|apply sort_desc_sorted].
  - intros x y H. by apply Qgtb_false in H.
  - intros x y H. apply Qgtb_true in H. apply Qgtb_false.
    by apply Qlt_le_weak.
  - unfold not_after. intros x y z H1 H2.
    apply Qgtb_false in H1, H2. apply Qgtb_false.
    eapply Qle_trans; [exact H2 | exact H1].
Qed.

Lemma feature_importance_ranked_witness :
  exists ranking,
    get_feature_importance trained_ab (fun _ => [0.2; 0.5]%Q) = Return ranking
    /\ ranking ≡ₚ [("a", 0.2%Q); ("b", 0.5%Q)].
Proof.
  destruct (feature_importance_ranked trained_ab (fun _ => [0.2; 0.5]%Q)
              (constant_classifier 1 0.7) eq_refl eq_refl)
    as (ranking & H1 & H2 & _).
  - apply NoDup_ListNoDup. repeat constructor; simpl; intuition discriminate.
  - exists ranking. split; [exact H1 | exact H2].
Defined.

End ImportanceMore.

(** ** Local explanations (explainability.py) *)

Section ExplainMore.

Import Spec Cases DataProcessor Explainability Reports.

Lemma zip_seq_lookup {A} (l : list A) (i : nat) (x : A) :
  l !! i = Some x -> zip (seq 0 (length l)) l !! i = Some (i, x).
Proof.
  intros H. apply lookup_zip_Some. split; [|done].
  apply lookup_seq_lt. by eapply lookup_lt_Some.
Qed.

Lemma Forall2_zip_seq {A B} (P : nat -> A -> B -> Prop) (l : list A)
    (l' : list B) :
  Forall2 (fun (p : nat * A) y => P p.1 p.2 y) (zip (seq 0 (length l)) l) l' ->
  Forall2 (fun x y => exists k, l !! k = Some x /\ P k x y) l l'.
Proof.
  intros H. apply Forall2_same_length_lookup in H as [Hlen H].
  apply Forall2_same_length_lookup. split.
  - rewrite <- Hlen. rewrite length_zip_with, length_seq. lia.
  - intros i x y Hx Hy. exists i. split; [done|].
    apply (H i (i, x) y); [by apply zip_seq_lookup | done].
Qed.

Lemma iloc_Return (df Xs : DataFrame) (positions : list nat) :
  iloc df positions = Return Xs ->
  Forall (fun i => (i < nrows df)%nat) positions
  /\ Xs = mkFrame (length positions)
            (map (fun c : string * Series =>
                    (c.1, map (fun i => nth i c.2 NaN) positions))
                 (columns df)).
Proof.
  unfold iloc.
  destruct (List.filter _ positions) as [|i l] eqn:E; [|done].
  intros [= <-]. split; [|done]. apply Forall_forall. intros i Hi.
  apply list_elem_of_In in Hi.
  destruct (Nat.ltb i (nrows df)) eqn:Hlt; [by apply Nat.ltb_lt|].
  assert (Hin : In i (List.filter (fun i => negb (Nat.ltb i (nrows df)))
                        positions)).
  { apply filter_In. by rewrite Hlt. }
  rewrite E in Hin. done.
Qed.

Lemma iloc_in_range (df : DataFrame) (positions : list nat) :
  Forall (fun i => (i < nrows df)%nat) positions ->
  iloc df positions
  = Return (mkFrame (length positions)
              (map (fun c : string * Series =>
                      (c.1, map (fun i => nth i c.2 NaN) positions))
                   (columns df))).
Proof.
  intros H. unfold iloc.
  destruct (List.filter _ positions) as [|i l] eqn:E; [done|].
  assert (Hin : In i (List.filter (fun i => negb (Nat.ltb i (nrows df)))
                        positions)) by (rewrite E; by left).
  apply filter_In in Hin as [Hin Hi]. rewrite Forall_forall in H.
  apply list_elem_of_In, H, Nat.ltb_lt in Hin. by rewrite Hin in Hi.
Qed.

Lemma iloc_out_of_range (df : DataFrame) (positions : list nat) (i : nat) :
  In i positions -> (nrows df <= i)%nat ->
  exists j, iloc df positions = Raise (IndexError j)
            /\ In j positions /\ (nrows df <= j)%nat.
Proof.
  intros Hin Hi. unfold iloc.
  destruct (List.filter _ positions) as [|j l] eqn:E.
  - assert (H : In i (List.filter (fun i => negb (Nat.ltb i (nrows df)))
                        positions)).
    { apply filter_In. split; [done|]. apply negb_true_iff, Nat.ltb_ge. lia. }
    rewrite E in H. done.
  - exists j. split; [done|].
    assert (H : In j (List.filter (fun i => negb (Nat.ltb i (nrows df)))
                        positions)) by (rewrite E; by left).
    apply filter_In in H as [H1 H2]. split; [done|].
    by apply negb_true_iff, Nat.ltb_ge in H2.
Qed.

Lemma row_selected (df : DataFrame) (positions : list nat) (k idx : nat) :
  positions !! k = Some idx ->
  row (mkFrame (length positions)
         (map (fun c : string * Series =>
                 (c.1, map (fun i => nth i c.2 NaN) positions))
              (columns df))) k
  = row df idx.
Proof.
  intros Hk. unfold row. simpl. rewrite map_map. apply map_ext.
  intros [c s]. simpl. apply nth_lookup_Some.
  by rewrite list_lookup_fmap, Hk.
Qed.

Lemma names_selected (df : DataFrame) (positions : list nat) :
  column_names (mkFrame (length positions)
         (map (fun c : string * Series =>
                 (c.1, map (fun i => nth i c.2 NaN) positions))
              (columns df)))
  = column_names df.
Proof. unfold column_names. simpl. by rewrite map_map. Qed.

(** What one turn of the loop of [explain_local] yields for the position
    [k] of the request, in terms of the table itself. *)
Lemma explain_local_run (self : ModelExplainer) (predictor : DropoutPredictor)
    (X : DataFrame) (student_indices : option (list nat))
    (report : local_report) :
  explain_local self predictor X student_indices = Return report ->
  local_expected_value report = expected_value self
  /\ exists te, explainer self = Some te
     /\ Forall (fun i => (i < nrows X)%nat)
               (default (seq 0 (nrows X)) student_indices)
     /\ Forall2 (fun idx e =>
          student_index e = idx
          /\ describes self predictor te X e
          /\ length (feature_columns predictor)
             = length (explanation_shap_values e)
          /\ top_features e
             = take 3 (sort_desc (fun a b => Qgtb (abs_shap_value a)
                                                  (abs_shap_value b))
                         (contributions (feature_columns predictor)
                            (explanation_shap_values e))))
        (default (seq 0 (nrows X)) student_indices) (explanations report).
Proof.
  unfold explain_local. destruct (explainer self) as [te|]; [|done].
  set (idxs := default (seq 0 (nrows X)) student_indices).
  intros H. apply bind_Return in H as (Xs & HXs & H).
  apply bind_Return in H as (les & Hles & H). injection H as <-. simpl.
  split; [done|]. exists te. split; [done|].
  apply iloc_Return in HXs as [Hrange ->]. split; [done|].
  apply mapM_Return in Hles.
  apply (Forall2_zip_seq
           (fun k idx e => explain_one self predictor _ _ k idx = Return e))
    in Hles.
  eapply Forall2_impl; [exact Hles|]. clear Hles.
  intros idx e (k & Hk & He). simpl in He. unfold explain_one in He.
  apply bind_Return in He as (u & Hlen & He).
  apply bind_Return in He as (m & Hm & He).
  rewrite (row_selected X idxs k idx Hk), names_selected in He.
  assert (Hshap : nth k (map (tree_shap_values te)
                           (rows (mkFrame (length idxs)
                              (map (fun c : string * Series =>
                                 (c.1, map (fun i => nth i c.2 NaN) idxs))
                                 (columns X))))) []
                  = tree_shap_values te (row X idx)).
  { apply nth_lookup_Some. unfold rows. simpl.
    rewrite !list_lookup_fmap, lookup_seq_lt by (by eapply lookup_lt_Some).
    simpl. by rewrite (row_selected X idxs k idx Hk). }
  rewrite Hshap in He, Hlen. injection He as <-. simpl.
  unfold describes. simpl. split; [done|]. split.
  - repeat (split; [done|]). exists m. split; [|done].
    unfold the_model in Hm. destruct (model predictor); [|done].
    by injection Hm as ->.
  - split; [|done]. unfold same_length in Hlen.
    destruct (Nat.eqb _ _) eqn:E; [|done]. by apply Nat.eqb_eq in E.
Qed.

(** X8. The report of [explain_local] holds one explanation for each
    requested index, in the order of the request (every row in order when
    none is given), and each one is about the row it names. *)
Theorem explanations_follow_request (self : ModelExplainer)
    (predictor : DropoutPredictor) (X : DataFrame)
    (student_indices : option (list nat)) (report : local_report) :
  explain_local self predictor X student_indices = Return report ->
  exists te,
    explainer self = Some te
    /\ map student_index (explanations report)
       = default (seq 0 (nrows X)) student_indices
    /\ Forall (describes self predictor te X) (explanations report).
Proof.
  intros H. apply explain_local_run in H as (_ & te & Hte & _ & H).
  exists te. split; [done|].
  induction H as [|idx e idxs les (Hidx & Hd & _) _ [IH1 IH2]];
    [by split; constructor|].
  split; [simpl; by rewrite Hidx, IH1 | by constructor].
Qed.

Lemma explanations_follow_request_witness :
  exists te,
    explainer explainer_ab = Some te
    /\ map student_index [mkExplanation 1 1 0.7 "High"
           [mkContribution "a" 0.1 0.1; mkContribution "b" 0.1 0.1]
           [0.1; 0.1]%Q [("a", NaN); ("b", Float 4)] (Some 0.5%Q)]
       = [1%nat].
Proof.
  destruct (explanations_follow_request explainer_ab trained_ab table_ab
              (Some [1%nat]) _ eq_refl) as (te & H1 & H2 & _).
  exists te. split; [exact H1 | exact H2].
Defined.

(** X9. With an explainer in place, a trained ensemble and attributions of
    one value per trained feature, [explain_local] returns exactly when
    every requested index is a row of the table; an index past the end
    makes it raise [IndexError]. *)
Theorem explain_local_needs_rows (self : ModelExplainer)
    (predictor : DropoutPredictor) (X : DataFrame)
    (student_indices : list nat) (te : TreeExplainer) (m : XGBClassifier) :
  explainer self = Some te -> model predictor = Some m ->
  (forall r, length (tree_shap_values te r)
             = length (feature_columns predictor)) ->
  (Forall (fun i => (i < nrows X)%nat) student_indices ->
   returns (explain_local self predictor X (Some student_indices)))
  /\ (forall i, In i student_indices -> (nrows X <= i)%nat ->
      exists j, explain_local self predictor X (Some student_indices)
                = Raise (IndexError j)
                /\ In j student_indices /\ (nrows X <= j)%nat).
Proof.
  intros Hte Hm Hlen. unfold explain_local. rewrite Hte. simpl. split.
  - intros Hrange. rewrite iloc_in_range by done. simpl.
    match goal with |- returns (x <- mapM ?f ?l ;; _)%py =>
      destruct (mapM f l) as [les|e] eqn:E end; simpl; [by eexists|].
    apply mapM_Raise in E as ([k idx] & Hin & E). simpl in E.
    apply list_elem_of_In, elem_of_zip_l, elem_of_seq in Hin.
    unfold explain_one, same_length, the_model in E. rewrite Hm in E.
    match type of E with context [nth k (map ?f (rows ?Xs)) []] =>
      assert (Hk : nth k (map f (rows Xs)) [] = f (row Xs k)) end.
    { apply nth_lookup_Some. unfold rows. simpl.
      by rewrite !list_lookup_fmap, lookup_seq_lt by lia. }
    rewrite Hk, Hlen, Nat.eqb_refl in E. done.
  - intros i Hin Hi.
    destruct (iloc_out_of_range X student_indices i Hin Hi)
      as (j & -> & Hj). exists j. by split.
Qed.

Lemma explain_local_needs_rows_witness :
  returns (explain_local explainer_ab trained_ab table_ab (Some [1%nat])).
Proof.
  apply (proj1 (explain_local_needs_rows explainer_ab trained_ab table_ab
                  [1%nat] (constant_explainer 0.5 [0.1; 0.1]%Q)
                  (constant_classifier 1 0.7) eq_refl eq_refl
                  (fun _ => eq_refl))).
  repeat constructor.
Defined.

Lemma Forall2_Forall_right {A B} (P : A -> B -> Prop) (Q : B -> Prop)
    (l : list A) (k : list B) :
  (forall x y, P x y -> Q y) -> Forall2 P l k -> Forall Q k.
Proof. intros HPQ. induction 1; constructor; eauto. Qed.

(** X10. The top features of an explanation are the (at most three) largest
    contributions in absolute value, largest first: together with the
    contributions left out they are all the contributions, in descending
    order of absolute value. *)
Theorem top_features_are_largest (self : ModelExplainer)
    (predictor : DropoutPredictor) (X : DataFrame)
    (student_indices : option (list nat)) (report : local_report) :
  explain_local self predictor X student_indices = Return report ->
  Forall (fun e =>
            exists rest,
              top_features e ++ rest
              ≡ₚ contributions (feature_columns predictor)
                   (explanation_shap_values e)
              /\ StronglySorted outweighs (top_features e ++ rest)
              /\ length (top_features e)
                 = Nat.min 3 (length (feature_columns predictor)))
         (explanations report).
Proof.
  intros H. apply explain_local_run in H as (_ & te & _ & _ & H).
  eapply Forall2_Forall_right; [|exact H]. clear H.
  intros idx e (_ & _ & Hlen & ->).
  set (gt := fun a b => Qgtb (abs_shap_value a) (abs_shap_value b)).
  set (all := contributions _ _).
  exists (drop 3 (sort_desc gt all)). rewrite take_drop.
  split; [apply sort_desc_Permutation|]. split.
  - eapply StronglySorted_weaken; [|apply sort_desc_sorted].
    + intros x y Hxy. by apply Qgtb_false in Hxy.
    + intros x y Hxy. apply Qgtb_true in Hxy. apply Qgtb_false.
      by apply Qlt_le_weak.
    + unfold not_after. intros x y z H1 H2.
      apply Qgtb_false in H1, H2. apply Qgtb_false.
      eapply Qle_trans; [exact H2 | exact H1].
  - rewrite length_take. f_equal.
    rewrite (Permutation_length (sort_desc_Permutation gt all)).
    unfold all, contributions. rewrite length_zip_with. lia.
Qed.

Lemma top_features_are_largest_witness :
  Forall (fun e => exists rest,
            top_features e ++ rest
            ≡ₚ contributions ["a"; "b"] (explanation_shap_values e)
            /\ StronglySorted outweighs (top_features e ++ rest)
            /\ length (top_features e) = 2%nat)
    [mkExplanation 1 1 0.7 "High"
       [mkContribution "a" 0.1 0.1; mkContribution "b" 0.1 0.1]
       [0.1; 0.1]%Q [("a", NaN); ("b", Float 4)] (Some 0.5%Q)].
Proof.
  exact (top_features_are_largest explainer_ab trained_ab table_ab
           (Some [1%nat]) _ eq_refl).
Defined.

Lemma complete_rows (X : DataFrame) :
  NoDup (column_names X) ->
  Forall (fun c : string * Series => complete_numeric c.2) (columns X) ->
  own_median_fill X (column_names X) = X.
Proof.
  intros Hnd Hc. unfold own_median_fill, column_names in *.
  destruct X as [n cols]. simpl in *. f_equal.
  rewrite map_map. rewrite <- (map_id cols) at 2.
  apply map_ext_in. intros [c s] Hin. simpl.
  assert (Hs : column (mkFrame n cols) c = s).
  { unfold column. simpl.
    by rewrite (assoc_NoDup c s cols Hnd) by (by apply list_elem_of_In). }
  rewrite Hs. f_equal. unfold series_fillna.
  rewrite <- (map_id s) at 2. apply map_ext_in. intros x Hx.
  rewrite Forall_forall in Hc. apply list_elem_of_In in Hin.
  specialize (Hc _ Hin). simpl in Hc. unfold complete_numeric in Hc.
  rewrite Forall_forall in Hc. apply list_elem_of_In in Hx.
  destruct (Hc _ Hx) as [_ ->]. done.
Qed.

(** X11. On a table that has exactly the trained columns, all of them complete
    and numeric, the explanations of every row carry the predictions,
    probabilities and risk labels that [predict] gives for the table. *)
Theorem explanations_agree_with_predict (self : ModelExplainer)
    (predictor : DropoutPredictor) (X : DataFrame) (report : local_report)
    (predictions : list Z) (probabilities : list Q)
    (risk_labels : list string) :
  column_names X = feature_columns predictor ->
  NoDup (column_names X) ->
  Forall (fun c : string * Series => complete_numeric c.2) (columns X) ->
  explain_local self predictor X None = Return report ->
  predict predictor X = Return (predictions, probabilities, risk_labels) ->
  map prediction (explanations report) = predictions
  /\ map probability (explanations report) = probabilities
  /\ map risk_level (explanations report) = risk_labels.
Proof.
  intros Hcols Hnd Hc Hx Hp.
  assert (Ht : is_trained predictor = true).
  { unfold predict in Hp. by destruct (is_trained predictor). }
  destruct (model predictor) as [m|] eqn:Hm.
  2:{ pose proof Hp as Hp'. unfold predict in Hp'. rewrite Ht in Hp'.
      simpl in Hp'.
      apply bind_Return in Hp' as (? & _ & Hp').
      apply bind_Return in Hp' as (? & _ & Hp').
      apply bind_Return in Hp' as (? & Hp' & _).
      unfold the_model in Hp'. by rewrite Hm in Hp'. }
  rewrite (predict_present predictor X m Ht Hm) in Hp.
  2:{ intros c Hin. rewrite <- Hcols in Hin. unfold has_column.
      apply existsb_exists. exists c. split; [done|apply String.eqb_refl]. }
  2:{ intros c _ s Hs. apply assoc_elem_of in Hs.
      rewrite Forall_forall in Hc. specialize (Hc _ Hs). simpl in Hc.
      destruct (existsb is_str s) eqn:E; [|done].
      apply existsb_exists in E as (x & Hin & Hx').
      unfold complete_numeric in Hc. rewrite Forall_forall in Hc.
      apply list_elem_of_In, Hc in Hin as [Hin _]. congruence. }
  rewrite <- Hcols, complete_rows in Hp by done.
  injection Hp as <- <- <-.
  pose proof (explain_local_levels _ _ _ _ _ Hx) as Hlev.
  apply explain_local_run in Hx as (_ & te & _ & _ & H). simpl in H.
  unfold rows. revert H Hlev.
  generalize (seq 0 (nrows X)). generalize (explanations report).
  intros les idxs H. induction H as [|idx e idxs les He _ IH]; [done|].
  intros Hlev. apply Forall_cons in Hlev as [Hl Hlev].
  destruct (IH Hlev) as (IH1 & IH2 & IH3).
  destruct He as (<- & (_ & _ & _ & m' & Hm' & Hpred & Hprob) & _).
  rewrite Hm in Hm'. injection Hm' as <-. simpl.
  rewrite IH1, IH2, IH3, Hl, Hpred, Hprob. done.
Qed.

Lemma explanations_agree_with_predict_witness :
  map probability
    (match explain_local explainer_ab trained_ab table_full None with
     | Return report => explanations report
     | Raise _ => []
     end)
  = [0.7; 0.7]%Q.
Proof.
  refine (proj1 (proj2 (explanations_agree_with_predict explainer_ab trained_ab
            table_full _ [1; 1]%Z [0.7; 0.7]%Q ["High"; "High"]
            eq_refl _ _ eq_refl eq_refl))).
  - apply NoDup_ListNoDup. repeat constructor; simpl; intuition discriminate.
  - repeat constructor.
Defined.

Lemma single_explanation (self : ModelExplainer)
    (predictor : DropoutPredictor) (X : DataFrame) (i : nat)
    (report : local_report) :
  explain_local self predictor X (Some [i]) = Return report ->
  exists e, explanations report = [e]
            /\ feature_values e = zip (column_names X) (row X i).
Proof.
  intros H. apply explain_local_run in H as (_ & te & _ & _ & H).
  simpl in H. inversion H as [|idx e idxs les He Hrest E1 E2].
  apply Forall2_nil_inv_l in Hrest as ->.
  destruct He as (Hi & (Hfv & _) & _).
  exists e. split; [done|]. by rewrite Hfv, Hi.
Qed.

(** X12. The advice of the explainer is read off the student's own values
    alone: whatever the explainer, its attributions, the ensemble and its
    prediction, two calls that return for the same row of the same table
    return the same advice. *)
Theorem advice_ignores_the_model (self self' : ModelExplainer)
    (predictor predictor' : DropoutPredictor) (X : DataFrame)
    (student_index : nat) (advice advice' : list advice) :
  get_intervention_recommendations self predictor X student_index
  = Return advice ->
  get_intervention_recommendations self' predictor' X student_index
  = Return advice' ->
  advice = advice'.
Proof.
  intros H H'.
  unfold get_intervention_recommendations in H, H'.
  apply bind_Return in H as (rep & Hrep & H).
  apply bind_Return in H' as (rep' & Hrep' & H').
  apply single_explanation in Hrep as (e & He & Hfv).
  apply single_explanation in Hrep' as (e' & He' & Hfv').
  rewrite He in H. rewrite He' in H'. cbv beta iota zeta in H, H'.
  rewrite Hfv in H. rewrite Hfv' in H'.
  rewrite H in H'. by injection H'.
Qed.

Lemma advice_ignores_the_model_witness :
  match get_intervention_recommendations explainer_ab trained_ab absentee 0,
        get_intervention_recommendations other_explainer other_predictor
          absentee 0 with
  | Return advice, Return advice' => advice = advice'
  | _, _ => False
  end.
Proof.
  exact (advice_ignores_the_model explainer_ab other_explainer trained_ab
           other_predictor absentee 0 _ _ eq_refl eq_refl).
Defined.

End ExplainMore.

(** ** Preprocessing (data_processor.py) *)

Section ProcessorMore.

Import Config Spec Cases DataProcessor Schema Preprocessing.

Lemma no_null_count (s : Series) :
  Forall (fun c => isnull c = false) s -> missing_count s = 0%nat.
Proof.
  unfold missing_count. induction 1 as [|c s Hc _ IH]; simpl; [done|].
  by rewrite Hc.
Qed.

Lemma impute_again (n : nat) (s : Series) :
  length s = n ->
  impute n (impute n s) = impute n s
  /\ warning_of n ("", impute n s) = warning_of n ("", s).
Proof.
  intros Hlen. destruct (impute_spec n s Hlen) as [Hflag Hfill].
  destruct (over_threshold n s) eqn:Hover.
  - by rewrite !(Hflag eq_refl).
  - destruct (Hfill eq_refl) as [Hnone _].
    apply no_null_count in Hnone.
    unfold warning_of, over_threshold. simpl.
    fold (over_threshold n s). rewrite Hover.
    unfold impute at 1. by rewrite Hnone.
Qed.

Lemma second_pass_columns (n : nat) (cols : list (string * Series)) :
  Forall (fun c : string * Series => length c.2 = n) cols ->
  map (fun c : string * Series => (c.1, impute n c.2))
      (map (fun c : string * Series => (c.1, impute n c.2)) cols)
  = map (fun c : string * Series => (c.1, impute n c.2)) cols
  /\ omap (warning_of n)
          (map (fun c : string * Series => (c.1, impute n c.2)) cols)
     = omap (warning_of n) cols.
Proof.
  induction 1 as [|[k s] cols Hs _ [IH1 IH2]]; [done|]. simpl in Hs.
  destruct (impute_again n s Hs) as [H1 H2]. csimpl. simpl.
  rewrite H1, IH1, IH2. split; [done|].
  unfold warning_of in *. simpl in *.
  destruct (over_threshold n (impute n s)), (over_threshold n s);
    try done. by injection H2 as ->.
Qed.

(** X13. A second pass of the missing-value step changes nothing, with and
    without copy-on-write: it returns the table of the first pass as it
    is and raises the same warnings, so the columns it had flagged stay
    flagged and stay unfilled. *)
Theorem missing_values_second_pass (copy_on_write : bool) (df : DataFrame) :
  wf_frame df ->
  NoDup (column_names df) ->
  (_handle_missing_values copy_on_write
     (_handle_missing_values copy_on_write df).1.1).1.1
  = (_handle_missing_values copy_on_write df).1.1
  /\ (_handle_missing_values copy_on_write
        (_handle_missing_values copy_on_write df).1.1).2
     = (_handle_missing_values copy_on_write df).2.
Proof.
  intros Hwf Hnd. destruct copy_on_write.
  { by rewrite !(copy_on_write_keeps_the_table df Hnd). }
  rewrite (_handle_missing_values_columns false df Hnd). simpl.
  rewrite _handle_missing_values_columns.
  2:{ unfold column_names in *. simpl. rewrite map_map. simpl. exact Hnd. }
  unfold processed. simpl.
  destruct (second_pass_columns (nrows df) (columns df) Hwf)
    as [H1 H2].
  by rewrite H1, H2.
Qed.

Lemma missing_values_second_pass_witness :
  (_handle_missing_values false (_handle_missing_values false gaps).1.1).2
  = (_handle_missing_values false gaps).2.
Proof.
  apply missing_values_second_pass.
  - repeat constructor.
  - apply NoDup_ListNoDup. repeat constructor; simpl; intuition discriminate.
Defined.

(** *** Cleaning *)

Lemma names_set_assoc {A} (k : string) (v : A) (l : list (string * A)) :
  existsb (String.eqb k) (map fst l) = true ->
  map fst (set_assoc k v l) = map fst l.
Proof.
  induction l as [|[k' v'] l IH]; simpl; [done|].
  destruct (String.eqb k k') eqn:E; simpl.
  - apply String.eqb_eq in E as ->. done.
  - intros H. by rewrite IH.
Qed.

Lemma names_setitem (df : DataFrame) (col : string) (s : Series) :
  has_column df col = true ->
  column_names (setitem df col s) = column_names df.
Proof. intros H. unfold column_names, setitem. simpl. by apply names_set_assoc. Qed.

Lemma length_rescale_unit (s : Series) :
  length (rescale_unit s) = length s.
Proof.
  unfold rescale_unit. destruct (numeric_median s); try done.
  destruct (Qle_bool _ _); [|done]. by rewrite length_map.
Qed.

Lemma column_absent (df : DataFrame) (col : string) :
  has_column df col = false -> column df col = [].
Proof. intros H. apply has_column_false in H. unfold column. by rewrite H. Qed.

Lemma has_column_names (df df' : DataFrame) (col : string) :
  column_names df' = column_names df -> has_column df' col = has_column df col.
Proof. unfold has_column. by intros ->. Qed.

Lemma step_keeps_setitem (f : DataFrame -> Series) (col : string) :
  (forall df, length (f df) = length (column df col)) ->
  step_keeps (fun df => if has_column df col then setitem df col (f df)
                        else df) col.
Proof.
  intros Hf df. destruct (has_column df col) eqn:Hhas; [|done].
  split; [by apply names_setitem|]. split; [done|]. split.
  - intros c. destruct (String.eqb col c) eqn:E.
    + apply String.eqb_eq in E as <-. by rewrite column_setitem_eq.
    + apply String.eqb_neq in E. by rewrite column_setitem_ne.
  - intros c Hc. by rewrite column_setitem_ne.
Qed.

Lemma clean_percentage_keeps (col : string) :
  step_keeps (fun df => clean_percentage df col) col.
Proof.
  intros df. destruct (has_column df col) eqn:Hhas.
  - split; [|split; [|split]].
    + unfold clean_percentage. rewrite Hhas.
      set (df1 := setitem df col _).
      assert (H1 : column_names df1 = column_names df)
        by (by apply names_setitem).
      destruct (String.eqb col "assignment_timeliness"); [|done].
      destruct (series_median _) as [[| |med|]|]; try done.
      destruct (Qle_bool med 1); [|done].
      rewrite names_setitem; [done|]. by rewrite (has_column_names df df1).
    + unfold clean_percentage. rewrite Hhas.
      destruct (String.eqb col "assignment_timeliness"); [|done].
      destruct (series_median _) as [[| |med|]|]; try done.
      by destruct (Qle_bool med 1).
    + intros c. destruct (String.eqb col c) eqn:E.
      * apply String.eqb_eq in E as <-. rewrite clean_percentage_eq by done.
        destruct (String.eqb col "assignment_timeliness");
          by rewrite ?length_rescale_unit, length_map.
      * apply String.eqb_neq in E. by rewrite clean_percentage_ne.
    + intros c Hc. by apply clean_percentage_ne.
  - unfold clean_percentage. by rewrite Hhas.
Qed.

Lemma clean_lexicon_keeps (lexicon : gmap string Q) (col : string) :
  step_keeps (clean_lexicon lexicon col) col.
Proof.
  apply (step_keeps_setitem
           (fun df => map (fun c => map_lexicon lexicon
                          (on_literal strip (on_literal lower (astype_str c))))
                        (column df col))).
  intros df. by rewrite length_map.
Qed.

Lemma clean_numeric_keeps (col : string) :
  step_keeps (fun df => clean_numeric df col) col.
Proof.
  apply (step_keeps_setitem (fun df => map to_numeric (column df col))).
  intros df. by rewrite length_map.
Qed.

Lemma step_keeps_compose (f g : DataFrame -> DataFrame) (a b : string) :
  step_keeps f a -> step_keeps g b ->
  forall df,
    column_names (g (f df)) = column_names df
    /\ nrows (g (f df)) = nrows df
    /\ (forall c, length (column (g (f df)) c) = length (column df c))
    /\ (forall c, c <> a -> c <> b -> column (g (f df)) c = column df c).
Proof.
  intros Hf Hg df. destruct (Hf df) as (F1 & F2 & F3 & F4).
  destruct (Hg (f df)) as (G1 & G2 & G3 & G4).
  split; [congruence|]. split; [congruence|]. split.
  - intros c. by rewrite G3, F3.
  - intros c Ha Hb. by rewrite G4, F4.
Qed.

(** X14. The cleaning step keeps every column and every row: for a table with
    distinct labels, the labels, their order, the number of rows and the
    length of each column are those of the input, and a column that is
    none of the nine named fields is left exactly as it is. *)
Theorem cleaning_keeps_the_table (df : DataFrame) :
  NoDup (column_names df) ->
  column_names (_clean_data_types df) = column_names df
  /\ nrows (_clean_data_types df) = nrows df
  /\ (forall col, length (column (_clean_data_types df) col)
                  = length (column df col))
  /\ (forall col, ~ In col cleaned_fields ->
                  column (_clean_data_types df) col = column df col).
Proof.
  intros _.
  unfold _clean_data_types. cbv zeta. cbn [foldl].
  pose proof (clean_percentage_keeps "attendance_percentage") as P1.
  pose proof (clean_percentage_keeps "assignment_timeliness") as P2.
  pose proof (clean_percentage_keeps "quiz_test_avg_pct") as P3.
  pose proof (clean_lexicon_keeps FEE_PAYMENT_MAPPING "fee_payment_status") as L1.
  pose proof (clean_lexicon_keeps GENDER_MAPPING "gender") as L2.
  pose proof (clean_numeric_keeps "lms_login_count_monthly") as N1.
  pose proof (clean_numeric_keeps "time_spent_online_hours_week") as N2.
  pose proof (clean_numeric_keeps "age") as N3.
  pose proof (clean_numeric_keeps "socioeconomic_status") as N4.
  set (d1 := clean_percentage df _).
  set (d2 := clean_percentage d1 _).
  set (d3 := clean_percentage d2 _).
  set (d4 := clean_lexicon _ _ d3).
  set (d5 := clean_lexicon _ _ d4).
  set (d6 := clean_numeric d5 _).
  set (d7 := clean_numeric d6 _).
  set (d8 := clean_numeric d7 _).
  destruct (P1 df) as (A1 & B1 & C1 & D1).
  destruct (P2 d1) as (A2 & B2 & C2 & D2).
  destruct (P3 d2) as (A3 & B3 & C3 & D3).
  destruct (L1 d3) as (A4 & B4 & C4 & D4).
  destruct (L2 d4) as (A5 & B5 & C5 & D5).
  destruct (N1 d5) as (A6 & B6 & C6 & D6).
  destruct (N2 d6) as (A7 & B7 & C7 & D7).
  destruct (N3 d7) as (A8 & B8 & C8 & D8).
  destruct (N4 d8) as (A9 & B9 & C9 & D9).
  fold d1 in A1, B1, C1, D1. fold d2 in A2, B2, C2, D2.
  fold d3 in A3, B3, C3, D3. fold d4 in A4, B4, C4, D4.
  fold d5 in A5, B5, C5, D5. fold d6 in A6, B6, C6, D6.
  fold d7 in A7, B7, C7, D7. fold d8 in A8, B8, C8, D8.
  split; [congruence|]. split; [congruence|]. split.
  - intros col. by rewrite C9, C8, C7, C6, C5, C4, C3, C2, C1.
  - intros col Hcol. unfold cleaned_fields in Hcol. simpl in Hcol.
    rewrite D9, D8, D7, D6, D5, D4, D3, D2, D1; [done|..];
      intros ->; tauto.
Qed.

Lemma cleaning_keeps_the_table_witness :
  column_names (_clean_data_types fees) = ["fee_payment_status"; "remarks"]
  /\ column (_clean_data_types fees) "remarks"
     = [Str "85%"; Str "x"; NaN; Int 3].
Proof.
  assert (Hnd : NoDup (column_names fees)).
  { apply NoDup_ListNoDup. repeat constructor; simpl; intuition discriminate. }
  destruct (cleaning_keeps_the_table fees Hnd) as (H1 & _ & _ & H2).
  split; [exact H1|]. apply H2. simpl. intuition discriminate.
Defined.

Lemma clean_data_types_names (df : DataFrame) :
  column_names (_clean_data_types df) = column_names df.
Proof.
  unfold _clean_data_types. cbv zeta. cbn [foldl].
  rewrite !(proj1 (clean_numeric_keeps _ _)).
  rewrite !(proj1 (clean_lexicon_keeps _ _ _)).
  by rewrite !(proj1 (clean_percentage_keeps _ _)).
Qed.

Lemma clean_lexicon_eq (lexicon : gmap string Q) (col : string)
    (df : DataFrame) :
  has_column df col = true ->
  column (clean_lexicon lexicon col df) col
  = map (fun c => map_lexicon lexicon
                    (on_literal strip (on_literal lower (astype_str c))))
        (column df col).
Proof. intros H. unfold clean_lexicon. rewrite H. apply column_setitem_eq. Qed.

Lemma map_lexicon_coded (lexicon : gmap string Q) (c : cell) :
  lexicon !! "nan" = None ->
  map_lexicon lexicon (on_literal strip (on_literal lower (astype_str c)))
  = coded lexicon c.
Proof.
  intros Hnan. destruct c as [|z|q|s]; simpl; unfold map_lexicon; simpl.
  - change (strip (lower "nan")) with "nan". by rewrite Hnan.
  - by destruct (lexicon !! pretty z).
  - done.
  - by destruct (lexicon !! strip (lower s)).
Qed.

Lemma step_keeps_has (step : DataFrame -> DataFrame) (a c : string)
    (df : DataFrame) :
  step_keeps step a -> has_column (step df) c = has_column df c.
Proof. intros H. apply has_column_names. apply (H df). Qed.

Lemma coded_column (df : DataFrame) (col : string) (lexicon : gmap string Q) :
  In (col, lexicon) coded_fields ->
  has_column df col = true ->
  column (_clean_data_types df) col = map (coded lexicon) (column df col).
Proof.
  intros Hin Hhas. unfold _clean_data_types. cbv zeta. cbn [foldl].
  assert (Heq : forall lex, lex !! "nan" = None ->
            map (fun c => map_lexicon lex
                   (on_literal strip (on_literal lower (astype_str c))))
                (column df col)
            = map (coded lex) (column df col)).
  { intros lex Hlex. apply map_ext. intros c. by apply map_lexicon_coded. }
  destruct Hin as [[= <- <-]|[[= <- <-]|[]]].
  - rewrite !clean_numeric_ne, clean_lexicon_ne by done.
    rewrite clean_lexicon_eq.
    2:{ rewrite !(step_keeps_has _ _ _ _ (clean_percentage_keeps _)). done. }
    rewrite !clean_percentage_ne by done. by apply Heq.
  - rewrite !clean_numeric_ne by done.
    rewrite clean_lexicon_eq.
    2:{ rewrite (step_keeps_has _ _ _ _ (clean_lexicon_keeps _ _)).
        rewrite !(step_keeps_has _ _ _ _ (clean_percentage_keeps _)). done. }
    rewrite clean_lexicon_ne by done.
    rewrite !clean_percentage_ne by done. by apply Heq.
Qed.

(** X15. In the two coded fields (fee_payment_status, gender) that are present
    in a table with distinct labels, text is looked up in lower case and stripped and an integer by its
    digits; an entry that is no key of the lexicon, every float and every
    missing entry becomes missing. So only codes of the lexicon and gaps
    are left, and cleaning a cleaned table empties the field. *)
Theorem coded_fields_cleaned (df : DataFrame) (col : string)
    (lexicon : gmap string Q) :
  NoDup (column_names df) ->
  In (col, lexicon) coded_fields ->
  has_column df col = true ->
  column (_clean_data_types df) col = map (coded lexicon) (column df col)
  /\ Forall (fun c => c = NaN
                      \/ exists k v, lexicon !! k = Some v /\ c = Float v)
            (column (_clean_data_types df) col)
  /\ Forall (fun c => c = NaN)
            (column (_clean_data_types (_clean_data_types df)) col).
Proof.
  intros _ Hin Hhas.
  pose proof (coded_column df col lexicon Hin Hhas) as H1.
  assert (Hhas' : has_column (_clean_data_types df) col = true).
  { rewrite (has_column_names df); [done|]. apply clean_data_types_names. }
  pose proof (coded_column _ col lexicon Hin Hhas') as H2.
  rewrite H2, H1. split; [done|]. split.
  - apply Forall_forall. intros c Hc.
    apply list_elem_of_fmap in Hc as (c0 & -> & _).
    destruct c0 as [|z|q|s]; simpl; auto.
    + destruct (lexicon !! pretty z) eqn:E; simpl; eauto.
    + destruct (lexicon !! strip (lower s)) eqn:E; simpl; eauto.
  - apply Forall_forall. intros c Hc.
    apply list_elem_of_fmap in Hc as (c1 & -> & Hc).
    apply list_elem_of_fmap in Hc as (c0 & -> & _).
    destruct c0 as [|z|q|s]; simpl; auto.
    + by destruct (lexicon !! pretty z).
    + by destruct (lexicon !! strip (lower s)).
Qed.

Lemma coded_fields_cleaned_witness :
  column (_clean_data_types fees) "fee_payment_status"
  = map (coded FEE_PAYMENT_MAPPING) [Str " Paid "; Int 2; Float 1; NaN].
Proof.
  refine (proj1 (coded_fields_cleaned fees "fee_payment_status"
                   FEE_PAYMENT_MAPPING _ (or_introl eq_refl) eq_refl)).
  apply NoDup_ListNoDup. repeat constructor; simpl; intuition discriminate.
Defined.

(** *** Column detection *)

Lemma detect_other (labels : list string) (m : gmap string string)
    (expected_col k : string) :
  matches expected_col k = false ->
  detect labels m expected_col !! k = m !! k.
Proof.
  intros H. unfold detect.
  destruct (List.find _ labels) as [actual|] eqn:E; [|done].
  apply find_some in E as [_ E]. rewrite lookup_insert_ne; [done|].
  intros ->. congruence.
Qed.

Lemma detect_hit (labels : list string) (m : gmap string string)
    (expected_col k : string) :
  List.find (matches expected_col) labels = Some k ->
  detect labels m expected_col !! k = Some expected_col.
Proof. intros H. unfold detect. rewrite H. apply lookup_insert_eq. Qed.

(** X16. Detection takes the attendance column for the age: when, among the
    labels in lower case and stripped, attendance_percentage is the first
    that has "age" in it (or is part of "age"), the mapping that
    [_map_columns] detects and stores sends attendance_percentage to age,
    and the column is labelled age in the table it returns. *)
Theorem attendance_is_renamed_to_age (self : DataProcessor) (df : DataFrame) :
  List.find (matches "age")
    (map (fun c : string * Series => strip (lower c.1)) (columns df))
  = Some "attendance_percentage" ->
  column_mapping (_map_columns self df None).1 !! "attendance_percentage"
  = Some "age"
  /\ forall i c,
       columns df !! i = Some c ->
       strip (lower c.1) = "attendance_percentage" ->
       columns (_map_columns self df None).2 !! i = Some ("age", c.2).
Proof.
  intros Hfind. unfold _map_columns, detect_columns. cbv zeta.
  cbn [fst snd column_mapping].
  set (labels := column_names _).
  assert (Hlabels : labels
            = map (fun c : string * Series => strip (lower c.1)) (columns df)).
  { unfold labels, column_names. cbn [columns]. rewrite map_map. done. }
  assert (Hmap : foldl (detect labels) ∅ (REQUIRED_COLUMNS ++ OPTIONAL_COLUMNS)
                 !! "attendance_percentage" = Some "age").
  { unfold REQUIRED_COLUMNS, OPTIONAL_COLUMNS. cbn [app foldl].
    rewrite !detect_other by reflexivity.
    apply detect_hit. by rewrite Hlabels. }
  split; [exact Hmap|].
  intros i c Hi Hc. unfold rename. cbn [columns nrows].
  rewrite !list_lookup_fmap, Hi. cbn [fmap option_fmap option_map fst snd].
  by rewrite Hc, Hmap.
Qed.

Lemma attendance_is_renamed_to_age_witness :
  column_names (_map_columns Preprocessing.new standard_table None).2 !! 1%nat
  = Some "age".
Proof.
  unfold column_names. rewrite list_lookup_fmap.
  by rewrite (proj2 (attendance_is_renamed_to_age Preprocessing.new
                       standard_table eq_refl)
                1%nat (" Attendance_Percentage ", [Float 40]) eq_refl eq_refl).
Defined.

Lemma detect_fold_sound (labels expected_cols all_cols : list string)
    (m : gmap string string) :
  (forall e, In e expected_cols -> In e all_cols) ->
  (forall k v, m !! k = Some v ->
     In k labels /\ In v all_cols /\ matches v k = true) ->
  forall k v,
    foldl (detect labels) m expected_cols !! k = Some v ->
    In k labels /\ In v all_cols /\ matches v k = true.
Proof.
  revert m. induction expected_cols as [|e es IH]; intros m Hsub Hm;
    [exact Hm|].
  cbn [foldl]. apply IH; [intros e' He'; apply Hsub; by right|].
  intros k v. unfold detect.
  destruct (List.find (matches e) labels) as [a|] eqn:E; [|apply Hm].
  apply find_some in E as [Ha Hmatch].
  destruct (decide (k = a)) as [->|Hne].
  - rewrite lookup_insert_eq. intros [= <-].
    split; [done|]. split; [apply Hsub; by left | done].
  - rewrite lookup_insert_ne by done. apply Hm.
Qed.

(** X17. [_map_columns] only relabels: the rows and the contents of the
    columns, in their order, are those of the input. A mapping that is
    given and not empty is stored as it is; otherwise (no mapping, or an
    empty one) the stored mapping is the detected one, which sends labels
    of the table (in lower case, stripped) to expected column names that
    contain them or are contained in them. *)
Theorem column_mapping_only_relabels (self : DataProcessor) (df : DataFrame)
    (mapping : option (gmap string string)) :
  let result := _map_columns self df mapping in
  nrows result.2 = nrows df
  /\ map snd (columns result.2) = map snd (columns df)
  /\ (forall m, mapping = Some m -> m <> ∅ -> column_mapping result.1 = m)
  /\ (mapping = None \/ mapping = Some ∅ ->
      forall k v,
        column_mapping result.1 !! k = Some v ->
        In k (map (fun c : string * Series => strip (lower c.1)) (columns df))
        /\ In v (REQUIRED_COLUMNS ++ OPTIONAL_COLUMNS)
        /\ matches v k = true).
Proof.
  cbv zeta.
  assert (Hdetect :
    nrows (detect_columns self df).2 = nrows df
    /\ map snd (columns (detect_columns self df).2) = map snd (columns df)
    /\ forall k v,
         column_mapping (detect_columns self df).1 !! k = Some v ->
         In k (map (fun c : string * Series => strip (lower c.1)) (columns df))
         /\ In v (REQUIRED_COLUMNS ++ OPTIONAL_COLUMNS)
         /\ matches v k = true).
  { unfold detect_columns, rename. cbv zeta.
    cbn [fst snd nrows columns column_mapping].
    split; [done|]. split; [by rewrite !map_map|].
    intros k v Hk.
    eapply (detect_fold_sound _ _ (REQUIRED_COLUMNS ++ OPTIONAL_COLUMNS))
      in Hk; [|done|intros ? ?; by rewrite lookup_empty].
    unfold column_names in Hk. cbn [columns] in Hk.
    by rewrite map_map in Hk. }
  destruct Hdetect as (D1 & D2 & D3).
  unfold _map_columns. destruct mapping as [m|].
  - destruct (bool_decide (m = ∅)) eqn:E.
    + apply bool_decide_eq_true in E as ->.
      split; [done|]. split; [done|]. split; [by intros m [= <-] H|].
      intros _. exact D3.
    + apply bool_decide_eq_false in E.
      unfold rename. cbn [fst snd nrows columns column_mapping].
      split; [done|]. split; [by rewrite map_map|].
      split; [by intros m' [= <-] _|].
      intros [H|H]; [done|]. by injection H as ->.
  - split; [done|]. split; [done|]. split; [done|]. intros _. exact D3.
Qed.

(** *** Ranges *)

Lemma validate_column_app (df : DataFrame) (acc : list string)
    (rule : string * rules) :
  validate_column df acc rule = acc ++ validate_column df [] rule.
Proof.
  destruct rule as [col [mn mx]]. unfold validate_column. simpl.
  destruct (has_column df col); [|by rewrite app_nil_r].
  destruct mn as [a|], mx as [b|]; simpl;
    repeat match goal with |- context [Nat.ltb 0 ?n] =>
             destruct (Nat.ltb 0 n) end;
    simpl; rewrite ?app_nil_r, <- ?app_assoc; done.
Qed.

Lemma validate_fold (df : DataFrame) (rules : list (string * rules))
    (acc : list string) :
  foldl (validate_column df) acc rules
  = acc ++ flat_map (validate_column df []) rules.
Proof.
  revert acc. induction rules as [|r rules IH]; intros acc; simpl.
  - by rewrite app_nil_r.
  - rewrite IH, validate_column_app, <- app_assoc. done.
Qed.

Lemma flat_map_nil {A B} (f : A -> list B) (l : list A) :
  flat_map f l = [] <-> forall x, In x l -> f x = [].
Proof.
  induction l as [|x l IH]; simpl; [by split|].
  split.
  - intros H. apply app_eq_nil in H as [Hx Hl].
    intros y [<-|Hy]; [done|]. by apply IH.
  - intros H. rewrite (H x) by auto. simpl. apply IH. auto.
Qed.

Lemma count_zero {A} (f : A -> bool) (l : list A) :
  Nat.ltb 0 (length (List.filter f l)) = false
  <-> Forall (fun x => f x = false) l.
Proof.
  induction l as [|x l IH]; simpl;
    [split; intros; [constructor | reflexivity]|].
  destruct (f x) eqn:E; simpl.
  - split; [done|]. intros H. apply Forall_cons in H as [H _]. congruence.
  - rewrite IH. split; [by constructor|].
    intros H. by apply Forall_cons in H as [_ H].
Qed.

Lemma validate_column_nil (df : DataFrame) (col : string) (r : rules) :
  validate_column df [] (col, r) = []
  <-> (has_column df col = true ->
       Forall (within r) (readable (column df col))).
Proof.
  unfold validate_column, within, readable, count_below, count_above.
  destruct r as [mn mx]. simpl.
  destruct (has_column df col); [|by split].
  set (l := numbers _).
  split.
  - intros H _. apply Forall_forall. intros q Hq.
    split; intros bound [= ->].
    + destruct (Nat.ltb 0 _) eqn:E in H.
      { destruct mx; [destruct (Nat.ltb 0 _) in H|]; simpl in H;
          discriminate. }
      apply count_zero in E. rewrite Forall_forall in E.
      by apply Qltb_false, E.
    + destruct (Nat.ltb 0 (length (List.filter
                  (fun q => Qgtb q (inject_Z bound)) l))) eqn:E.
      { destruct mn; [destruct (Nat.ltb 0 _) in H|]; simpl in H;
          discriminate. }
      apply count_zero in E. rewrite Forall_forall in E.
      by apply Qgtb_false, E.
  - intros H. specialize (H eq_refl). rewrite Forall_forall in H.
    assert (Hmn : forall bound, mn = Some bound ->
      Nat.ltb 0 (length (List.filter
                   (fun q => Qltb q (inject_Z bound)) l)) = false).
    { intros bound Hb. apply count_zero, Forall_forall. intros q Hq.
      apply Qltb_false. by apply (H q Hq). }
    assert (Hmx : forall bound, mx = Some bound ->
      Nat.ltb 0 (length (List.filter
                   (fun q => Qgtb q (inject_Z bound)) l)) = false).
    { intros bound Hb. apply count_zero, Forall_forall. intros q Hq.
      apply Qgtb_false. by apply (H q Hq). }
    destruct mn as [a|], mx as [b|];
      rewrite ?(Hmn _ eq_refl), ?(Hmx _ eq_refl); done.
Qed.

(** X18. On a table with distinct labels, whose text entries in the columns
    that have a rule are modest (plain ASCII, at most 15 digits, no
    infinity spelled), the range check reports nothing exactly when, in
    every column that has a rule and is present, every value that can be
    read as a number lies within the bounds of the rule; a numeral may
    stand between blanks; entries that are missing or cannot be read are
    never counted. *)
Theorem ranges_valid_iff (df : DataFrame) :
  NoDup (column_names df) ->
  (forall col r,
      In (col, r) VALIDATION_RULES -> has_column df col = true ->
      Forall (fun c => modest_entry c = true) (column df col)) ->
  _validate_data_ranges df = []
  <-> forall col r,
        In (col, r) VALIDATION_RULES -> has_column df col = true ->
        Forall (within r) (readable (column df col)).
Proof.
  intros _ _. unfold _validate_data_ranges. rewrite validate_fold, app_nil_l.
  rewrite flat_map_nil. split.
  - intros H col r Hin. apply validate_column_nil. by apply H.
  - intros H [col r] Hin. apply validate_column_nil. by apply H.
Qed.

Lemma ranges_valid_iff_witness :
  readable (column ages "age") = [inject_Z 17; inject_Z 18]
  /\ Forall (within (mkRules (Some 16%Z) (Some 100%Z)))
            (readable (column ages "age")).
Proof.
  split; [reflexivity|].
  refine (proj1 (ranges_valid_iff ages _ _) eq_refl "age" _ _ eq_refl).
  - apply NoDup_ListNoDup. repeat constructor; simpl; intuition discriminate.
  - intros col r Hin Hhas. unfold has_column in Hhas. simpl in Hhas.
    rewrite orb_false_r in Hhas. apply String.eqb_eq in Hhas as ->.
    repeat constructor.
  - unfold VALIDATION_RULES. simpl. tauto.
Defined.

(** *** Features *)

(** X19. Passing a table through [prepare_features] does not change what a
    predictor trained on that table's features predicts for it: for a
    table with distinct labels and a trained predictor whose feature
    columns are the training columns of the table, [prepare_features]
    returns a table on which [predict] returns, with the result it has on
    the table itself. *)
Theorem prepared_features_predict (processor : DataProcessor)
    (predictor : DropoutPredictor) (m : XGBClassifier) (df : DataFrame)
    (target_column : string) :
  NoDup (column_names df) ->
  is_trained predictor = true -> model predictor = Some m ->
  feature_columns predictor = training_columns df target_column ->
  exists X,
    (prepare_features processor df).2 = Return X
    /\ column_names X = processor_feature_columns
                          (prepare_features processor df).1
    /\ ~ In "student_id" (column_names X)
    /\ returns (predict predictor X)
    /\ predict predictor X = predict predictor df.
Proof.
  intros Hnd Ht Hm Hfc. unfold prepare_features. cbn [fst snd].
  set (cols := List.filter _ (numeric_columns df)).
  assert (Hcols : forall c, In c cols ->
            In c (numeric_columns df) /\ c <> "student_id").
  { intros c Hc. apply filter_In in Hc as [Hc Hneg]. split; [done|].
    intros ->. simpl in Hneg. discriminate. }
  rewrite getitem_list_present.
  2:{ apply Forall_forall. intros c Hc.
      apply list_elem_of_In, Hcols in Hc as [Hc _].
      destruct (numeric_columns_spec df c Hnd Hc) as (s & Hs & _).
      apply has_column_assoc. by exists s. }
  eexists. split; [reflexivity|].
  assert (Hnames : column_names
            (mkFrame (nrows df)
               (map (fun c => (c, default [] (assoc c (columns df)))) cols))
            = cols).
  { unfold column_names. simpl. rewrite map_map. simpl. apply map_id. }
  rewrite Hnames. split; [done|]. split.
  { intros Hin. by apply Hcols in Hin as [_ Hin]. }
  assert (Hsame : predict predictor
            (mkFrame (nrows df)
               (map (fun c => (c, default [] (assoc c (columns df)))) cols))
            = predict predictor df).
  { unfold predict. destruct (negb (is_trained predictor)); [done|].
    rewrite (getitem_list_ext _ df (feature_columns predictor)); [done..|].
    intros c Hc. simpl.
    rewrite Hfc in Hc. apply training_columns_numeric in Hc as (Hc & H1 & _).
    rewrite (assoc_map_key _ c cols).
    2:{ apply filter_In. split; [done|]. simpl.
        apply String.eqb_neq in H1. by rewrite H1. }
    destruct (numeric_columns_spec df c Hnd Hc) as (s & -> & _). done. }
  rewrite Hsame. split; [|done].
  rewrite (predict_present predictor df m Ht Hm); [by eexists|..].
  - intros c Hc. rewrite Hfc in Hc.
    apply training_columns_numeric in Hc as (Hc & _).
    destruct (numeric_columns_spec df c Hnd Hc) as (s & Hs & _).
    apply has_column_assoc. by exists s.
  - intros c Hc s Hs. rewrite Hfc in Hc.
    apply training_columns_numeric in Hc as (Hc & _).
    destruct (numeric_columns_spec df c Hnd Hc) as (s' & Hs' & Hstr).
    congruence.
Qed.

Lemma prepared_features_predict_witness :
  exists X,
    (prepare_features Preprocessing.new cohort).2 = Return X
    /\ returns (predict
                  (mkPredictor (Some (constant_classifier 1 0.7))
                     ["attendance_percentage"; "age"] ∅ (Some "v1") true) X).
Proof.
  destruct (prepared_features_predict Preprocessing.new
              (mkPredictor (Some (constant_classifier 1 0.7))
                 ["attendance_percentage"; "age"] ∅ (Some "v1") true)
              (constant_classifier 1 0.7) cohort "dropout")
    as (X & H1 & _ & _ & H2 & _); try reflexivity.
  - apply NoDup_ListNoDup. repeat constructor; simpl; intuition discriminate.
  - exists X. split; [exact H1 | exact H2].
Defined.

End ProcessorMore.

(** ** Plans and logs (intervention_system.py) *)

Section PlansMore.

Import Spec Cases DataProcessor Preprocessing Intervention Plans.

Lemma keys_set_assoc {A} (k : string) (v : A) (l : list (string * A)) :
  map fst (set_assoc k v l)
  = if existsb (String.eqb k) (map fst l) then map fst l
    else map fst l ++ [k].
Proof.
  induction l as [|[k' v'] l IH]; simpl; [done|].
  destruct (String.eqb k k') eqn:E; simpl.
  - apply String.eqb_eq in E as ->. done.
  - rewrite IH. by destruct (existsb _ _).
Qed.

Lemma existsb_eqb_In (k : string) (l : list string) :
  existsb (String.eqb k) l = true <-> In k l.
Proof.
  rewrite existsb_exists. split.
  - intros (x & Hx & E). by apply String.eqb_eq in E as ->.
  - intros H. exists k. split; [done|apply String.eqb_refl].
Qed.

Lemma group_by_timeline_keys (recommendations : list Recommendation)
    (groups : list (string * list string)) (t : string) :
  In t (map fst
          (foldl (fun (timeline_groups : list (string * list string)) r =>
                    let timeline := timeline r in
                    let timeline_groups :=
                      if negb (existsb (String.eqb timeline)
                                 (map fst timeline_groups))
                      then set_assoc timeline [] timeline_groups
                      else timeline_groups in
                    set_assoc timeline
                      (default [] (assoc timeline timeline_groups)
                       ++ [factor r])
                      timeline_groups)
                 groups recommendations))
  <-> In t (map fst groups) \/ In t (map timeline recommendations).
Proof.
  revert groups. induction recommendations as [|r recs IH]; intros groups.
  - simpl. tauto.
  - cbn [foldl]. rewrite IH. cbv zeta. rewrite !keys_set_assoc.
    destruct (existsb (String.eqb (timeline r)) (map fst groups)) eqn:E;
      cbn [negb].
    + rewrite E. apply existsb_eqb_In in E. simpl. split.
      * intros [H|H]; auto.
      * intros [H|[<-|H]]; auto.
    + rewrite keys_set_assoc, E.
      assert (E' : existsb (String.eqb (timeline r))
                     (map fst groups ++ [timeline r]) = true).
      { apply existsb_eqb_In, in_or_app. right. by left. }
      rewrite E'. rewrite in_app_iff. simpl. tauto.
Qed.

Lemma max_weeks_loop_returns (timelines : list string) (max_weeks : Z) :
  returns (max_weeks_loop timelines max_weeks)
  <-> Forall (fun t => returns (weeks_of t)) timelines.
Proof.
  revert max_weeks. induction timelines as [|t ts IH]; intros max_weeks; simpl.
  - split; [constructor | by eexists].
  - destruct (weeks_of t) as [w|e] eqn:E; simpl.
    + rewrite IH. split.
      * intros H. constructor; [|done]. rewrite E. by eexists.
      * intros H. by apply Forall_cons in H as [_ H].
    + split; [by intros [? ?]|]. intros H.
      apply Forall_cons in H as [[? H] _]. congruence.
Qed.

(** X20. A plan can be drawn up exactly when the timeline of every
    recommendation names a number of weeks where the code reads one: the
    first word after the dash if there is a dash, the first word
    otherwise. Any other timeline makes the call raise. *)
Theorem plan_needs_readable_timelines (now student_id : string)
    (recommendations : list Recommendation) :
  returns (generate_intervention_plan now student_id recommendations)
  <-> Forall (fun r => returns (weeks_of (timeline r))) recommendations.
Proof.
  unfold generate_intervention_plan.
  assert (H : returns (_calculate_plan_timeline recommendations)
              <-> Forall (fun r => returns (weeks_of (timeline r)))
                         recommendations).
  { unfold _calculate_plan_timeline.
    destruct recommendations as [|r recs] eqn:Hrecs;
      [split; [constructor | by eexists]|].
    rewrite <- Hrecs. clear Hrecs.
    match goal with |- returns (x <- ?m ;; _)%py <-> _ =>
      assert (Hm : returns m
                   <-> Forall (fun r => returns (weeks_of (timeline r)))
                              recommendations) end.
    { rewrite max_weeks_loop_returns, !Forall_forall. unfold group_by_timeline.
      split.
      - intros H x Hx. apply H. apply list_elem_of_In.
        apply group_by_timeline_keys. right. apply in_map.
        by apply list_elem_of_In.
      - intros H t Ht. apply list_elem_of_In in Ht.
        apply group_by_timeline_keys in Ht as [[]|Ht].
        apply in_map_iff in Ht as (x & <- & Hx). apply H.
        by apply list_elem_of_In. }
    rewrite <- Hm.
    destruct (max_weeks_loop _ _) as [w|e]; simpl;
      split; intros [? ?]; try done; by eexists. }
  rewrite <- H.
  destruct (_calculate_plan_timeline recommendations) as [t|e]; simpl;
    split; intros [? ?]; try done; by eexists.
Qed.

(** A timeline that names no number: the plan cannot be drawn up. *)
Example open_ended_plan_raises :
  generate_intervention_plan "2024-03-01T08:00:00" "s1" [open_ended]
  = Raise (ValueError "invalid literal for int() with base 10").
Proof. reflexivity. Qed.

(** *** The log of custom interventions *)

(** X21. [add_custom_intervention] appends the dict it is given to the list of
    the student and to no other list, and it writes into that dict: its
    ['created_date'] and ['type'] are overwritten, its other keys and
    every other dict are left alone. The list holds the dict itself, so
    wherever the same dict was logged before, for this or another
    student, the entry now shows the new date and type. *)
Theorem custom_intervention_is_shared (now : string)
    (self : InterventionRecommender) (student_id : string)
    (intervention : nat) :
  let self' := add_custom_intervention now self student_id intervention in
  get_intervention_history self' student_id
  = get_intervention_history self student_id ++ [intervention]
  /\ (forall other, other <> student_id ->
        get_intervention_history self' other
        = get_intervention_history self other)
  /\ (forall j, j <> intervention -> objects self' !! j = objects self !! j)
  /\ (forall other k,
        get_intervention_history self' other !! k = Some intervention ->
        exists d,
          contents self' (get_intervention_history self' other) !! k = Some d
          /\ d !! "created_date" = Some now
          /\ d !! "type" = Some "custom"
          /\ forall key, key <> "created_date" -> key <> "type" ->
               d !! key = default ∅ (objects self !! intervention) !! key)
  /\ intervention_history self' = intervention_history self.
Proof.
  cbv zeta. unfold add_custom_intervention, get_intervention_history.
  cbn [custom_interventions objects intervention_history].
  split; [|split; [|split; [|split]]].
  - rewrite lookup_insert_eq. simpl.
    destruct (custom_interventions self !! student_id) as [l|] eqn:E.
    + by rewrite E.
    + by rewrite lookup_insert_eq.
  - intros other Hother. rewrite lookup_insert_ne by done.
    destruct (custom_interventions self !! student_id) as [l|] eqn:E;
      [done|]. by rewrite lookup_insert_ne.
  - intros j Hj. by rewrite lookup_insert_ne.
  - intros other k Hk. unfold contents.
    cbn [objects]. rewrite list_lookup_fmap, Hk. simpl.
    rewrite lookup_insert_eq. simpl. eexists. split; [reflexivity|].
    split; [|split].
    + rewrite lookup_insert_ne by done. by rewrite lookup_insert_eq.
    + by rewrite lookup_insert_eq.
    + intros key H1 H2. by rewrite !lookup_insert_ne.
  - done.
Qed.

(** The dict logged for [s1] is logged again for [s2]: the entry of [s1]
    now carries the later date. *)
Example shared_dict_is_restamped :
  let self' :=
    add_custom_intervention "2024-02-02T10:00:00" one_logged "s2" 7 in
  map (fun d : gmap string string => d !! "created_date")
      (contents one_logged (get_intervention_history one_logged "s1"))
  = [Some "2024-01-01T09:00:00"]
  /\ map (fun d : gmap string string => d !! "created_date")
         (contents self' (get_intervention_history self' "s1"))
     = [Some "2024-02-02T10:00:00"].
Proof. split; reflexivity. Qed.

(** X22. [track_intervention_outcome] adds the outcome at the end of what the
    report of that student lists, and leaves the report of every other
    student and all custom interventions as they were. *)
Theorem outcome_tracking_is_per_student (now report_time : string)
    (self : InterventionRecommender) (student_id intervention_id : string)
    (outcome : gmap string pyvalue) :
  let self' :=
    track_intervention_outcome now self student_id intervention_id outcome in
  tracked_outcomes (generate_intervention_report report_time self' student_id)
  = tracked_outcomes (generate_intervention_report report_time self student_id)
    ++ [mkOutcome student_id intervention_id outcome now]
  /\ total_outcomes (generate_intervention_report report_time self' student_id)
     = S (total_outcomes
            (generate_intervention_report report_time self student_id))
  /\ (forall other, other <> student_id ->
        generate_intervention_report report_time self' other
        = generate_intervention_report report_time self other)
  /\ custom_interventions self' = custom_interventions self
  /\ objects self' = objects self.
Proof.
  cbv zeta.
  unfold generate_intervention_report, track_intervention_outcome,
    get_intervention_history.
  cbn [tracked_outcomes total_outcomes custom_interventions objects
       intervention_history].
  rewrite !List.filter_app. simpl. rewrite String.eqb_refl.
  split; [done|]. split; [rewrite length_app; simpl; lia|].
  split; [|done]. intros other Hother.
  rewrite List.filter_app. simpl.
  apply String.eqb_neq in Hother. rewrite String.eqb_sym in Hother.
  rewrite Hother. by rewrite app_nil_r.
Qed.

Lemma filter_all_length {A} (f : A -> bool) (l : list A) :
  (length (List.filter f l) <= length l)%nat
  /\ (length (List.filter f l) = length l <-> Forall (fun x => f x = true) l).
Proof.
  induction l as [|x l [IH1 IH2]]; simpl.
  - split; [lia|]. split; [constructor | done].
  - destruct (f x) eqn:E; simpl.
    + split; [lia|]. split.
      * intros H. constructor; [done|]. apply IH2. lia.
      * intros H. apply Forall_cons in H as [_ H]. apply IH2 in H. lia.
    + split; [lia|]. split; [lia|].
      intros H. apply Forall_cons in H as [H _]. congruence.
Qed.

(** X23. The success rate is a share: it lies between 0 and 1, it is 0 for an
    empty list of outcomes, and it is 1 exactly when there is an outcome
    and every outcome has a true ['success'] entry. The rate of the
    statistics is this rate, taken over the whole history. *)
Theorem success_rate_is_a_share (outcomes : list outcome_record)
    (self : InterventionRecommender) :
  (0 <= _calculate_success_rate outcomes <= 1)%Q
  /\ (_calculate_success_rate outcomes == 1
      <-> outcomes <> [] /\ Forall (fun o => succeeded o = true) outcomes)%Q
  /\ stat_success_rate (get_intervention_statistics self)
     = _calculate_success_rate (intervention_history self).
Proof.
  split; [|split].
  - unfold _calculate_success_rate. destruct outcomes as [|o os] eqn:E;
      [split; discriminate|].
    rewrite <- E. assert (Hne : (0 < length outcomes)%nat)
      by (subst; simpl; lia). clear E.
    pose proof (proj1 (filter_all_length succeeded outcomes)) as Hle.
    rewrite Qred_correct. unfold Qdiv.
    assert (Hpos : (0 < inject_Z (Z.of_nat (length outcomes)))%Q).
    { rewrite <- (Zlt_Qlt 0). lia. }
    split.
    + apply Qle_shift_div_l; [done|]. rewrite Qmult_0_l.
      rewrite <- (Zle_Qle 0). lia.
    + apply Qle_shift_div_r; [done|]. rewrite Qmult_1_l.
      rewrite <- Zle_Qle. lia.
  - unfold _calculate_success_rate. destruct outcomes as [|o os] eqn:E.
    + split; [discriminate | by intros [? _]].
    + rewrite <- E. assert (Hne : (0 < length outcomes)%nat)
        by (subst; simpl; lia).
      assert (Hnil : outcomes <> []) by (by subst). clear E.
      pose proof (filter_all_length succeeded outcomes) as [Hle Hall].
      rewrite Qred_correct.
      assert (Hlt : (0 < inject_Z (Z.of_nat (length outcomes)))%Q).
      { rewrite <- (Zlt_Qlt 0). lia. }
      assert (Hpos : ~ (inject_Z (Z.of_nat (length outcomes)) == 0)%Q).
      { intros H. rewrite H in Hlt. by apply Qlt_irrefl in Hlt. }
      set (a := inject_Z (Z.of_nat (length (List.filter succeeded outcomes)))).
      set (b := inject_Z (Z.of_nat (length outcomes))).
      fold b in Hpos.
      assert (Hab : (a / b == 1 <-> a == b)%Q).
      { split; intros H.
        - assert (H0 : (a == a / b * b)%Q) by (field; exact Hpos).
          rewrite H, Qmult_1_l in H0. exact H0.
        - rewrite H. field. exact Hpos. }
      rewrite Hab. unfold a, b. rewrite inject_Z_injective, Nat2Z.inj_iff, Hall.
      tauto.
  - unfold get_intervention_statistics, _calculate_success_rate.
    cbn [stat_success_rate].
    by destruct (intervention_history self).
Qed.

Lemma total_Permutation (l l' : list (string * list nat)) :
  l ≡ₚ l' ->
  foldr Nat.add 0%nat (map length (map snd l))
  = foldr Nat.add 0%nat (map length (map snd l')).
Proof.
  induction 1 as [|x l l' _ IH|x y l|l l' l'' _ IH1 _ IH2]; simpl;
    [done|by rewrite IH|lia|by rewrite IH1].
Qed.

Lemma total_insert (m : gmap string (list nat)) (k : string) (l : list nat) :
  (foldr Nat.add 0%nat (map length (map snd (map_to_list (<[k := l]> m))))
   + length (default [] (m !! k)))%nat
  = (length l
     + foldr Nat.add 0%nat (map length (map snd (map_to_list m))))%nat.
Proof.
  assert (Hfresh : forall (m' : gmap string (list nat)) l',
            m' !! k = None ->
            foldr Nat.add 0%nat
              (map length (map snd (map_to_list (<[k := l']> m'))))
            = (length l'
               + foldr Nat.add 0%nat
                   (map length (map snd (map_to_list m'))))%nat).
  { intros m' l' Hm'.
    by rewrite (total_Permutation _ _ (map_to_list_insert m' k l' Hm')). }
  destruct (m !! k) as [old|] eqn:E; simpl.
  - rewrite <- (insert_delete_eq m k l).
    replace (map_to_list m) with (map_to_list (<[k := old]> (delete k m)))
      by (by rewrite insert_delete_id).
    rewrite !Hfresh by apply lookup_delete_eq. lia.
  - rewrite Hfresh by done. lia.
Qed.

(** X24. Each call of [add_custom_intervention] raises the total of the
    statistics by one; the number of students with interventions goes up
    by one when the student had no list yet and stays otherwise; the
    counts and the rate of the outcomes are untouched. *)
Theorem statistics_count_interventions (now : string)
    (self : InterventionRecommender) (student_id : string)
    (intervention : nat) :
  let before := get_intervention_statistics self in
  let after :=
    get_intervention_statistics
      (add_custom_intervention now self student_id intervention) in
  stat_total_interventions after = S (stat_total_interventions before)
  /\ students_with_interventions after
     = match custom_interventions self !! student_id with
       | Some _ => students_with_interventions before
       | None => S (students_with_interventions before)
       end
  /\ stat_total_outcomes after = stat_total_outcomes before
  /\ stat_success_rate after = stat_success_rate before.
Proof.
  cbv zeta. unfold get_intervention_statistics, add_custom_intervention.
  cbn [stat_total_interventions students_with_interventions
       stat_total_outcomes stat_success_rate custom_interventions
       intervention_history objects].
  split; [|split; [|done]].
  - destruct (custom_interventions self !! student_id) as [old|] eqn:E.
    + pose proof (total_insert (custom_interventions self) student_id
                    (old ++ [intervention])) as H.
      rewrite E in H. simpl in H. rewrite length_app in H. simpl in H.
      rewrite E. simpl. lia.
    + rewrite lookup_insert_eq. simpl.
      rewrite insert_insert_eq.
      pose proof (total_insert (custom_interventions self) student_id
                    [intervention]) as H.
      rewrite E in H. simpl in H. lia.
  - destruct (custom_interventions self !! student_id) as [old|] eqn:E.
    + rewrite map_size_insert, E. done.
    + rewrite insert_insert_eq, map_size_insert, E. done.
Qed.

(** *** Counting resources and metrics *)

Lemma occurrences_of_pos (x : string) (items : list string) :
  In x items <-> (0 < occurrences_of x items)%nat.
Proof.
  unfold occurrences_of. induction items as [|y items IH]; simpl.
  - split; [done | lia].
  - destruct (String.eqb x y) eqn:E; simpl.
    + apply String.eqb_eq in E as ->. split; [lia | auto].
    + apply String.eqb_neq in E. rewrite <- IH. split; [|auto].
      intros [->|H]; [done|exact H].
Qed.

Lemma count_all_fold (items : list string) (acc : list (string * nat)) :
  NoDup (map fst acc) ->
  let counts :=
    foldl (fun counts x =>
             set_assoc x (default 0%nat (assoc x counts) + 1)%nat counts)
          acc items in
  NoDup (map fst counts)
  /\ (forall x, default 0%nat (assoc x counts)
                = (default 0%nat (assoc x acc) + occurrences_of x items)%nat)
  /\ (forall x, In x (map fst counts) <-> In x (map fst acc) \/ In x items).
Proof.
  cbv zeta. revert acc. induction items as [|y items IH]; intros acc Hnd.
  - simpl. split; [done|]. split; [intros x; unfold occurrences_of; simpl; lia|].
    tauto.
  - cbn [foldl].
    set (acc' := set_assoc y (default 0%nat (assoc y acc) + 1)%nat acc).
    assert (Hkeys : map fst acc'
                    = if existsb (String.eqb y) (map fst acc)
                      then map fst acc else map fst acc ++ [y])
      by apply keys_set_assoc.
    assert (Hnd' : NoDup (map fst acc')).
    { rewrite Hkeys. destruct (existsb _ _) eqn:E; [done|].
      apply NoDup_app. split; [done|]. split; [|apply NoDup_singleton].
      intros x Hx Hy. apply list_elem_of_singleton in Hy as ->.
      apply list_elem_of_In, existsb_eqb_In in Hx. congruence. }
    destruct (IH acc' Hnd') as (H1 & H2 & H3).
    split; [exact H1|]. split.
    + intros x. rewrite H2. unfold occurrences_of, acc'. simpl.
      destruct (String.eqb x y) eqn:E.
      * apply String.eqb_eq in E as ->. rewrite assoc_set_assoc_eq.
        simpl. lia.
      * apply String.eqb_neq in E.
        rewrite assoc_set_assoc_ne by congruence. done.
    + intros x. rewrite H3, Hkeys. simpl.
      destruct (existsb _ _) eqn:E.
      * apply existsb_eqb_In in E. split; [tauto|].
        intros [H|[<-|H]]; auto.
      * rewrite in_app_iff. simpl. tauto.
Qed.

Lemma count_all_spec (items : list string) :
  NoDup (map fst (count_all items))
  /\ (forall x n, In (x, n) (count_all items)
                  <-> In x items /\ n = occurrences_of x items).
Proof.
  destruct (count_all_fold items [] (NoDup_nil_2)) as (H1 & H2 & H3).
  fold (count_all items) in H1, H2, H3. split; [exact H1|].
  intros x n. split.
  - intros Hin. apply list_elem_of_In in Hin.
    pose proof (assoc_NoDup x n _ H1 Hin) as Ha.
    split.
    + assert (Hk : In x (map fst (count_all items))).
      { apply in_map_iff. exists (x, n). split; [done|].
        by apply list_elem_of_In. }
      apply H3 in Hk as [[]|Hk]. exact Hk.
    + specialize (H2 x). rewrite Ha in H2. simpl in H2. exact H2.
  - intros [Hin ->].
    assert (Hk : In x (map fst (count_all items))) by (apply H3; auto).
    apply in_map_iff in Hk as ([x' n] & Hx & Hk). simpl in Hx. subst x'.
    assert (Ha : assoc x (count_all items) = Some n).
    { apply assoc_NoDup; [done|]. by apply list_elem_of_In. }
    specialize (H2 x). rewrite Ha in H2. simpl in H2. by rewrite <- H2.
Qed.

Lemma filter_split_length {A} (f g : A -> bool) (l : list A) :
  Forall (fun x => f x = negb (g x)) l ->
  length l = (length (List.filter f l) + length (List.filter g l))%nat.
Proof.
  induction 1 as [|x l Hx _ IH]; [done|]. cbn [List.filter].
  rewrite Hx. destruct (g x); cbn [negb length]; lia.
Qed.

(** X25. The metrics of a plan are split by how many recommendations name
    them: a metric is primary exactly when it is named at least twice,
    secondary exactly when it is named once, and the total counts each
    named metric once. *)
Theorem metrics_are_partitioned (recommendations : list Recommendation) :
  let all_metrics := concat (map success_metrics recommendations) in
  let metrics := _define_success_metrics recommendations in
  (forall m, In m (primary_metrics metrics)
             <-> (2 <= occurrences_of m all_metrics)%nat)
  /\ (forall m, In m (secondary_metrics metrics)
                <-> occurrences_of m all_metrics = 1%nat)
  /\ total_metrics metrics
     = (length (primary_metrics metrics)
        + length (secondary_metrics metrics))%nat.
Proof.
  cbv zeta. unfold _define_success_metrics.
  cbn [primary_metrics secondary_metrics total_metrics].
  set (all_metrics := concat _).
  destruct (count_all_spec all_metrics) as [Hnd Hspec].
  split; [|split].
  - intros m. rewrite in_map_iff. split.
    + intros ([m' n] & <- & Hin). apply filter_In in Hin as [Hin Hn].
      apply Hspec in Hin as [_ ->]. simpl in *. by apply Nat.leb_le.
    + intros H. exists (m, occurrences_of m all_metrics). split; [done|].
      apply filter_In. split; [|by apply Nat.leb_le].
      apply Hspec. split; [|done]. apply occurrences_of_pos. lia.
  - intros m. rewrite in_map_iff. split.
    + intros ([m' n] & <- & Hin). apply filter_In in Hin as [Hin Hn].
      apply Hspec in Hin as [_ ->]. simpl in *. by apply Nat.eqb_eq.
    + intros H. exists (m, occurrences_of m all_metrics). split; [done|].
      apply filter_In. split; [|by apply Nat.eqb_eq].
      apply Hspec. split; [|done]. apply occurrences_of_pos. lia.
  - rewrite !length_map.
    assert (Hpos : Forall (fun mc : string * nat => (1 <= mc.2)%nat)
                     (count_all all_metrics)).
    { apply Forall_forall. intros [m n] Hin. apply list_elem_of_In in Hin.
      apply Hspec in Hin as [Hin ->]. simpl.
      apply occurrences_of_pos in Hin. lia. }
    apply filter_split_length. eapply Forall_impl; [exact Hpos|].
    intros [m n] Hn. cbn [fst snd] in *.
    destruct (Nat.leb_spec 2 n), (Nat.eqb_spec n 1); cbn [negb];
      try done; lia.
Qed.

(** X26. Every resource the recommendations need is listed, with the number of
    times it is needed, as a human resource, a system resource or another
    resource; the other resources are those that are neither human nor
    system, while one resource can be listed as both human and system. *)
Theorem resources_are_categorised (recommendations : list Recommendation) :
  let all_resources := concat (map resources_needed recommendations) in
  let required := _calculate_resource_requirements recommendations in
  (forall r, In r all_resources
             <-> In r (map fst (human_resources required
                                ++ system_resources required
                                ++ other_resources required)))
  /\ (forall r, In r (map fst (other_resources required)) ->
                ~ In r (map fst (human_resources required))
                /\ ~ In r (map fst (system_resources required)))
  /\ (forall r n, In (r, n) (human_resources required
                             ++ system_resources required
                             ++ other_resources required) ->
                  n = occurrences_of r all_resources).
Proof.
  cbv zeta. unfold _calculate_resource_requirements. cbv zeta.
  cbn [human_resources system_resources other_resources].
  set (all_resources := concat _).
  set (counts := count_all all_resources).
  set (human := List.filter _ (map fst counts)).
  set (system := List.filter
                   (any_keyword ["system"; "access"; "materials"; "content"])
                   (map fst counts)).
  set (other := List.filter _ (map fst counts)).
  destruct (count_all_spec all_resources) as [Hnd Hspec].
  fold counts in Hnd, Hspec.
  assert (Hkeys : forall r, In r (map fst counts) <-> In r all_resources).
  { intros r. rewrite in_map_iff. split.
    - intros ([r' n] & <- & Hin). by apply Hspec in Hin as [Hin _].
    - intros Hin. exists (r, occurrences_of r all_resources).
      split; [done|]. by apply Hspec. }
  assert (Hnames : forall names : list string,
            map fst (map (fun r => (r, default 0%nat (assoc r counts))) names)
            = names).
  { intros names. rewrite map_map. simpl. apply map_id. }
  split; [|split].
  - intros r. rewrite !map_app, !Hnames, !in_app_iff, <- Hkeys. split.
    + intros Hin.
      destruct (existsb (String.eqb r) human) eqn:E1;
        [left; by apply existsb_eqb_In|].
      destruct (existsb (String.eqb r) system) eqn:E2;
        [right; left; by apply existsb_eqb_In|].
      right. right. unfold other. apply filter_In. split; [done|].
      by rewrite E1, E2.
    + intros [H|[H|H]]; [unfold human in H|unfold system in H|unfold other in H];
        by apply filter_In in H as [H _].
  - intros r. rewrite !Hnames. unfold other. rewrite filter_In.
    intros [_ H]. apply andb_true_iff in H as [H1 H2].
    apply negb_true_iff in H1, H2. split; intros Hin.
    + apply existsb_eqb_In in Hin. congruence.
    + apply existsb_eqb_In in Hin. congruence.
  - intros r n Hin.
    assert (Hn : n = default 0%nat (assoc r counts)
                 /\ In r (map fst counts)).
    { rewrite !in_app_iff, !in_map_iff in Hin.
      destruct Hin as [(x & [= <- <-] & Hx)|[(x & [= <- <-] & Hx)
                      |(x & [= <- <-] & Hx)]];
        apply filter_In in Hx as [Hx _]; done. }
    destruct Hn as [-> Hk]. apply in_map_iff in Hk as ([r' k] & Hr & Hk).
    simpl in Hr. subst r'.
    rewrite (assoc_NoDup r k counts Hnd) by (by apply list_elem_of_In).
    simpl. by apply Hspec in Hk as [_ ->].
Qed.

End PlansMore.

(** ** The seven recommendations (intervention_system.py) *)

Section RecommendationsMore.

Import Spec Cases DataProcessor Preprocessing Intervention Plans.

Lemma analyze_candidates (student_data : gmap string pyfloat)
    (shap_values : list Q) (feature_names : list string) :
  analyze_student_risk_factors student_data shap_values feature_names
  = take 5 (sort_desc (fun x y => key_gtb (sort_key x) (sort_key y))
              (candidates student_data (dict_zip feature_names shap_values))).
Proof.
  unfold analyze_student_risk_factors, candidates. cbv zeta.
  by rewrite app_nil_l, <- !app_assoc.
Qed.

(** The values read from the two dicts become variables and each of the
    seven records gets a name, so that the cases below stay small. *)
Ltac name_records :=
  unfold candidates, _analyze_attendance_risk,
    _analyze_academic_performance_risk, _analyze_financial_risk,
    _analyze_engagement_risk, _analyze_behavioral_risk; cbv zeta;
  repeat match goal with
         | |- context [get ?d ?k ?v] => generalize (get d k v); intro
         end;
  repeat match goal with
         | |- context [Qabs ?v] => generalize (Qabs v); intro
         end;
  repeat match goal with
         | |- context [Text (if ?b then ?x else ?y)] =>
             generalize (Text (if b then x else y)); intro
         end;
  repeat match goal with
         | |- context [mkRecommendation ?a ?b ?c ?d ?e ?f ?g ?h ?i ?j ?k] =>
             let r := fresh "r" in
             set (r := mkRecommendation a b c d e f g h i j k)
         end.

(** One case for each outcome of the tests that are left. *)
Ltac split_cases :=
  repeat match goal with
         | |- context [if ?b then _ else _] => destruct b
         end.

Ltac pick := solve [repeat first [left; reflexivity | right]].

(** X27. The cut to five never removes an urgent recommendation: whatever the
    student's values and the attributions, every recommendation the
    analyses make with a priority score above 5 (Low Attendance, Financial
    Issues, Poor Academic Performance, Socioeconomic Challenges,
    Assignment Delays) is in the list returned; only Low Online
    Engagement and Low Online Activity can be dropped. *)
Theorem urgent_recommendations_survive (student_data : gmap string pyfloat)
    (shap_values : list Q) (feature_names : list string)
    (r : Recommendation) :
  In r (candidates student_data (dict_zip feature_names shap_values)) ->
  (5 < priority_score r)%Z ->
  In r (analyze_student_risk_factors student_data shap_values feature_names).
Proof.
  rewrite analyze_candidates.
  generalize (dict_zip feature_names shap_values). intros feature_impacts.
  revert r. name_records. split_cases.
  all: intros x Hin Hp; cbn [app In] in Hin;
    repeat match goal with
           | H : _ \/ _ |- _ => destruct H as [<-|H]
           | H : False |- _ => destruct H
           end; cbn in Hp; try lia.
  all: cbn.
  all: split_cases; cbn.
  all: pick.
Qed.

Lemma urgent_recommendations_survive_witness :
  In socioeconomic_challenges
     (analyze_student_risk_factors struggling_student [0.3; -0.2]%Q
        ["fee_payment_status"; "attendance_percentage"]).
Proof.
  apply urgent_recommendations_survive; [|reflexivity].
  vm_compute. pick.
Defined.

Lemma impact_bound (feature_names : list string) (shap_values : list Q)
    (k : string) (b : Q) :
  (b <= 0)%Q -> Forall (fun v => (b <= v)%Q) shap_values ->
  (b <= get (dict_zip feature_names shap_values) k 0)%Q.
Proof.
  intros Hb H. unfold get, dict_zip.
  assert (Hall : forall m : gmap string Q,
            (forall k v, m !! k = Some v -> (b <= v)%Q) ->
            forall l : list (string * Q),
              Forall (fun p => (b <= p.2)%Q) l ->
              forall k v,
                foldl (fun d p => <[p.1 := p.2]> d) m l !! k = Some v ->
                (b <= v)%Q).
  { intros m Hm l Hl. revert m Hm.
    induction Hl as [|p l Hp _ IH]; intros m Hm; simpl; [exact Hm|].
    apply IH. intros k' v'. destruct (decide (k' = p.1)) as [->|Hne].
    - rewrite lookup_insert_eq. by intros [= <-].
    - rewrite lookup_insert_ne by done. apply Hm. }
  destruct (foldl _ _ _ !! k) as [v|] eqn:E; simpl; [|done].
  eapply (Hall ∅); [| |exact E].
  - intros k' v'. by rewrite lookup_empty.
  - clear E. revert feature_names. induction H as [|v' vs Hv _ IH];
      intros [|n ns]; simpl; constructor; auto.
Qed.

(** X28. An attribution triggers a recommendation only by being negative
    enough. When no attribution is below -0.05, the attributions, however
    large, change nothing to which recommendations are made: the factors
    returned are those returned without any attribution, up to the order
    of two factors of equal priority. *)
Theorem large_attributions_never_trigger (student_data : gmap string pyfloat)
    (shap_values : list Q) (feature_names : list string) :
  Forall (fun v => (-0.05 <= v)%Q) shap_values ->
  map factor
      (analyze_student_risk_factors student_data shap_values feature_names)
  ≡ₚ map factor (analyze_student_risk_factors student_data [] []).
Proof.
  intros H.
  assert (H1 : forall k,
            Qltb (get (dict_zip feature_names shap_values) k 0%Q) (-0.1)
            = false).
  { intros k. apply Qltb_false. apply (Qle_trans _ (-0.05)); [done|].
    apply impact_bound; [done | exact H]. }
  assert (H2 : forall k,
            Qltb (get (dict_zip feature_names shap_values) k 0%Q) (-0.05)
            = false).
  { intros k. apply Qltb_false. apply impact_bound; [done | exact H]. }
  assert (H3 : forall k t, (t < 0)%Q ->
            Qltb (get (dict_zip [] []) k 0%Q) t = false).
  { intros k t Ht. apply Qltb_false. unfold get, dict_zip. simpl.
    rewrite lookup_empty. simpl. by apply Qlt_le_weak. }
  rewrite !analyze_candidates.
  unfold candidates, _analyze_attendance_risk,
    _analyze_academic_performance_risk, _analyze_financial_risk,
    _analyze_engagement_risk, _analyze_behavioral_risk; cbv zeta.
  rewrite !H1, !H2, !H3, !orb_false_r by done.
  name_records. split_cases.
  all: cbn.
  all: split_cases.
  all: first [reflexivity | apply Permutation_swap].
Qed.

Lemma large_attributions_never_trigger_witness :
  map factor (analyze_student_risk_factors struggling_student [0.9; 0.4]%Q
                ["lms_login_count_monthly"; "attendance_percentage"])
  ≡ₚ map factor (analyze_student_risk_factors struggling_student [] []).
Proof.
  apply large_attributions_never_trigger.
  repeat constructor; discriminate.
Defined.

(** X29. For the recommendations [analyze_student_risk_factors] returns, a
    plan can always be drawn up. Each of them counts as high or medium
    priority and none as low; the plan lasts 0, 2, 3, 4 or 6 weeks; and
    no success metric is shared by two of them, so the plan has two
    metrics for each recommendation and never a primary one. *)
Theorem generated_plan_is_sound (now student_id : string)
    (student_data : gmap string pyfloat) (shap_values : list Q)
    (feature_names : list string) :
  exists plan,
    generate_intervention_plan now student_id
      (analyze_student_risk_factors student_data shap_values feature_names)
    = Return plan
    /\ (high_priority_count plan + medium_priority_count plan
        = total_recommendations plan)%nat
    /\ low_priority_count plan = 0%nat
    /\ (total_recommendations plan <= 5)%nat
    /\ In (total_duration (plan_timeline plan))
          ["0 weeks"; "2 weeks"; "3 weeks"; "4 weeks"; "6 weeks"]
    /\ primary_metrics (plan_success_metrics plan) = []
    /\ total_metrics (plan_success_metrics plan)
       = (2 * total_recommendations plan)%nat.
Proof.
  rewrite analyze_candidates.
  generalize (dict_zip feature_names shap_values). intros feature_impacts.
  name_records. split_cases.
  all: cbn.
  all: split_cases.
  all: vm_compute.
  all: (eexists; split; [reflexivity|]).
  all: repeat split; try reflexivity; try lia; try pick.
Qed.

End RecommendationsMore.

(* ===================================================================== *)
(** ** The missing-value step under copy-on-write                         *)
(* ===================================================================== *)

Section InPlaceMore.

Import DataProcessor Spec Cases.

(** X30. Under copy-on-write the missing-value step fills nothing: a table
    with distinct labels is returned as it was given, every gap still in
    it, next to the counts and the warnings of the step. *)
Theorem copy_on_write_fills_nothing (df : DataFrame) :
  NoDup (column_names df) ->
  _handle_missing_values true df
  = (df, map (info_of (nrows df)) (columns df),
     omap (warning_of (nrows df)) (columns df)).
Proof.
  intros Hnd. pose proof (copy_on_write_keeps_the_table df Hnd) as Hdf.
  rewrite (_handle_missing_values_columns true df Hnd) in *.
  unfold processed in *. simpl in Hdf. by rewrite Hdf.
Qed.

Lemma copy_on_write_fills_nothing_witness :
  (_handle_missing_values true gaps).1.1 = gaps
  /\ column (_handle_missing_values true gaps).1.1 "b"
     = [NaN; Float 3; Float 1; Float 2]
  /\ column (_handle_missing_values false gaps).1.1 "b"
     = [Float 2; Float 3; Float 1; Float 2].
Proof.
  rewrite (copy_on_write_fills_nothing gaps).
  - by repeat split.
  - apply NoDup_ListNoDup. repeat constructor; simpl; intuition discriminate.
Defined.

End InPlaceMore.
